(** * golf-cam: the capture controller and its camera backends

    A shallow embedding of [swing_camera.py] (class [SwingCamera]) and of
    [camera_backends.py] (the three [CameraBackend] implementations), with
    the properties the specification states about them.

    Conventions of the model.
    - Paths are strings in pathlib's normal form, written relative to the
      controller's [output_dir]; a leading slash marks an absolute path.
    - The disk records which paths exist, and which of them refuse to be
      removed, written or parsed; file contents are not tracked.
    - Time is an integer number of milliseconds; [time.sleep(0.1)] advances
      the clock by 100.
    - Python exceptions are values of [PyExc]; every method is a function
      of the system state that returns a value or raises, together with
      the state it leaves behind. *)

From Stdlib Require Import ZArith Ascii String Lia Bool.
From stdpp Require Import base decidable option list strings gmap sorting.

Local Open Scope Z_scope.

(** ** Strings as Python uses them *)

Module Str.

Definition startswith (s p : string) : bool := String.prefix p s.

Definition chars (s : string) : list ascii := list_ascii_of_string s.

(** [s.endswith(suf)] *)
Definition endswith (s suf : string) : bool :=
  bool_decide (chars suf `suffix_of` chars s).

(** [s[:-k]] for a string of at least [k] characters *)
Definition drop_last (k : nat) (s : string) : string :=
  string_of_list_ascii (take (length (chars s) - k) (chars s)).

Fixpoint contains (c : ascii) (s : string) : bool :=
  match s with
  | EmptyString => false
  | String a s' => if Ascii.eqb a c then true else contains c s'
  end.

Fixpoint drop (k : nat) (s : string) : string :=
  match k, s with
  | O, _ => s
  | S k', EmptyString => EmptyString
  | S k', String _ s' => drop k' s'
  end.

(** [s.split(sep)] for a one-character separator: never empty. *)
Fixpoint split (sep : ascii) (s : string) : list string :=
  match s with
  | EmptyString => [EmptyString]
  | String a s' =>
      if Ascii.eqb a sep then EmptyString :: split sep s'
      else match split sep s' with
           | [] => [String a EmptyString]
           | w :: ws => String a w :: ws
           end
  end.

(** Cut a string at its last occurrence of [c]: the part before it and
    the part from it on ([s.rfind(c)] as a split). *)
Fixpoint rcut (c : ascii) (s : string) : option (string * string) :=
  match s with
  | EmptyString => None
  | String a s' =>
      match rcut c s' with
      | Some (b, e) => Some (String a b, e)
      | None => if Ascii.eqb a c then Some (EmptyString, s) else None
      end
  end.

End Str.

(** ** pathlib *)

Module PurePath.

Definition sep : ascii := "/"%char.
Definition dot : ascii := "."%char.

(** The parts pathlib keeps when it parses a string: empty components
    and single dots are dropped, [..] is kept. *)
Definition parts (s : string) : list string :=
  filter (fun p => p ≠ EmptyString ∧ p ≠ "."%string) (Str.split sep s).

Definition is_absolute (s : string) : bool := Str.startswith s "/".

(** [output_dir / s], and also [Path(s)] for a string that already
    denotes a path under (or outside) the output directory. *)
Definition joinpath (s : string) : string :=
  ((if is_absolute s then "/" else "") +:+ String.concat "/" (parts s))%string.

(** The final component and what precedes it (with its slash). *)
Definition name (p : string) : string :=
  match Str.rcut sep p with
  | Some (_, String _ n) => n
  | Some (_, EmptyString) => EmptyString
  | None => p
  end.

Definition parent_prefix (p : string) : string :=
  match Str.rcut sep p with
  | Some (b, _) => (b +:+ "/")%string
  | None => EmptyString
  end.

(** [PurePath.suffix] on a final component: the text from the last dot
    on, unless that dot is the first or the last character. *)
Definition name_suffix (n : string) : string :=
  match Str.rcut dot n with
  | Some (String _ _, String d (String c e)) => String d (String c e)
  | _ => EmptyString
  end.

Definition name_stem (n : string) : string :=
  match Str.rcut dot n with
  | Some (String a b, String _ (String _ _)) => String a b
  | _ => n
  end.

Definition suffix (p : string) : string := name_suffix (name p).

(** [p.with_suffix(suf)]; [None] stands for the [ValueError] pathlib
    raises on a path with an empty name. *)
Definition with_suffix (p suf : string) : option string :=
  match name p with
  | EmptyString => None
  | n => Some (parent_prefix p +:+ name_stem n +:+ suf)%string
  end.

(** Entries of the output directory itself. *)
Definition is_entry (p : string) : bool :=
  negb (Str.contains sep p) && negb (String.eqb p "") &&
  negb (String.eqb p ".") && negb (String.eqb p "..").

(** [fnmatch] against the pattern [swing_*.*]. *)
Definition glob_swing (n : string) : bool :=
  Str.startswith n "swing_" && Str.contains dot (Str.drop 6 n).

End PurePath.

(** ** Exceptions, the disk and the system state *)

Inductive PyExc : Type :=
| FileNotFoundError
| PermissionError
| JSONDecodeError
| ValueError
| AttributeError
| ZeroDivisionError
| RuntimeError
| TimeoutExpired.

(** The output directory as the controller sees it. [stuck] paths make
    [os.remove] raise, [readonly] paths make [open(p, 'w')] raise,
    [garbled] paths make [json.load] raise, and [not_dict] paths hold JSON
    that is not an object (a list, [null], a number), so that [.get] on
    what [json.load] returns raises. *)
Record Disk : Type := mkDisk {
  files : gset string;
  stuck : gset string;
  readonly : gset string;
  garbled : gset string;
  not_dict : gset string
}.

Inductive LMState : Type := IDLE | ARMED | PROCESSING.

Definition LMState_value (st : LMState) : string :=
  match st with
  | IDLE => "idle"
  | ARMED => "armed"
  | PROCESSING => "processing"
  end.

Global Instance LMState_eq_dec : EqDecision LMState.
Proof. solve_decision. Defined.

Inductive BackendKind : Type := PiCamera2Backend | OpenCVBackend | DemoBackend.

(** The two [threading.Event] objects the controller owns. *)
Inductive EventRef : Type := RecordingEvent | LMCancelEvent.

Inductive Thread : Type := WorkerThread.

Record Config : Type := mkConfig {
  width : Z;
  height : Z;
  fps : Z;
  duration : Z;
  format : string;
  shutter_speed : Z;
  auto_exposure : bool;
  upload_enabled : bool;
  upload_destination : string;
  lm_max_recording_duration : Z
}.

(** The attributes of a [SwingCamera] object. *)
Record SwingCamera : Type := mkCamera {
  config : Config;
  backend : BackendKind;
  recording : bool;
  recording_event : bool;
  lm_state : LMState;
  lm_recording_thread : option Thread;
  lm_temp_file : option string;
  lm_recording_start_time : option Z;
  lm_cancel_event : bool
}.

Inductive Level : Type := WARNING | ERROR.

(** The whole system: the controller object, the disk, the clock, a
    cancellation that another thread is about to raise ([signal_due] is
    the time at which it calls [lm_cancel_event.set()]), the warnings and
    errors logged so far, the uploads started, and the number of frames
    handed to a software video writer. *)
Record Sys : Type := mkSys {
  cam : SwingCamera;
  disk : Disk;
  now : Z;
  signal_due : option Z;
  log : list (Level * string);
  uploads : list string;
  frames : nat
}.

(** What the camera hardware and the installed libraries do; the code has
    no control over these. A faulty camera library raises either when it
    is asked to record ([fault_after] is [None]) or only once the output
    has been opened: with [Some n] it works for [n] frames, and the next
    call into it after that ([camera.read()], and at the latest
    [stop_recording()] or [writer.release()]) raises. *)
Record Hardware : Type := mkHardware {
  camera_fault : bool;   (* the camera library raises during [record] *)
  writer_opens : bool;   (* [cv2.VideoWriter(...).isOpened()] *)
  has_cv2 : bool;        (* [import cv2] works in the demo backend *)
  read_ms : Z;           (* how long one [camera.read()] blocks *)
  frames_ready : nat;    (* reads that deliver a frame before one fails *)
  fault_after : option nat  (* where a faulty library raises *)
}.

(** How [subprocess.run(cmd, timeout=...)] ends: the process exits, runs
    into the timeout, or cannot be started because the program is not
    there ([FileNotFoundError]) or may not be executed
    ([PermissionError]). *)
Inductive ProcOutcome : Type :=
| Exited (returncode : Z) (wrote_output : bool)
| TimedOut
| LaunchFailed
| LaunchDenied.

(** ** A state-and-exception monad for Python methods *)

Inductive Res (A : Type) : Type :=
| Val (a : A)
| Exn (e : PyExc).
Arguments Val {A} a.
Arguments Exn {A} e.

Definition M (A : Type) : Type := Sys -> Res A * Sys.

Definition ret {A} (a : A) : M A := fun s => (Val a, s).

Definition bind {A B} (m : M A) (k : A -> M B) : M B :=
  fun s => match m s with
           | (Val a, s') => k a s'
           | (Exn e, s') => (Exn e, s')
           end.

Definition raise {A} (e : PyExc) : M A := fun s => (Exn e, s).

Definition gets {A} (f : Sys -> A) : M A := fun s => (Val (f s), s).

Definition modify (f : Sys -> Sys) : M unit := fun s => (Val tt, f s).

(** [try: body  except Exception as e: handler e] *)
Definition try_except {A} (body : M A) (handler : PyExc -> M A) : M A :=
  fun s => match body s with
           | (Val a, s') => (Val a, s')
           | (Exn e, s') => handler e s'
           end.

(** [try: body  finally: fin] *)
Definition try_finally {A} (body : M A) (fin : M unit) : M A :=
  fun s => match body s with
           | (r, s') =>
               match fin s' with
               | (Val _, s'') => (r, s'')
               | (Exn e, s'') => (Exn e, s'')
               end
           end.

Declare Scope py_scope.
Delimit Scope py_scope with py.
Notation "x <- m ;; k" := (bind m (fun x => k))
  (at level 100, m at next level, right associativity) : py_scope.
Notation "m ;;; k" := (bind m (fun _ => k))
  (at level 100, right associativity) : py_scope.
Local Open Scope py_scope.

Definition when (b : bool) (m : M unit) : M unit := if b then m else ret tt.

(** ** Field updates *)

Definition set_recording (v : bool) (c : SwingCamera) : SwingCamera :=
  mkCamera (config c) (backend c) v (recording_event c) (lm_state c)
           (lm_recording_thread c) (lm_temp_file c)
           (lm_recording_start_time c) (lm_cancel_event c).
Definition set_recording_event (v : bool) (c : SwingCamera) : SwingCamera :=
  mkCamera (config c) (backend c) (recording c) v (lm_state c)
           (lm_recording_thread c) (lm_temp_file c)
           (lm_recording_start_time c) (lm_cancel_event c).
Definition set_lm_state (v : LMState) (c : SwingCamera) : SwingCamera :=
  mkCamera (config c) (backend c) (recording c) (recording_event c) v
           (lm_recording_thread c) (lm_temp_file c)
           (lm_recording_start_time c) (lm_cancel_event c).
Definition set_lm_recording_thread (v : option Thread) (c : SwingCamera)
  : SwingCamera :=
  mkCamera (config c) (backend c) (recording c) (recording_event c)
           (lm_state c) v (lm_temp_file c)
           (lm_recording_start_time c) (lm_cancel_event c).
Definition set_lm_temp_file (v : option string) (c : SwingCamera)
  : SwingCamera :=
  mkCamera (config c) (backend c) (recording c) (recording_event c)
           (lm_state c) (lm_recording_thread c) v
           (lm_recording_start_time c) (lm_cancel_event c).
Definition set_lm_recording_start_time (v : option Z) (c : SwingCamera)
  : SwingCamera :=
  mkCamera (config c) (backend c) (recording c) (recording_event c)
           (lm_state c) (lm_recording_thread c) (lm_temp_file c)
           v (lm_cancel_event c).
Definition set_lm_cancel_event (v : bool) (c : SwingCamera) : SwingCamera :=
  mkCamera (config c) (backend c) (recording c) (recording_event c)
           (lm_state c) (lm_recording_thread c) (lm_temp_file c)
           (lm_recording_start_time c) v.

Definition with_cam (f : SwingCamera -> SwingCamera) (s : Sys) : Sys :=
  mkSys (f (cam s)) (disk s) (now s) (signal_due s) (log s) (uploads s)
        (frames s).
Definition with_files (f : gset string -> gset string) (s : Sys) : Sys :=
  mkSys (cam s)
        (mkDisk (f (files (disk s))) (stuck (disk s)) (readonly (disk s))
                (garbled (disk s)) (not_dict (disk s)))
        (now s) (signal_due s) (log s) (uploads s) (frames s).

(** Assignment to an attribute of [self]. *)
Definition assign (f : SwingCamera -> SwingCamera) : M unit :=
  modify (with_cam f).

Definition self : M SwingCamera := gets cam.

(** ** Primitives of the environment *)

Definition logged (lvl : Level) (msg : string) (s : Sys) : Sys :=
  mkSys (cam s) (disk s) (now s) (signal_due s) (log s ++ [(lvl, msg)])
        (uploads s) (frames s).

Definition logger (lvl : Level) (msg : string) : M unit :=
  modify (logged lvl msg).

Definition time_time : M Z := gets now.

(** Letting [d] milliseconds pass. A cancellation that falls due by the
    new time has been raised by then. *)
Definition advance (d : Z) (s : Sys) : Sys :=
  let t := now s + d in
  match signal_due s with
  | Some c =>
      if c <=? t
      then mkSys (set_lm_cancel_event true (cam s)) (disk s) t None
                 (log s) (uploads s) (frames s)
      else mkSys (cam s) (disk s) t (Some c) (log s) (uploads s) (frames s)
  | None => mkSys (cam s) (disk s) t None (log s) (uploads s) (frames s)
  end.

Definition time_sleep (d : Z) : M unit :=
  if d <? 0 then raise ValueError else modify (advance d).

Definition event_is_set (ev : EventRef) : M bool :=
  gets (fun s => match ev with
                 | RecordingEvent => recording_event (cam s)
                 | LMCancelEvent => lm_cancel_event (cam s)
                 end).

Definition event_set (ev : EventRef) : M unit :=
  match ev with
  | RecordingEvent => assign (set_recording_event true)
  | LMCancelEvent => assign (set_lm_cancel_event true)
  end.

Definition event_clear (ev : EventRef) : M unit :=
  match ev with
  | RecordingEvent => assign (set_recording_event false)
  | LMCancelEvent => assign (set_lm_cancel_event false)
  end.

Definition path_exists (p : string) : M bool :=
  gets (fun s => bool_decide (p ∈ files (disk s))).

Definition os_remove (p : string) : M unit :=
  fun s =>
    if bool_decide (p ∈ files (disk s)) then
      if bool_decide (p ∈ stuck (disk s)) then (Exn PermissionError, s)
      else (Val tt, with_files (fun fs => fs ∖ {[p]}) s)
    else (Exn FileNotFoundError, s).

Definition os_path_getsize (p : string) : M unit :=
  fun s =>
    if bool_decide (p ∈ files (disk s)) then (Val tt, s)
    else (Exn FileNotFoundError, s).

(** [with open(p, 'w') as f: ...] *)
Definition open_write (p : string) : M unit :=
  fun s =>
    if bool_decide (p ∈ readonly (disk s)) then (Exn PermissionError, s)
    else (Val tt, with_files (fun fs => fs ∪ {[p]}) s).

(** [with open(p, 'r') as f: json.load(f)] *)
Definition json_load (p : string) : M unit :=
  fun s =>
    if bool_decide (p ∈ files (disk s)) then
      if bool_decide (p ∈ garbled (disk s)) then (Exn JSONDecodeError, s)
      else (Val tt, s)
    else (Exn FileNotFoundError, s).

(** [metadata.get(key)] on what was loaded from [p]: only a JSON object
    has the method. *)
Definition dict_get (p : string) : M unit :=
  fun s =>
    if bool_decide (p ∈ not_dict (disk s)) then (Exn AttributeError, s)
    else (Val tt, s).

(** A file produced by an encoder or a video writer outside Python. *)
Definition encoder_output (p : string) : M unit :=
  modify (with_files (fun fs => fs ∪ {[p]})).

Definition write_frame : M unit :=
  modify (fun s => mkSys (cam s) (disk s) (now s) (signal_due s) (log s)
                         (uploads s) (S (frames s))).

(** The external trimming process: it either ends with a return code,
    having written its output file or not, or runs into the timeout, or
    cannot be launched. *)
Definition subprocess_run (proc : ProcOutcome) (output : string) : M Z :=
  match proc with
  | Exited code wrote =>
      when wrote (encoder_output output) ;;; ret code
  | TimedOut => raise TimeoutExpired
  | LaunchFailed => raise FileNotFoundError
  | LaunchDenied => raise PermissionError
  end.

(** [str(e)] for an exception: its text is represented by the name of
    its class. *)
Definition py_exc_str (e : PyExc) : string :=
  match e with
  | FileNotFoundError => "FileNotFoundError"
  | PermissionError => "PermissionError"
  | JSONDecodeError => "JSONDecodeError"
  | ValueError => "ValueError"
  | AttributeError => "AttributeError"
  | ZeroDivisionError => "ZeroDivisionError"
  | RuntimeError => "RuntimeError"
  | TimeoutExpired => "TimeoutExpired"
  end.

(** [str(x)] for a value that is a path or [None]. *)
Definition py_str (p : option string) : string :=
  match p with
  | Some q => q
  | None => "None"
  end.

Section Program.

(** [datetime.now().strftime("%Y%m%d_%H%M%S")] as a function of the clock. *)
Variable strftime : Z -> string.
Variable hw : Hardware.

(** ** camera_backends.py *)

(** All three [record] methods start with the same rewriting:
    [if output_str.endswith('.h264'): output_str = output_str[:-5] + '.mp4'] *)
Definition mp4_name (output_str : string) : string :=
  if Str.endswith output_str ".h264"
  then (Str.drop_last 5 output_str +:+ ".mp4")%string
  else output_str.

(** [cancel_event and cancel_event.is_set()] *)
Definition cancel_requested (cancel_event : option EventRef) : M bool :=
  match cancel_event with
  | Some ev => event_is_set ev
  | None => ret false
  end.

(** The wait loop of [PiCamera2Backend.record]. *)
Fixpoint pi_wait (fuel : nat) (start_time duration_ms : Z)
         (cancel_event : option EventRef) : M unit :=
  match fuel with
  | O => ret tt
  | S fuel' =>
      t <- time_time ;;
      if t - start_time <? duration_ms then
        stop <- cancel_requested cancel_event ;;
        if (stop : bool) then ret tt
        else time_sleep 100 ;;;
             pi_wait fuel' start_time duration_ms cancel_event
      else ret tt
  end.

Definition pi_fuel (duration_ms : Z) : nat := Z.to_nat (duration_ms / 100) + 2.

(** Where a faulty camera library raises: when the recording is set up,
    at the read or write of frame [n], or when the recording is stopped. *)
Definition fault_at_start : bool :=
  camera_fault hw && bool_decide (fault_after hw = None).
Definition fault_at_frame (n : nat) : bool :=
  camera_fault hw && bool_decide (fault_after hw = Some n).
Definition fault_at_stop : bool :=
  camera_fault hw && bool_decide (is_Some (fault_after hw)).

Definition PiCamera2_record (output_path : option string) (dur : Z)
           (cancel_event : option EventRef) : M string :=
  c <- self ;;
  let output_str := mp4_name (py_str output_path) in
  (* frame_duration_us = int(1_000_000 / target_fps) *)
  when (fps (config c) =? 0) (raise ZeroDivisionError) ;;;
  (* 1/{int(1000000/self.config['shutter_speed'])}s in the log line *)
  when (negb (auto_exposure (config c)) && (shutter_speed (config c) =? 0))
       (raise ZeroDivisionError) ;;;
  (* set_controls, H264Encoder, FfmpegOutput, start_recording *)
  when fault_at_start (raise RuntimeError) ;;;
  encoder_output output_str ;;;
  start_time <- time_time ;;
  pi_wait (pi_fuel (1000 * dur)) start_time (1000 * dur) cancel_event ;;;
  (* self.camera.stop_recording() *)
  when fault_at_stop (raise RuntimeError) ;;;
  ret output_str.

(** The frame loop of [OpenCVBackend.record]; [delivered] counts the
    reads that have returned a frame. *)
Fixpoint cv_loop (fuel : nat) (delivered : nat) (start_time duration_ms : Z)
         (cancel_event : option EventRef) : M unit :=
  match fuel with
  | O => ret tt
  | S fuel' =>
      t <- time_time ;;
      if t - start_time <? duration_ms then
        stop <- cancel_requested cancel_event ;;
        if (stop : bool) then ret tt
        else
          (* ret, frame = self.camera.read() ... self.writer.write(frame) *)
          when (fault_at_frame delivered) (raise RuntimeError) ;;;
          modify (advance (Z.max 0 (read_ms hw))) ;;;
          if (delivered <? frames_ready hw)%nat then
            write_frame ;;;
            cv_loop fuel' (S delivered) start_time duration_ms cancel_event
          else logger WARNING "Failed to read frame"
      else ret tt
  end.

Definition OpenCV_record (output_path : option string) (dur : Z)
           (cancel_event : option EventRef) : M string :=
  (* self.camera.get(...) *)
  when fault_at_start (raise RuntimeError) ;;;
  let output_str := mp4_name (py_str output_path) in
  (* the codec search and its mp4v fallback *)
  when (writer_opens hw) (encoder_output output_str) ;;;
  start_time <- time_time ;;
  cv_loop (S (frames_ready hw)) 0 start_time (1000 * dur) cancel_event ;;;
  (* self.writer.release() *)
  when fault_at_stop (raise RuntimeError) ;;;
  ret output_str.

(** [for i in range(num_frames): ... writer.write(frame)] *)
Fixpoint demo_frames (num_frames : nat) : M unit :=
  match num_frames with
  | O => ret tt
  | S n => write_frame ;;; demo_frames n
  end.

(** The fallback of [DemoBackend.record]: sleep, then write a
    placeholder file. *)
Definition demo_placeholder (output_str : string) (dur : Z) : M string :=
  time_sleep (1000 * dur) ;;;
  open_write output_str ;;;
  logger WARNING "Demo mode: cv2 not available, created placeholder file" ;;;
  ret output_str.

Definition Demo_record (output_path : option string) (dur : Z)
           (cancel_event : option EventRef) : M string :=
  c <- self ;;
  let output_str := mp4_name (py_str output_path) in
  if has_cv2 hw then
    if writer_opens hw then
      let num_frames := Z.to_nat (fps (config c) * dur) in
      encoder_output output_str ;;;
      demo_frames num_frames ;;;
      ret output_str
    else demo_placeholder output_str dur
  else demo_placeholder output_str dur.

(** [self.backend.record(output_path, duration, cancel_event)] *)
Definition backend_record (output_path : option string) (dur : Z)
           (cancel_event : option EventRef) : M string :=
  c <- self ;;
  match backend c with
  | PiCamera2Backend => PiCamera2_record output_path dur cancel_event
  | OpenCVBackend => OpenCV_record output_path dur cancel_event
  | DemoBackend => Demo_record output_path dur cancel_event
  end.

(** ** swing_camera.py *)

Definition extension (c : SwingCamera) : string :=
  if String.eqb (format (config c)) "h264" then ".h264" else ".mp4".

(** [_save_metadata]: the dictionary it builds and returns is not
    tracked, the sidecar file it writes is. *)
Definition _save_metadata (video_path : string) (timestamp : string)
  : M unit :=
  os_path_getsize video_path ;;;
  match PurePath.with_suffix video_path ".json" with
  | None => raise ValueError
  | Some metadata_path => open_write metadata_path
  end.

(** [_upload_file] starts a daemon thread and returns. *)
Definition upload_started (file_path : string) (s : Sys) : Sys :=
  mkSys (cam s) (disk s) (now s) (signal_due s) (log s)
        (uploads s ++ [file_path]) (frames s).

Definition _upload_file (file_path : string) : M unit :=
  modify (upload_started file_path).

Definition default_name (timestamp : string) : string :=
  ("swing_" +:+ timestamp)%string.

(** [custom_name if custom_name else f"swing_{timestamp}"] *)
Definition chosen_name (custom_name : option string) (timestamp : string)
  : string :=
  match custom_name with
  | Some n => if String.eqb n "" then default_name timestamp else n
  | None => default_name timestamp
  end.

(** [capture_swing]. The backend is an object the controller holds, and
    [self.backend.record] is whatever that object does: the method is a
    parameter of the body, so that what [capture_swing] does around the
    call can be stated for any behaviour of the backend. *)
Definition capture_swing_with
           (record : option string -> Z -> option EventRef -> M string)
           (custom_name : option string) : M (option string) :=
  c <- self ;;
  if recording c then
    logger WARNING "Already recording!" ;;; ret None
  else
    t <- time_time ;;
    let timestamp := strftime t in
    let filename := chosen_name custom_name timestamp in
    let output_path := PurePath.joinpath (filename +:+ extension c) in
    try_except
      (assign (set_recording true) ;;;
       event_clear RecordingEvent ;;;
       actual <- record (Some output_path) (duration (config c)) None ;;
       let actual_output_path := PurePath.joinpath actual in
       assign (set_recording false) ;;;
       event_set RecordingEvent ;;;
       _save_metadata actual_output_path timestamp ;;;
       when (upload_enabled (config c)) (_upload_file actual_output_path) ;;;
       ret (Some actual_output_path))
      (fun e =>
         logger ERROR "Recording failed" ;;;
         assign (set_recording false) ;;;
         event_set RecordingEvent ;;;
         ret None).

(** [capture_swing] with the three backends of [camera_backends.py]. *)
Definition capture_swing (custom_name : option string) : M (option string) :=
  capture_swing_with backend_record custom_name.

(** The path [capture_swing] asks the backend to record to, the state in
    which it makes that call, and the state in which it goes on once the
    call has returned in state [s2]. *)
Definition capture_output_path (custom_name : option string) (s : Sys)
  : string :=
  PurePath.joinpath
    (chosen_name custom_name (strftime (now s)) +:+ extension (cam s)).

Definition capture_started (s : Sys) : Sys :=
  with_cam (set_recording_event false) (with_cam (set_recording true) s).

Definition capture_recorded (s2 : Sys) : Sys :=
  with_cam (set_recording_event true) (with_cam (set_recording false) s2).

(** The dictionaries the launch-monitor methods return. *)
Inductive LMResult : Type :=
| LMError (message : string)
| LMArmed (max_duration : Z)
| LMSuccess (filename path : string)
| LMAlreadyIdle
| LMCancelled.

Record LMStatus : Type := mkStatus {
  st_state : string;
  st_recording_duration : Z;
  st_max_duration : Z
}.

(** [arm_launch_monitor]. Starting the thread stores its handle; what the
    worker then does is [_lm_continuous_record] below. *)
Definition arm_launch_monitor : M LMResult :=
  c <- self ;;
  if negb (bool_decide (lm_state c = IDLE)) then
    logger WARNING "Cannot arm: already in state" ;;;
    ret (LMError ("Already " +:+ LMState_value (lm_state c)))
  else if recording c then
    logger WARNING "Cannot arm: regular recording in progress" ;;;
    ret (LMError "Camera busy with regular recording")
  else
    t <- time_time ;;
    let timestamp := strftime t in
    assign (set_lm_temp_file
              (Some (PurePath.joinpath
                       ("temp_lm_" +:+ timestamp +:+ extension c)))) ;;;
    assign (set_lm_state ARMED) ;;;
    t' <- time_time ;;
    assign (set_lm_recording_start_time (Some t')) ;;;
    event_clear LMCancelEvent ;;;
    assign (set_lm_recording_thread (Some WorkerThread)) ;;;
    ret (LMArmed (lm_max_recording_duration (config c))).

(** [_extract_clip]; [proc] is how the ffmpeg process ends. *)
Definition _extract_clip (input_path : option string) (output_path : string)
           (dur : Z) (proc : ProcOutcome) : M bool :=
  try_except
    (returncode <- subprocess_run proc output_path ;;
     if returncode =? 0 then
       match input_path with
       | None => raise AttributeError      (* None.exists() *)
       | Some p =>
           present <- path_exists p ;;
           when present (os_remove p)
       end ;;;
       ret true
     else
       logger ERROR "FFmpeg failed" ;;; ret false)
    (fun e =>
       match e with
       | TimeoutExpired =>
           logger ERROR "FFmpeg extraction timed out" ;;; ret false
       | _ => logger ERROR "Extraction failed" ;;; ret false
       end).

(** [self.lm_recording_thread.join(timeout=5)]: the caller waits; the
    wait itself changes nothing. *)
Definition thread_join : M unit :=
  c <- self ;;
  match lm_recording_thread c with
  | Some _ => ret tt
  | None => ret tt
  end.

Definition reset_lm : M unit :=
  assign (set_lm_state IDLE) ;;;
  assign (set_lm_temp_file None) ;;;
  assign (set_lm_recording_start_time None).

Definition shot_detected (proc : ProcOutcome) : M LMResult :=
  c <- self ;;
  if negb (bool_decide (lm_state c = ARMED)) then
    logger WARNING "Cannot detect shot: not armed" ;;;
    ret (LMError ("Not armed (state: " +:+ LMState_value (lm_state c) +:+ ")"))
  else
    assign (set_lm_state PROCESSING) ;;;
    event_set LMCancelEvent ;;;
    thread_join ;;;
    try_except
      (t <- time_time ;;
       let timestamp := strftime t in
       let filename := default_name timestamp in
       let output_path := PurePath.joinpath (filename +:+ extension c) in
       c' <- self ;;
       success <- _extract_clip (lm_temp_file c') output_path
                                (duration (config c)) proc ;;
       if (success : bool) then
         _save_metadata output_path timestamp ;;;
         when (upload_enabled (config c)) (_upload_file output_path) ;;;
         reset_lm ;;;
         ret (LMSuccess (PurePath.name output_path) output_path)
       else
         reset_lm ;;;
         ret (LMError "Failed to extract clip"))
      (fun e =>
         logger ERROR "Shot detection failed" ;;;
         reset_lm ;;;
         ret (LMError (py_exc_str e))).

Definition cancel_launch_monitor : M LMResult :=
  c <- self ;;
  if bool_decide (lm_state c = IDLE) then ret LMAlreadyIdle
  else
    event_set LMCancelEvent ;;;
    assign (set_lm_state IDLE) ;;;
    thread_join ;;;
    c' <- self ;;
    match lm_temp_file c' with
    | Some p =>
        present <- path_exists p ;;
        when present
             (try_except (os_remove p)
                         (fun e => logger ERROR "Failed to delete temp file"))
    | None => ret tt
    end ;;;
    assign (set_lm_temp_file None) ;;;
    assign (set_lm_recording_start_time None) ;;;
    ret LMCancelled.

(** [round(x, 2)] for a time of [ms] milliseconds, as a number of
    hundredths of a second. Python rounds the binary float: a value half
    way between two hundredths goes up or down as the float at hand lies,
    which [half_up] tells. *)
Variable half_up : Z -> bool.

Definition round2 (ms : Z) : Z :=
  let q := ms / 10 in
  let r := ms mod 10 in
  if r <? 5 then q
  else if 5 <? r then q + 1
  else if half_up ms then q + 1 else q.

(** [get_lm_status]. The reported duration is in hundredths of a second.
    A start time of zero is falsy in Python. *)
Definition get_lm_status : M LMStatus :=
  c <- self ;;
  t <- time_time ;;
  let recording_duration :=
    match lm_recording_start_time c with
    | Some t0 => if t0 =? 0 then 0 else t - t0
    | None => 0
    end in
  ret (mkStatus (LMState_value (lm_state c)) (round2 recording_duration)
                (lm_max_recording_duration (config c))).

(** The call the worker makes:
    [self.backend.record(self.lm_temp_file, max_duration)]. *)
Definition worker_record_call : M string :=
  c <- self ;;
  backend_record (lm_temp_file c) (lm_max_recording_duration (config c)) None.

(** What the worker does once its [record] call is over. *)
Definition lm_after_record : M unit :=
  cancelled <- event_is_set LMCancelEvent ;;
  if (cancelled : bool) then ret tt
  else
    logger WARNING "Launch monitor timeout - cancelling" ;;;
    assign (set_lm_state IDLE) ;;;
    c <- self ;;
    match lm_temp_file c with
    | Some p =>
        present <- path_exists p ;;
        when present (os_remove p)
    | None => ret tt
    end ;;;
    assign (set_lm_temp_file None) ;;;
    assign (set_lm_recording_start_time None).

(** The inner [try ... finally] and the outer handler of the worker,
    around a [record] call that is given as [call]. *)
Definition lm_guarded (call : M string) : M unit :=
  try_finally
    (actual_output_path <- call ;; lm_after_record)
    (assign (set_recording false)).

Definition lm_handler (e : PyExc) : M unit :=
  logger ERROR "Continuous recording failed" ;;;
  assign (set_lm_state IDLE) ;;;
  assign (set_recording false).

(** [_lm_continuous_record], the body of the worker thread. *)
Definition _lm_continuous_record : M unit :=
  try_except
    (assign (set_recording true) ;;;
     lm_guarded worker_record_call)
    lm_handler.

(** The worker seen from the other threads: it sets the flag when it
    starts, and when its [record] call ends (as [outcome] says) it runs
    the rest of its body on the state it then finds. *)
Definition worker_enter : M unit := assign (set_recording true).

Definition worker_leave (outcome : Res string) : M unit :=
  try_except
    (lm_guarded (match outcome with
                 | Val p => ret p
                 | Exn e => raise e
                 end))
    lm_handler.

(** [output_dir.glob('swing_*.*')]: the matching entries of the output
    directory, in the order the directory yields them. *)
Definition glob_swing_entries (d : Disk) : list string :=
  filter (fun p => PurePath.is_entry p && PurePath.glob_swing p = true)
         (elements (files d)).

Definition is_video (p : string) : bool :=
  String.eqb (PurePath.suffix p) ".h264" || String.eqb (PurePath.suffix p) ".mp4".

(** The loop of [get_recordings]; an entry is represented by its name. *)
Fixpoint get_recordings_loop (todo : list string) (recordings : list string)
  : M (list string) :=
  match todo with
  | [] => ret recordings
  | file :: rest =>
      if negb (is_video file) then get_recordings_loop rest recordings
      else
        match PurePath.with_suffix file ".json" with
        | None => raise ValueError
        | Some metadata_file =>
            present <- path_exists metadata_file ;;
            when present (json_load metadata_file) ;;;
            (* os.path.getsize(file), os.path.getctime(file) *)
            os_path_getsize file ;;;
            get_recordings_loop rest (recordings ++ [PurePath.name file])
        end
  end.

(** [for file in sorted(self.output_dir.glob('swing_*.*')): ...] *)
Definition get_recordings : M (list string) :=
  d <- gets disk ;;
  get_recordings_loop (merge_sort String.le (glob_swing_entries d)) [].

(** [delete_recording]. [metadata] is [{}] unless the sidecar exists, and
    the two [metadata.get(...)] calls are outside any handler. The Google
    Drive calls, which are wrapped in handlers of their own, do not touch
    the disk; what they log is not tracked. *)
Definition delete_recording (filename : string) : M unit :=
  let file_path := PurePath.joinpath filename in
  match PurePath.with_suffix file_path ".json" with
  | None => raise ValueError
  | Some metadata_path =>
      present <- path_exists file_path ;;
      when (negb present) (raise FileNotFoundError) ;;;
      has_metadata <- path_exists metadata_path ;;
      when has_metadata (json_load metadata_path) ;;;
      (* metadata.get('gdrive_file_id'), .get('gdrive_metadata_file_id') *)
      when has_metadata (dict_get metadata_path) ;;;
      still_there <- path_exists file_path ;;
      when still_there (os_remove file_path) ;;;
      metadata_there <- path_exists metadata_path ;;
      when metadata_there (os_remove metadata_path)
  end.

Definition is_listed_suffix (p : string) : bool :=
  is_video p || String.eqb (PurePath.suffix p) ".json".

Fixpoint delete_all_loop (todo : list string) (count : nat) : M nat :=
  match todo with
  | [] => ret count
  | file :: rest =>
      if negb (is_listed_suffix file) then delete_all_loop rest count
      else if String.eqb (PurePath.suffix file) ".json"
      then delete_all_loop rest count
      else
        count' <- try_except
                    (delete_recording (PurePath.name file) ;;; ret (S count))
                    (fun e => logger ERROR "Failed to delete" ;;; ret count) ;;
        delete_all_loop rest count'
  end.

(** [for file in list(self.output_dir.glob('swing_*.*')): ...] *)
Definition delete_all_recordings : M nat :=
  d <- gets disk ;;
  delete_all_loop (glob_swing_entries d) 0%nat.

End Program.

(** ** The launch-monitor invariant of the specification *)

(** The temp-file path and the arm timestamp are set exactly when the
    state is not [IDLE]: each of the two is. *)
Definition lm_invariant (c : SwingCamera) : Prop :=
  (lm_temp_file c ≠ None ↔ lm_state c ≠ IDLE)
  ∧ (lm_recording_start_time c ≠ None ↔ lm_state c ≠ IDLE).

(** A name that is a single path component. *)
Definition plain_name (n : string) : Prop :=
  Str.contains PurePath.sep n = false.

(** The Pi camera library does not fail and the configuration
    does not make [record] divide by zero. *)
Definition pi_healthy (hw : Hardware) (c : SwingCamera) : Prop :=
  camera_fault hw = false
  ∧ fps (config c) ≠ 0
  ∧ (auto_exposure (config c) = true ∨ shutter_speed (config c) ≠ 0).

(** ** Concrete inputs used by the examples *)

Module Sample.

(** The configuration of the specification's concrete scenario. *)
Definition conf (fmt : string) : Config :=
  mkConfig 640 480 30 5 fmt 2000 false false "" 10.

Definition camera (b : BackendKind) (fmt : string) : SwingCamera :=
  mkCamera (conf fmt) b false false IDLE None None None false.

Definition disk_of (present : gset string) : Disk :=
  mkDisk present ∅ ∅ ∅ ∅.

Definition fresh (b : BackendKind) (fmt : string) : Sys :=
  mkSys (camera b fmt) (disk_of ∅) 1000 None [] [] 0.

Definition stamp (t : Z) : string := "20250101_120000".

(** Working hardware, with and without OpenCV for the demo backend. *)
Definition steady : Hardware := mkHardware false true true 33 1000 None.
Definition bare : Hardware := mkHardware false true false 33 1000 None.
(** A camera whose library raises when recording starts. *)
Definition faulty : Hardware := mkHardware true true true 33 1000 None.
(** A camera whose library raises only once the output has been opened. *)
Definition failing_late : Hardware :=
  mkHardware true true true 33 1000 (Some 0%nat).

(** Another thread raises the cancellation signal at time [c]. *)
Definition with_signal_at (c : Z) (s : Sys) : Sys :=
  mkSys (cam s) (disk s) (now s) (Some c) (log s) (uploads s) (frames s).

Definition with_disk (d : Disk) (s : Sys) : Sys :=
  mkSys (cam s) d (now s) (signal_due s) (log s) (uploads s) (frames s).

(** An armed launch monitor whose temp file exists. *)
Definition armed (p : string) : SwingCamera :=
  mkCamera (conf "mp4") PiCamera2Backend true false ARMED
           (Some WorkerThread) (Some p) (Some 1000) false.

Definition armed_sys (p : string) (d : Disk) : Sys :=
  mkSys (armed p) d 3000 None [] [] 0.

End Sample.

(** ** Further parts of the two modules *)

(** The state in which [shot_detected] waits for the worker and runs the
    extraction, the path it extracts to, and the reset it ends with. *)
Definition shot_started (s : Sys) : Sys :=
  with_cam (set_lm_cancel_event true) (with_cam (set_lm_state PROCESSING) s).

Definition shot_output_path (strftime : Z → string) (s : Sys) : string :=
  PurePath.joinpath (default_name (strftime (now s)) +:+ extension (cam s)).

Definition lm_cleared (s : Sys) : Sys :=
  with_cam (set_lm_recording_start_time None)
    (with_cam (set_lm_temp_file None) (with_cam (set_lm_state IDLE) s)).

(** [SwingCamera.start], [SwingCamera.stop] and [SwingCamera.cleanup]. The
    backend methods they call are outside Python's control: [backend_ok]
    says whether the call returns, and a call that does not raises. *)
Definition backend_call (backend_ok : bool) : M unit :=
  if backend_ok then ret tt else raise RuntimeError.

Definition SwingCamera_start (start_ok : bool) : M unit :=
  try_except (backend_call start_ok)
             (fun e => logger ERROR "Camera start failed" ;;; raise e).

Definition SwingCamera_stop (stop_ok : bool) : M unit :=
  try_except (backend_call stop_ok)
             (fun e => logger ERROR "Camera stop failed").

Definition SwingCamera_cleanup (stop_ok cleanup_ok : bool) : M unit :=
  try_except
    (c <- self ;;
     when (negb (bool_decide (lm_state c = IDLE)))
          (r <- cancel_launch_monitor ;; ret tt) ;;;
     c' <- self ;;
     when (recording c') (SwingCamera_stop stop_ok) ;;;
     backend_call cleanup_ok)
    (fun e => logger ERROR "Cleanup failed").

(** [PiCamera2Backend._apply_sensor_crop]: the geometry it asks for ... *)
Definition SENSOR_WIDTH : Z := 1440.
Definition SENSOR_HEIGHT : Z := 1088.

(** [width = width + (width % 2)] *)
Definition even_up (n : Z) : Z := n + n mod 2.

(** [crop_x = (SENSOR_WIDTH - width) // 2; crop_x = crop_x - (crop_x % 2)] *)
Definition crop_offset (sensor size : Z) : Z :=
  let c := (sensor - size) / 2 in c - c mod 2.

Record SensorCrop : Type := mkCrop {
  crop_width : Z;
  crop_height : Z;
  crop_x : Z;
  crop_y : Z
}.

Definition sensor_crop (w h : Z) : SensorCrop :=
  let w' := even_up w in
  let h' := even_up h in
  mkCrop w' h' (crop_offset SENSOR_WIDTH w') (crop_offset SENSOR_HEIGHT h').

(** ... and the scan over [/dev/media0] to [/dev/media5] and the two I2C
    addresses. [media_ctl n addr] is how the [media-ctl] process started
    for that device ends. A timeout and a missing tool are caught and the
    scan goes on; no other exception is caught, so a tool that may not be
    executed makes the call raise. *)
Definition crop_targets : list (nat * string) :=
  flat_map (fun media_num => [(media_num, "11-001a"); (media_num, "10-001a")])
           (seq 0 6).

Fixpoint crop_scan (media_ctl : nat → string → ProcOutcome)
         (targets : list (nat * string)) : Res (option (nat * string)) :=
  match targets with
  | [] => Val None
  | (media_num, camera_addr) :: rest =>
      match media_ctl media_num camera_addr with
      | Exited returncode _ =>
          if returncode =? 0 then Val (Some (media_num, camera_addr))
          else crop_scan media_ctl rest
      | TimedOut => crop_scan media_ctl rest       (* TimeoutExpired *)
      | LaunchFailed => crop_scan media_ctl rest   (* FileNotFoundError *)
      | LaunchDenied => Exn PermissionError
      end
  end.

(** An outcome the scan passes over: a timeout, a tool that is not
    there, or an exit status other than zero. *)
Definition passed_over (o : ProcOutcome) : Prop :=
  o ≠ LaunchDenied ∧ ∀ wrote, o ≠ Exited 0 wrote.

Definition _apply_sensor_crop (media_ctl : nat → string → ProcOutcome)
           (w h : Z) : M bool :=
  match crop_scan media_ctl crop_targets with
  | Val (Some _) => ret true
  | Val None => logger WARNING "Could not apply sensor crop" ;;; ret false
  | Exn e => raise e
  end.

(** [create_camera_backend]: what the probes can find. [import cv2] is
    attempted by the OpenCV probe and again by [DemoBackend.__init__],
    which guards it for [ImportError] only. *)
Inductive PiProbe : Type :=
| PiAvailable            (* [PiCamera2Backend()] returns *)
| PiImportError          (* picamera2 is not installed *)
| PiInitError.           (* any other exception *)

Inductive Cv2Import : Type :=
| Cv2Imported            (* [import cv2] works *)
| Cv2Missing             (* it raises [ImportError] *)
| Cv2Broken.             (* it raises anything else *)

Inductive CvProbe : Type :=
| CvCameraOpened         (* [cv2.VideoCapture(0).isOpened()] *)
| CvNoCamera
| CvInitError.           (* [VideoCapture] or [OpenCVBackend()] raises *)

(** [DemoBackend()] *)
Definition DemoBackend_init (cv2 : Cv2Import) : M BackendKind :=
  match cv2 with
  | Cv2Broken => raise RuntimeError
  | Cv2Imported => ret DemoBackend
  | Cv2Missing => ret DemoBackend
  end.

Definition create_camera_backend (force_demo : bool) (pi : PiProbe)
           (cv2 : Cv2Import) (cv : CvProbe) : M BackendKind :=
  if force_demo then DemoBackend_init cv2
  else
    found <- try_except
               (match pi with
                | PiAvailable => ret (Some PiCamera2Backend)
                | PiImportError => ret None
                | PiInitError => raise RuntimeError
                end)
               (fun e =>
                  logger WARNING "PiCamera2 initialization failed" ;;;
                  ret None) ;;
    match found with
    | Some b => ret b
    | None =>
        found' <- try_except
                    (match cv2 with
                     | Cv2Missing => ret None
                     | Cv2Broken => raise RuntimeError
                     | Cv2Imported =>
                         match cv with
                         | CvCameraOpened => ret (Some OpenCVBackend)
                         | CvNoCamera => ret None
                         | CvInitError => raise RuntimeError
                         end
                     end)
                    (fun e =>
                       logger WARNING "OpenCV initialization failed" ;;;
                       ret None) ;;
        match found' with
        | Some b => ret b
        | None => DemoBackend_init cv2
        end
    end.

(** What a [record] call can have done to the state when it comes back,
    with a result or with an exception: it has written the video file or
    not, it has started no upload, and in the controller nothing has
    changed but, possibly, the cancellation flag, which another thread
    may have raised in the meantime. *)
Definition record_effect (out : string) (s s' : Sys) : Prop :=
  (disk s' = disk s ∨ disk s' = disk (with_files (fun fs => fs ∪ {[out]}) s))
  ∧ uploads s' = uploads s
  ∧ (cam s' = cam s ∨ cam s' = set_lm_cancel_event true (cam s)).

(** A disk on which every removal succeeds and every sidecar parses to
    an object. *)
Definition clean_disk (d : Disk) : Prop :=
  stuck d = ∅ ∧ garbled d = ∅ ∧ not_dict d = ∅.

(** [SwingCamera._load_config]. A JSON value is an integer, a string, a
    boolean or something else (a float, [null], a list, an object). *)
Inductive JValue : Type :=
| JInt (n : Z)
| JStr (s : string)
| JBool (b : bool)
| JOther.

Definition default_config : gmap string JValue :=
  list_to_map
    [("width", JInt 1456); ("height", JInt 1088); ("fps", JInt 120);
     ("duration", JInt 10); ("output_dir", JStr "./recordings");
     ("format", JStr "h264"); ("shutter_speed", JInt 2000);
     ("pre_record_buffer", JInt 2); ("upload_enabled", JBool false);
     ("upload_destination", JStr ""); ("quality", JStr "high");
     ("lm_max_recording_duration", JInt 60)].

(** What is found at [config_path]: nothing, a file that is not JSON, or
    a JSON object. *)
Inductive ConfigFile : Type :=
| ConfigMissing
| ConfigInvalid
| ConfigObject (user_config : gmap string JValue).

(** [default_config.update(user_config)]: the file's entries win. *)
Definition _load_config (file : ConfigFile) : Res (gmap string JValue) :=
  match file with
  | ConfigMissing => Val default_config
  | ConfigInvalid => Exn JSONDecodeError
  | ConfigObject user_config => Val (user_config ∪ default_config)
  end.

Definition default_keys : list string :=
  ["width"; "height"; "fps"; "duration"; "output_dir"; "format";
   "shutter_speed"; "pre_record_buffer"; "upload_enabled";
   "upload_destination"; "quality"; "lm_max_recording_duration"].

(** * Properties *)

(** ** Symbolic execution of the monadic code *)

Ltac py_eval :=
  cbv beta iota zeta delta
    [bind ret raise gets modify try_except try_finally when
     assign self logger time_time event_is_set event_set event_clear
     path_exists os_remove os_path_getsize open_write json_load dict_get
     encoder_output write_frame thread_join reset_lm subprocess_run
     with_cam with_files logged
     set_recording set_recording_event set_lm_state set_lm_recording_thread
     set_lm_temp_file set_lm_recording_start_time set_lm_cancel_event
     cam disk now signal_due log uploads frames
     config backend recording recording_event lm_state lm_recording_thread
     lm_temp_file lm_recording_start_time lm_cancel_event
     files stuck readonly garbled not_dict fst snd].

Ltac py_case :=
  match goal with
  | |- context [bool_decide ?P] => case_bool_decide
  | |- context [match ?x with _ => _ end] => is_var x; destruct x
  | |- context [if ?b then _ else _] => destruct b eqn:?
  end.

Ltac py_run := py_eval; repeat (py_case; py_eval).

Ltac open_sys s :=
  let c := fresh "c" in
  let d := fresh "d" in
  destruct s as [c d ? ? ? ? ?]; destruct c; destruct d.

(** ** cancel_launch_monitor *)

Lemma cancel_idle (s : Sys) :
  lm_state (cam s) = IDLE →
  cancel_launch_monitor s = (Val LMAlreadyIdle, s).
Proof.
  intros H. unfold cancel_launch_monitor. open_sys s. simpl in H. subst.
  py_run; congruence.
Qed.

Lemma cancel_ends_idle (s : Sys) :
  lm_state (cam (cancel_launch_monitor s).2) = IDLE.
Proof.
  unfold cancel_launch_monitor. open_sys s. py_run; congruence.
Qed.

Lemma cancel_never_raises (s : Sys) :
  (cancel_launch_monitor s).1 = Val LMAlreadyIdle
  ∨ (cancel_launch_monitor s).1 = Val LMCancelled.
Proof.
  unfold cancel_launch_monitor. open_sys s. py_run; auto.
Qed.

Lemma cancel_clears (s : Sys) :
  lm_state (cam s) ≠ IDLE →
  (cancel_launch_monitor s).1 = Val LMCancelled
  ∧ lm_temp_file (cam (cancel_launch_monitor s).2) = None
  ∧ lm_recording_start_time (cam (cancel_launch_monitor s).2) = None
  ∧ lm_cancel_event (cam (cancel_launch_monitor s).2) = true.
Proof.
  unfold cancel_launch_monitor. open_sys s. py_run; intros; done.
Qed.








(** ** _extract_clip *)

Lemma extract_clip_never_raises (s : Sys) (input : option string)
      (out : string) (d : Z) (proc : ProcOutcome) :
  ∃ b, (_extract_clip input out d proc s).1 = Val b.
Proof.
  unfold _extract_clip. open_sys s.
  destruct proc as [code wrote| | |]; [destruct wrote|..]; py_run; eauto.
Qed.

Lemma extract_clip_true (s : Sys) (p out : string) (d : Z)
      (proc : ProcOutcome) :
  (_extract_clip (Some p) out d proc s).1 = Val true →
  (∃ wrote, proc = Exited 0 wrote)
  ∧ p ∉ files (disk (_extract_clip (Some p) out d proc s).2).
Proof.
  unfold _extract_clip. open_sys s.
  destruct proc as [code wrote| | |]; [destruct wrote|..]; py_run;
    intros [=];
    try match goal with H : (_ =? 0) = true |- _ => apply Z.eqb_eq in H; subst end;
    (split; [eauto|]); try done;
    rewrite ?elem_of_difference, ?elem_of_union, ?elem_of_singleton; tauto.
Qed.

Lemma extract_clip_zero_exit (s : Sys) (p out : string) (d : Z)
      (wrote : bool) :
  p ≠ out →
  ¬ (p ∈ files (disk s) ∧ p ∈ stuck (disk s)) →
  (_extract_clip (Some p) out d (Exited 0 wrote) s).1 = Val true.
Proof.
  unfold _extract_clip. open_sys s. intros Hne Hst. simpl in Hst.
  destruct wrote; py_run; try reflexivity; exfalso; set_solver.
Qed.

Lemma extract_clip_stuck_input (s : Sys) (p out : string) (d : Z)
      (wrote : bool) :
  p ∈ files (disk s) → p ∈ stuck (disk s) →
  (_extract_clip (Some p) out d (Exited 0 wrote) s).1 = Val false
  ∧ p ∈ files (disk (_extract_clip (Some p) out d (Exited 0 wrote) s).2).
Proof.
  unfold _extract_clip. open_sys s. simpl. intros Hf Hs.
  destruct wrote; py_run; try done; split; try done; set_solver.
Qed.

(** When the process does not exit with status zero the input is left as
    it was: nothing is removed from the disk. *)
Lemma extract_clip_failure_keeps_input (s : Sys) (input : option string)
      (out : string) (d : Z) (proc : ProcOutcome) :
  (∀ wrote, proc ≠ Exited 0 wrote) →
  (_extract_clip input out d proc s).1 = Val false
  ∧ ∀ q, q ∈ files (disk s) →
         q ∈ files (disk (_extract_clip input out d proc s).2).
Proof.
  unfold _extract_clip. open_sys s. intros Hp.
  destruct proc as [code wrote| | |]; [destruct wrote|..]; py_run;
    try match goal with H : (_ =? 0) = true |- _ =>
          apply Z.eqb_eq in H; subst; exfalso; eapply Hp; reflexivity end;
    split; try reflexivity; intros q Hq; set_solver.
Qed.

(** C5, as the specification states it, fails where the input cannot be
    removed: the process exits with status zero, yet [_extract_clip]
    returns [False] and the input is still there. *)
Lemma extract_clip_zero_exit_but_false :
  let s := Sample.armed_sys "temp_lm_x.mp4"
             (mkDisk {["temp_lm_x.mp4"]} {["temp_lm_x.mp4"]} ∅ ∅ ∅) in
  let out := _extract_clip (Some "temp_lm_x.mp4") "swing_x.mp4" 5
                           (Exited 0 true) s in
  out.1 = Val false
  ∧ "temp_lm_x.mp4" ∈ files (disk out.2)
  ∧ "swing_x.mp4" ∈ files (disk out.2).
Proof.
  cbv zeta. repeat split; vm_compute; reflexivity.
Qed.

(** C5 (amended). [_extract_clip] never raises. It returns [True] exactly
    when the process exits with status zero and removing the input, if it
    is still there, does not raise; the input is then gone. In every
    other case (nonzero exit, timeout, failure to launch, or a removal
    that raises) it returns [False] and the input is left as it was. *)
Theorem extract_clip_result (s : Sys) (p out : string) (d : Z)
        (proc : ProcOutcome) :
  p ≠ out →
  let r := _extract_clip (Some p) out d proc s in
  (r.1 = Val true ∨ r.1 = Val false)
  ∧ (r.1 = Val true ↔
       (∃ wrote, proc = Exited 0 wrote)
       ∧ ¬ (p ∈ files (disk s) ∧ p ∈ stuck (disk s)))
  ∧ (r.1 = Val true → p ∉ files (disk r.2))
  ∧ (r.1 = Val false → (p ∈ files (disk s) → p ∈ files (disk r.2))).
Proof.
  intros Hne r. subst r.
  split.
  { destruct (extract_clip_never_raises s (Some p) out d proc) as [[] Hb];
      auto. }
  split.
  { split.
    - intros Ht. destruct (extract_clip_true _ _ _ _ _ Ht) as [[w ->] _].
      split; [eauto|]. intros [Hf Hs].
      destruct (extract_clip_stuck_input s p out d w Hf Hs) as [Hfalse _].
      congruence.
    - intros [[w ->] Hst]. by apply extract_clip_zero_exit. }
  split.
  { intros Ht. by destruct (extract_clip_true _ _ _ _ _ Ht). }
  intros Hfalse Hin.
  assert (Hproc : (∃ w, proc = Exited 0 w) ∨ (∀ w, proc ≠ Exited 0 w)).
  { destruct proc as [code w| | |]; [|right; discriminate..].
    destruct (decide (code = 0)) as [->|Hc]; [left; eauto|].
    right. intros w' [= ? ?]. contradiction. }
  destruct Hproc as [[w ->]|Hproc].
  - destruct (decide (p ∈ stuck (disk s))) as [Hs|Hs].
    + by destruct (extract_clip_stuck_input s p out d w Hin Hs).
    + rewrite extract_clip_zero_exit in Hfalse; [done|done|tauto].
  - by apply extract_clip_failure_keeps_input.
Qed.

Lemma extract_clip_result_witness :
  let s := Sample.armed_sys "temp_lm_x.mp4"
             (Sample.disk_of {["temp_lm_x.mp4"]}) in
  let r := _extract_clip (Some "temp_lm_x.mp4") "swing_x.mp4" 5
                         (Exited 0 true) s in
  "temp_lm_x.mp4" ≠ "swing_x.mp4"
  ∧ r.1 = Val true
  ∧ ("temp_lm_x.mp4" ∉ files (disk r.2)).
Proof.
  cbv zeta.
  assert (Hne : "temp_lm_x.mp4" ≠ "swing_x.mp4") by discriminate.
  pose proof (extract_clip_result
                (Sample.armed_sys "temp_lm_x.mp4"
                   (Sample.disk_of {["temp_lm_x.mp4"]}))
                "temp_lm_x.mp4" "swing_x.mp4" 5 (Exited 0 true) Hne)
    as (_ & Hiff & Hgone & _).
  assert (Ht : (_extract_clip (Some "temp_lm_x.mp4") "swing_x.mp4" 5
                  (Exited 0 true)
                  (Sample.armed_sys "temp_lm_x.mp4"
                     (Sample.disk_of {["temp_lm_x.mp4"]}))).1 = Val true).
  { apply Hiff. split; [by exists true|]. simpl. intros [_ Hs]. set_solver. }
  split; [exact Hne|]. split; [exact Ht | exact (Hgone Ht)].
Defined.

(** ** The clock and the wait loops of the backends *)

Lemma advance_now (d : Z) (s : Sys) : now (advance d s) = now s + d.
Proof. unfold advance. destruct (signal_due s); [case_match|]; reflexivity. Qed.

Lemma advance_disk (d : Z) (s : Sys) : disk (advance d s) = disk s.
Proof. unfold advance. destruct (signal_due s); [case_match|]; reflexivity. Qed.

Lemma advance_log (d : Z) (s : Sys) : log (advance d s) = log s.
Proof. unfold advance. destruct (signal_due s); [case_match|]; reflexivity. Qed.

Lemma advance_frames (d : Z) (s : Sys) : frames (advance d s) = frames s.
Proof. unfold advance. destruct (signal_due s); [case_match|]; reflexivity. Qed.

Lemma advance_uploads (d : Z) (s : Sys) : uploads (advance d s) = uploads s.
Proof. unfold advance. destruct (signal_due s); [case_match|]; reflexivity. Qed.

(** Letting time pass changes nothing in the controller but, possibly,
    the cancellation flag. *)
Lemma advance_cam (d : Z) (s : Sys) :
  cam (advance d s) = cam s
  ∨ cam (advance d s) = set_lm_cancel_event true (cam s).
Proof. unfold advance. destruct (signal_due s); [case_match|]; auto. Qed.

Lemma advance_not_due (d c : Z) (s : Sys) :
  signal_due s = Some c → now s + d < c →
  cam (advance d s) = cam s ∧ signal_due (advance d s) = Some c.
Proof.
  intros Hd Hlt. unfold advance. rewrite Hd.
  destruct (Z.leb_spec c (now s + d)); [lia|]. done.
Qed.

Lemma advance_due (d c : Z) (s : Sys) :
  signal_due s = Some c → c ≤ now s + d →
  lm_cancel_event (cam (advance d s)) = true.
Proof.
  intros Hd Hle. unfold advance. rewrite Hd.
  destruct (Z.leb_spec c (now s + d)); [|lia]. reflexivity.
Qed.

Lemma time_sleep_100 (s : Sys) : time_sleep 100 s = (Val tt, advance 100 s).
Proof. reflexivity. Qed.

Lemma pi_wait_step (fuel : nat) (start dms : Z) (ce : option EventRef)
      (s : Sys) :
  pi_wait (S fuel) start dms ce s
  = if now s - start <? dms then
      match cancel_requested ce s with
      | (Val true, s') => (Val tt, s')
      | (Val false, s') => pi_wait fuel start dms ce (advance 100 s')
      | (Exn e, s') => (Exn e, s')
      end
    else (Val tt, s).
Proof.
  simpl. unfold bind at 1. unfold time_time, gets.
  destruct (now s - start <? dms); [|reflexivity].
  unfold bind at 1. destruct (cancel_requested ce s) as [[[]|e] s'];
    try reflexivity.
Qed.

Lemma cancel_requested_pure (ce : option EventRef) (s : Sys) :
  ∃ b, cancel_requested ce s = (Val b, s).
Proof. destruct ce as [[]|]; eexists; reflexivity. Qed.

(** The wait loop never raises and never touches the disk, the log or
    the frame counter. *)
Lemma pi_wait_returns (fuel : nat) (start dms : Z) (ce : option EventRef)
      (s : Sys) :
  ∃ s', pi_wait fuel start dms ce s = (Val tt, s')
        ∧ disk s' = disk s ∧ log s' = log s ∧ frames s' = frames s
        ∧ uploads s' = uploads s
        ∧ config (cam s') = config (cam s)
        ∧ lm_state (cam s') = lm_state (cam s)
        ∧ lm_temp_file (cam s') = lm_temp_file (cam s)
        ∧ lm_recording_start_time (cam s') = lm_recording_start_time (cam s)
        ∧ recording (cam s') = recording (cam s).
Proof.
  revert s. induction fuel as [|fuel IH]; intros s.
  - exists s. repeat split; reflexivity.
  - rewrite pi_wait_step. destruct (now s - start <? dms).
    + destruct (cancel_requested_pure ce s) as [[] ->].
      * exists s. repeat split; reflexivity.
      * destruct (IH (advance 100 s)) as (s' & -> & Hd & Hl & Hf & Hu & Hc).
        exists s'. split; [reflexivity|].
        rewrite Hd, Hl, Hf, Hu, advance_disk, advance_log, advance_frames,
          advance_uploads.
        do 4 (split; [reflexivity|]).
        destruct Hc as (-> & -> & -> & -> & ->).
        destruct (advance_cam 100 s) as [-> | ->]; repeat split; reflexivity.
    + exists s. repeat split; reflexivity.
Qed.

(** Without a cancellation event the loop runs for the whole duration:
    [n] more sleeps of 100 ms are needed and there is fuel for them. *)
Lemma pi_wait_no_event (fuel : nat) (start dms : Z) :
  ∀ (n : nat) (s : Sys),
    (n < fuel)%nat →
    now s = start + dms - 100 * Z.of_nat n →
    now (pi_wait fuel start dms None s).2 = start + dms.
Proof.
  induction fuel as [|fuel IH]; intros n s Hn Hnow; [lia|].
  rewrite pi_wait_step. simpl cancel_requested. unfold ret.
  destruct n as [|n].
  - destruct (Z.ltb_spec (now s - start) dms); [lia|]. simpl. lia.
  - destruct (Z.ltb_spec (now s - start) dms); [|lia].
    apply (IH n); [lia|]. rewrite advance_now. lia.
Qed.

(** Once the cancellation flag is set the loop returns at its next poll,
    without sleeping. *)
Lemma pi_wait_flag_set (fuel : nat) (start dms : Z) (s : Sys) :
  lm_cancel_event (cam s) = true →
  pi_wait fuel start dms (Some LMCancelEvent) s = (Val tt, s).
Proof.
  intros Hf. destruct fuel; [reflexivity|].
  rewrite pi_wait_step. simpl. unfold event_is_set, gets. rewrite Hf.
  destruct (now s - start <? dms); reflexivity.
Qed.

(** Given the cancellation event, the loop returns no later than 100 ms
    after another thread has raised it. *)
Lemma pi_wait_latency (fuel : nat) (start dms c : Z) :
  ∀ s : Sys,
    signal_due s = Some c → now s ≤ c →
    now (pi_wait fuel start dms (Some LMCancelEvent) s).2 ≤ c + 100.
Proof.
  induction fuel as [|fuel IH]; intros s Hd Hle; [simpl; lia|].
  rewrite pi_wait_step. simpl. unfold event_is_set, gets.
  destruct (now s - start <? dms); [|simpl; lia].
  destruct (lm_cancel_event (cam s)); [simpl; lia|].
  destruct (Z.le_gt_cases c (now s + 100)) as [Hdue|Hnot].
  - rewrite pi_wait_flag_set by (by eapply advance_due).
    simpl. rewrite advance_now. lia.
  - destruct (advance_not_due 100 c s Hd) as [_ Hd']; [lia|].
    apply IH; [exact Hd'|]. rewrite advance_now. lia.
Qed.

(** With enough fuel the loop ends for a reason the source has: the time
    is up, or the event it was given is set. *)
Lemma pi_wait_exit (fuel : nat) (start dms : Z) (ce : option EventRef) :
  ∀ (n : nat) (s : Sys),
    (n < fuel)%nat →
    start + dms - 100 * Z.of_nat n ≤ now s →
    let s' := (pi_wait fuel start dms ce s).2 in
    start + dms ≤ now s' ∨ (cancel_requested ce s').1 = Val true.
Proof.
  induction fuel as [|fuel IH]; intros n s Hn Hnow; [lia|].
  cbv zeta. rewrite pi_wait_step.
  destruct (Z.ltb_spec (now s - start) dms); [|left; simpl; lia].
  destruct (cancel_requested_pure ce s) as [[] Hb]; rewrite Hb.
  - right. simpl. rewrite Hb. reflexivity.
  - destruct n as [|n]; [lia|].
    apply (IH n); [lia|]. rewrite advance_now. lia.
Qed.

Lemma demo_frames_spec (n : nat) (s : Sys) :
  demo_frames n s
  = (Val tt, mkSys (cam s) (disk s) (now s) (signal_due s) (log s)
                   (uploads s) (n + frames s)).
Proof.
  revert s. induction n as [|n IH]; intros s.
  - destruct s; reflexivity.
  - simpl. unfold bind, write_frame, modify. rewrite IH. simpl.
    do 2 f_equal. lia.
Qed.

(** Where a camera library that is not faulty raises: nowhere. *)
Lemma fault_free (hw : Hardware) :
  camera_fault hw = false →
  fault_at_start hw = false ∧ fault_at_stop hw = false
  ∧ ∀ n, fault_at_frame hw n = false.
Proof.
  intros H. unfold fault_at_start, fault_at_stop, fault_at_frame.
  rewrite H. repeat split.
Qed.

(** A faulty one raises when the recording starts or, at the latest,
    when it is stopped. *)
Lemma fault_start_or_stop (hw : Hardware) :
  camera_fault hw = true →
  fault_at_start hw = true ∨ fault_at_stop hw = true.
Proof.
  intros H. unfold fault_at_start, fault_at_stop. rewrite H.
  destruct (fault_after hw); [right | left]; simpl;
    first [reflexivity | apply bool_decide_eq_true_2; eauto].
Qed.

Lemma record_effect_refl (out : string) (s : Sys) : record_effect out s s.
Proof. repeat split; auto. Qed.

(** A [record] call leaves every attribute of the controller but the
    cancellation flag as it was. *)
Lemma record_effect_cam (out : string) (s s' : Sys) :
  record_effect out s s' →
  config (cam s') = config (cam s)
  ∧ backend (cam s') = backend (cam s)
  ∧ recording (cam s') = recording (cam s)
  ∧ recording_event (cam s') = recording_event (cam s)
  ∧ lm_state (cam s') = lm_state (cam s)
  ∧ lm_temp_file (cam s') = lm_temp_file (cam s)
  ∧ lm_recording_start_time (cam s') = lm_recording_start_time (cam s).
Proof. intros (_ & _ & [-> | ->]); repeat split; reflexivity. Qed.

(** It adds at most the video file to the disk. *)
Lemma record_effect_disk (out : string) (s s' : Sys) :
  record_effect out s s' →
  (files (disk s') = files (disk s) ∨ files (disk s') = files (disk s) ∪ {[out]})
  ∧ stuck (disk s') = stuck (disk s)
  ∧ readonly (disk s') = readonly (disk s)
  ∧ garbled (disk s') = garbled (disk s)
  ∧ not_dict (disk s') = not_dict (disk s).
Proof.
  intros ([-> | ->] & _); (split; [auto|]); repeat split; reflexivity.
Qed.

Lemma set_cancel_twice (c : SwingCamera) :
  set_lm_cancel_event true (set_lm_cancel_event true c)
  = set_lm_cancel_event true c.
Proof. reflexivity. Qed.

(** The frame loop of the OpenCV backend: whether it returns or raises,
    it does not touch the disk, the uploads or, the cancellation flag
    apart, the controller. *)
Lemma cv_loop_effect (hw : Hardware) (fuel : nat) :
  ∀ (delivered : nat) (start dms : Z) (ce : option EventRef) (s : Sys),
    ∃ r s', cv_loop hw fuel delivered start dms ce s = (r, s')
            ∧ disk s' = disk s ∧ uploads s' = uploads s
            ∧ (cam s' = cam s ∨ cam s' = set_lm_cancel_event true (cam s)).
Proof.
  induction fuel as [|fuel IH]; intros delivered start dms ce s.
  - exists (Val tt), s. repeat split; auto.
  - simpl. unfold bind at 1. unfold time_time, gets.
    destruct (now s - start <? dms);
      [|exists (Val tt), s; repeat split; auto].
    unfold bind at 1. destruct (cancel_requested_pure ce s) as [[] ->].
    + exists (Val tt), s. repeat split; auto.
    + unfold bind at 1. unfold when, raise, ret.
      destruct (fault_at_frame hw delivered);
        [exists (Exn RuntimeError), s; repeat split; auto|].
      unfold bind at 1. unfold modify.
      destruct (delivered <? frames_ready hw)%nat.
      * unfold bind at 1. unfold write_frame, modify.
        match goal with |- context [cv_loop hw fuel ?n ?a ?b ?c ?st] =>
          destruct (IH n a b c st) as (r & s' & -> & Hd & Hu & Hc) end.
        exists r, s'. split; [reflexivity|].
        rewrite Hd, Hu. cbn [disk uploads cam] in *.
        rewrite advance_disk, advance_uploads.
        do 2 (split; [reflexivity|]).
        destruct (advance_cam (Z.max 0 (read_ms hw)) s) as [Ha | Ha];
          rewrite Ha in Hc; destruct Hc as [-> | ->]; auto.
      * unfold logger, modify. eexists _, _. split; [reflexivity|].
        unfold logged. cbn [fst snd disk uploads cam].
        rewrite advance_disk, advance_uploads.
        do 2 (split; [reflexivity|]). apply advance_cam.
Qed.

(** With a camera library that is not faulty the loop never raises. *)
Lemma cv_loop_returns (hw : Hardware) (fuel : nat) :
  camera_fault hw = false →
  ∀ (delivered : nat) (start dms : Z) (ce : option EventRef) (s : Sys),
    ∃ s', cv_loop hw fuel delivered start dms ce s = (Val tt, s')
          ∧ disk s' = disk s.
Proof.
  intros Hok. destruct (fault_free hw Hok) as (_ & _ & Hfr).
  induction fuel as [|fuel IH]; intros delivered start dms ce s.
  - exists s. split; reflexivity.
  - simpl. unfold bind at 1. unfold time_time, gets.
    destruct (now s - start <? dms); [|by exists s].
    unfold bind at 1. destruct (cancel_requested_pure ce s) as [[] ->].
    + by exists s.
    + rewrite Hfr. unfold when at 1. unfold bind at 1. unfold ret at 1.
      unfold bind at 1. unfold modify.
      destruct (delivered <? frames_ready hw)%nat.
      * unfold bind at 1. unfold write_frame, modify.
        edestruct IH as (s' & -> & Hd). exists s'. split; [reflexivity|].
        rewrite Hd. simpl. apply advance_disk.
      * eexists. split; [reflexivity|]. simpl. apply advance_disk.
Qed.

(** ** PiCamera2Backend.record *)

Lemma pi_record_healthy (hw : Hardware) (s : Sys) (p : option string)
      (d : Z) (ce : option EventRef) :
  pi_healthy hw (cam s) →
  PiCamera2_record hw p d ce s
  = (Val (mp4_name (py_str p)),
     (pi_wait (pi_fuel (1000 * d)) (now s) (1000 * d) ce
              (with_files (λ fs, fs ∪ {[mp4_name (py_str p)]}) s)).2).
Proof.
  intros (Hf & Hfps & Hsh).
  destruct (fault_free hw Hf) as (Hstart & Hstop & _).
  unfold PiCamera2_record, bind, self, gets, when, encoder_output, modify,
    time_time, ret, raise.
  rewrite Hstart, Hstop. apply Z.eqb_neq in Hfps. rewrite Hfps.
  assert (negb (auto_exposure (config (cam s)))
          && (shutter_speed (config (cam s)) =? 0) = false) as ->.
  { destruct Hsh as [-> | Hsh]; [reflexivity|].
    apply Z.eqb_neq in Hsh. rewrite Hsh. apply andb_false_r. }
  destruct (pi_wait_returns (pi_fuel (1000 * d)) (now s) (1000 * d) ce
              (with_files (λ fs, fs ∪ {[mp4_name (py_str p)]}) s))
    as (s' & Hw & _).
  simpl. rewrite Hw. reflexivity.
Qed.

Lemma pi_wait_effect (fuel : nat) (start dms : Z) (ce : option EventRef)
      (s : Sys) :
  ∃ s', pi_wait fuel start dms ce s = (Val tt, s')
        ∧ disk s' = disk s ∧ uploads s' = uploads s
        ∧ (cam s' = cam s ∨ cam s' = set_lm_cancel_event true (cam s)).
Proof.
  revert s. induction fuel as [|fuel IH]; intros s.
  - exists s. repeat split; auto.
  - rewrite pi_wait_step. destruct (now s - start <? dms).
    + destruct (cancel_requested_pure ce s) as [[] ->].
      * exists s. repeat split; auto.
      * destruct (IH (advance 100 s)) as (s' & -> & Hd & Hu & Hc).
        exists s'. split; [reflexivity|].
        rewrite Hd, Hu, advance_disk, advance_uploads.
        do 2 (split; [reflexivity|]).
        destruct (advance_cam 100 s) as [Ha | Ha];
          rewrite Ha in Hc; destruct Hc as [-> | ->]; auto.
    + exists s. repeat split; auto.
Qed.

(** Whatever the Pi backend's [record] does, it returns the [.mp4] name
    or raises, and its effect is that of a [record] call. *)
Lemma pi_record_effect (hw : Hardware) (s : Sys) (p : option string)
      (d : Z) (ce : option EventRef) :
  let r := PiCamera2_record hw p d ce s in
  (r.1 = Val (mp4_name (py_str p)) ∨ ∃ e, r.1 = Exn e)
  ∧ record_effect (mp4_name (py_str p)) s r.2.
Proof.
  cbv zeta.
  unfold PiCamera2_record, bind, self, gets, when, encoder_output, modify,
    time_time, ret, raise.
  destruct (fps (config (cam s)) =? 0);
    [split; [eauto | apply record_effect_refl]|].
  destruct (negb (auto_exposure (config (cam s)))
            && (shutter_speed (config (cam s)) =? 0));
    [split; [eauto | apply record_effect_refl]|].
  destruct (fault_at_start hw);
    [split; [eauto | apply record_effect_refl]|].
  unfold gets. cbv beta iota.
  match goal with |- context [pi_wait ?f ?a ?b ?c ?st] =>
    destruct (pi_wait_effect f a b c st) as (s' & -> & Hd & Hu & Hc) end.
  assert (He : record_effect (mp4_name (py_str p)) s s').
  { split; [right; exact Hd|]. split; [exact Hu | exact Hc]. }
  destruct (fault_at_stop hw); (split; [eauto | exact He]).
Qed.

Lemma pi_record_faulty (hw : Hardware) (s : Sys) (p : option string)
      (d : Z) (ce : option EventRef) :
  camera_fault hw = true →
  ∃ e, (PiCamera2_record hw p d ce s).1 = Exn e.
Proof.
  intros Hf.
  unfold PiCamera2_record, bind, self, gets, when, encoder_output, modify,
    time_time, ret, raise.
  destruct (fps (config (cam s)) =? 0); [eauto|].
  destruct (negb (auto_exposure (config (cam s)))
            && (shutter_speed (config (cam s)) =? 0)); [eauto|].
  destruct (fault_start_or_stop hw Hf) as [-> | Hstop]; [eauto|].
  destruct (fault_at_start hw); [eauto|].
  unfold gets. cbv beta iota.
  match goal with |- context [pi_wait ?f ?a ?b ?c ?st] =>
    destruct (pi_wait_effect f a b c st) as (s' & -> & _) end.
  rewrite Hstop. eauto.
Qed.

(** The OpenCV backend's [record], likewise. *)
Lemma opencv_record_cases (hw : Hardware) (s : Sys) (p : option string)
      (d : Z) (ce : option EventRef) :
  ∃ r s', OpenCV_record hw p d ce s = (r, s')
          ∧ (r = Val (mp4_name (py_str p)) ∨ ∃ e, r = Exn e)
          ∧ record_effect (mp4_name (py_str p)) s s'.
Proof.
  unfold OpenCV_record. unfold bind at 1. unfold when at 1.
  destruct (fault_at_start hw).
  { eexists _, _. split; [reflexivity|].
    split; [eauto | apply record_effect_refl]. }
  unfold ret at 1. unfold bind at 1.
  assert (H1 : ∃ s1, when (writer_opens hw)
                       (encoder_output (mp4_name (py_str p))) s = (Val tt, s1)
                     ∧ record_effect (mp4_name (py_str p)) s s1
                     ∧ cam s1 = cam s).
  { unfold when, encoder_output, modify, ret.
    destruct (writer_opens hw); eexists; (split; [reflexivity|]).
    - split; [|reflexivity].
      split; [right; reflexivity|]. split; [reflexivity | left; reflexivity].
    - split; [apply record_effect_refl | reflexivity]. }
  destruct H1 as (s1 & -> & (Hd1 & Hu1 & _) & Hc1).
  unfold bind at 1. unfold time_time, gets.
  unfold bind at 1.
  destruct (cv_loop_effect hw (S (frames_ready hw)) 0 (now s1) (1000 * d)
              ce s1) as (r & s2 & -> & Hd & Hu & Hc).
  assert (He : record_effect (mp4_name (py_str p)) s s2).
  { split; [rewrite Hd; exact Hd1|]. split; [congruence|].
    rewrite <- Hc1. exact Hc. }
  destruct r as [[]|e].
  - unfold bind, when, raise, ret.
    destruct (fault_at_stop hw); eexists _, _;
      (split; [reflexivity|]); (split; [eauto | exact He]).
  - eexists _, _. split; [reflexivity|]. split; [eauto | exact He].
Qed.

Lemma opencv_record_effect (hw : Hardware) (s : Sys) (p : option string)
      (d : Z) (ce : option EventRef) :
  let r := OpenCV_record hw p d ce s in
  (r.1 = Val (mp4_name (py_str p)) ∨ ∃ e, r.1 = Exn e)
  ∧ record_effect (mp4_name (py_str p)) s r.2.
Proof.
  cbv zeta. destruct (opencv_record_cases hw s p d ce) as (r & s' & -> & H).
  exact H.
Qed.

Lemma opencv_record_faulty (hw : Hardware) (s : Sys) (p : option string)
      (d : Z) (ce : option EventRef) :
  camera_fault hw = true →
  ∃ e, (OpenCV_record hw p d ce s).1 = Exn e.
Proof.
  intros Hf.
  unfold OpenCV_record. unfold bind at 1. unfold when at 1.
  destruct (fault_start_or_stop hw Hf) as [-> | Hstop];
    [unfold raise; eauto|].
  destruct (fault_at_start hw); [unfold raise; eauto|].
  unfold ret at 1. unfold bind at 1.
  destruct (when (writer_opens hw) (encoder_output (mp4_name (py_str p))) s)
    as [[[]|e] s1]; [|eauto].
  unfold bind at 1. unfold time_time, gets. unfold bind at 1.
  destruct (cv_loop hw (S (frames_ready hw)) 0 (now s1) (1000 * d) ce s1)
    as [[[]|e] s2]; [|eauto].
  unfold bind, when, raise. rewrite Hstop. eauto.
Qed.

(** The demo backend's [record], likewise. *)
Lemma demo_record_effect (hw : Hardware) (s : Sys) (p : option string)
      (d : Z) (ce : option EventRef) :
  let r := Demo_record hw p d ce s in
  (r.1 = Val (mp4_name (py_str p)) ∨ ∃ e, r.1 = Exn e)
  ∧ record_effect (mp4_name (py_str p)) s r.2.
Proof.
  cbv zeta.
  assert (Hph : ∀ out,
             ((demo_placeholder out d s).1 = Val out
              ∨ ∃ e, (demo_placeholder out d s).1 = Exn e)
             ∧ record_effect out s (demo_placeholder out d s).2).
  { intros out. unfold demo_placeholder, bind, time_sleep, raise.
    destruct (1000 * d <? 0);
      [split; [eauto | apply record_effect_refl]|].
    unfold modify, open_write.
    destruct (bool_decide (out ∈ readonly (disk (advance (1000 * d) s)))).
    - split; [eauto|]. cbn [snd].
      split; [left; apply advance_disk|].
      split; [apply advance_uploads | apply advance_cam].
    - unfold logger, modify, ret, with_files. cbn [fst snd].
      split; [eauto|].
      split; [right; cbn [disk]; rewrite advance_disk; reflexivity|].
      split; [cbn [uploads]; apply advance_uploads|].
      cbn [cam]. apply advance_cam. }
  unfold Demo_record. unfold bind at 1. unfold self, gets.
  destruct (has_cv2 hw); [|apply Hph].
  destruct (writer_opens hw); [|apply Hph].
  unfold bind, encoder_output, modify. rewrite demo_frames_spec.
  cbn [fst snd]. split; [eauto|].
  split; [right; reflexivity|]. split; [reflexivity | left; reflexivity].
Qed.

(** Every backend's [record] returns the [.mp4] name or raises, and its
    effect is that of a [record] call. *)
Lemma backend_record_cases (hw : Hardware) (s : Sys) (p : option string)
      (d : Z) (ce : option EventRef) :
  ∃ r s', backend_record hw p d ce s = (r, s')
          ∧ (r = Val (mp4_name (py_str p)) ∨ ∃ e, r = Exn e)
          ∧ record_effect (mp4_name (py_str p)) s s'.
Proof.
  unfold backend_record. unfold bind at 1. unfold self, gets.
  destruct (backend (cam s)).
  - pose proof (pi_record_effect hw s p d ce) as H. cbv zeta in H.
    destruct (PiCamera2_record hw p d ce s) as [r s']. eauto.
  - pose proof (opencv_record_effect hw s p d ce) as H. cbv zeta in H.
    destruct (OpenCV_record hw p d ce s) as [r s']. eauto.
  - pose proof (demo_record_effect hw s p d ce) as H. cbv zeta in H.
    destruct (Demo_record hw p d ce s) as [r s']. eauto.
Qed.

Lemma backend_record_effect (hw : Hardware) (s : Sys) (p : option string)
      (d : Z) (ce : option EventRef) :
  let r := backend_record hw p d ce s in
  (r.1 = Val (mp4_name (py_str p)) ∨ ∃ e, r.1 = Exn e)
  ∧ record_effect (mp4_name (py_str p)) s r.2.
Proof.
  cbv zeta. destruct (backend_record_cases hw s p d ce) as (r & s' & -> & H).
  exact H.
Qed.

(** With a faulty camera library the Pi and the OpenCV backend raise. *)
Lemma backend_record_faulty (hw : Hardware) (s : Sys) (p : option string)
      (d : Z) (ce : option EventRef) :
  camera_fault hw = true → backend (cam s) ≠ DemoBackend →
  ∃ e s', backend_record hw p d ce s = (Exn e, s')
          ∧ record_effect (mp4_name (py_str p)) s s'.
Proof.
  intros Hf Hb.
  destruct (backend_record_cases hw s p d ce) as (r & s' & Hr & _ & He).
  assert (Hx : ∃ e, (backend_record hw p d ce s).1 = Exn e).
  { unfold backend_record. unfold bind at 1. unfold self, gets.
    destruct (backend (cam s)); [| |contradiction].
    - by apply pi_record_faulty.
    - by apply opencv_record_faulty. }
  destruct Hx as [e Hx]. rewrite Hr in Hx. simpl in Hx. subst r.
  exists e, s'. split; [exact Hr | exact He].
Qed.

(** Called without an event, the recording lasts the whole duration. *)
Lemma pi_record_full_duration (hw : Hardware) (s : Sys) (p : option string)
      (d : Z) :
  pi_healthy hw (cam s) → 0 ≤ d →
  (PiCamera2_record hw p d None s).1 = Val (mp4_name (py_str p))
  ∧ now (PiCamera2_record hw p d None s).2 = now s + 1000 * d.
Proof.
  intros Hh Hd. rewrite pi_record_healthy by exact Hh. split; [reflexivity|].
  cbn [snd].
  apply (pi_wait_no_event _ _ _ (Z.to_nat (10 * d))).
  - unfold pi_fuel. replace (1000 * d / 100) with (10 * d); [lia|].
    replace (1000 * d) with (10 * d * 100) by lia.
    symmetry. apply Z.div_mul. lia.
  - simpl. unfold with_files. simpl. lia.
Qed.

(** Called with the cancellation event, the recording ends no later than
    100 ms after the signal is raised, and it ends for a reason: the time
    is up or the event is set. *)
Lemma pi_record_cancel_latency (hw : Hardware) (s : Sys) (p : option string)
      (d c : Z) :
  pi_healthy hw (cam s) → 0 ≤ d →
  signal_due s = Some c → now s ≤ c →
  let s' := (PiCamera2_record hw p d (Some LMCancelEvent) s).2 in
  (PiCamera2_record hw p d (Some LMCancelEvent) s).1
  = Val (mp4_name (py_str p))
  ∧ now s' ≤ c + 100
  ∧ (now s + 1000 * d ≤ now s' ∨ lm_cancel_event (cam s') = true).
Proof.
  intros Hh Hd Hdue Hle. cbv zeta.
  rewrite pi_record_healthy by exact Hh. split; [reflexivity|].
  cbn [snd]. split.
  - apply pi_wait_latency; [exact Hdue | exact Hle].
  - pose proof (pi_wait_exit (pi_fuel (1000 * d)) (now s) (1000 * d)
                  (Some LMCancelEvent) (Z.to_nat (10 * d + 1))
                  (with_files (λ fs, fs ∪ {[mp4_name (py_str p)]}) s))
      as Hexit.
    cbv zeta in Hexit. simpl cancel_requested in Hexit.
    unfold event_is_set, gets in Hexit. cbn [fst] in Hexit.
    destruct Hexit as [Ht | Hc].
    + unfold pi_fuel. replace (1000 * d / 100) with (10 * d); [lia|].
      replace (1000 * d) with (10 * d * 100) by lia.
      symmetry. apply Z.div_mul. lia.
    + simpl. unfold with_files. simpl. lia.
    + left. exact Ht.
    + right. congruence.
Qed.

(** ** The worker's record call (C1) *)

Lemma worker_record_call_pi (hw : Hardware) (s : Sys) :
  backend (cam s) = PiCamera2Backend →
  worker_record_call hw s
  = PiCamera2_record hw (lm_temp_file (cam s))
      (lm_max_recording_duration (config (cam s))) None s.
Proof.
  intros Hb. unfold worker_record_call, backend_record, bind, self, gets.
  rewrite Hb. reflexivity.
Qed.

(** C1 (the code against the claim). The worker calls
    [backend.record(self.lm_temp_file, max_duration)] and passes no
    cancellation event. On the Pi backend its call therefore returns only
    when the whole of [lm_max_recording_duration] has elapsed, whatever
    the state of the cancellation signal and whenever another thread
    raises it; the same [record] given the event would have returned
    within 100 ms of the signal. *)
Theorem worker_record_call_ignores_cancellation (hw : Hardware) (s : Sys)
        (c : Z) :
  backend (cam s) = PiCamera2Backend →
  pi_healthy hw (cam s) →
  0 ≤ lm_max_recording_duration (config (cam s)) →
  signal_due s = Some c → now s ≤ c →
  now (worker_record_call hw s).2
  = now s + 1000 * lm_max_recording_duration (config (cam s))
  ∧ now (PiCamera2_record hw (lm_temp_file (cam s))
           (lm_max_recording_duration (config (cam s)))
           (Some LMCancelEvent) s).2 ≤ c + 100.
Proof.
  intros Hb Hh Hd Hdue Hle. split.
  - rewrite worker_record_call_pi by exact Hb.
    by apply pi_record_full_duration.
  - by apply pi_record_cancel_latency.
Qed.

Lemma worker_record_call_ignores_cancellation_witness :
  let s := Sample.with_signal_at 2000
             (mkSys (Sample.armed "temp_lm_x.mp4") (Sample.disk_of ∅)
                    1000 None [] [] 0) in
  backend (cam s) = PiCamera2Backend
  ∧ pi_healthy Sample.steady (cam s)
  ∧ 0 ≤ lm_max_recording_duration (config (cam s))
  ∧ signal_due s = Some 2000 ∧ now s ≤ 2000
  ∧ now (worker_record_call Sample.steady s).2 = 11000
  ∧ now (PiCamera2_record Sample.steady (lm_temp_file (cam s))
           (lm_max_recording_duration (config (cam s)))
           (Some LMCancelEvent) s).2 ≤ 2100.
Proof.
  cbv zeta.
  set (s := Sample.with_signal_at 2000
              (mkSys (Sample.armed "temp_lm_x.mp4") (Sample.disk_of ∅)
                     1000 None [] [] 0)).
  assert (Hb : backend (cam s) = PiCamera2Backend) by reflexivity.
  assert (Hh : pi_healthy Sample.steady (cam s)).
  { split; [reflexivity|]. split; [discriminate|]. right. discriminate. }
  assert (Hd : 0 ≤ lm_max_recording_duration (config (cam s)))
    by (simpl; lia).
  assert (Hdue : signal_due s = Some 2000) by reflexivity.
  assert (Hle : now s ≤ 2000) by (simpl; lia).
  destruct (worker_record_call_ignores_cancellation
              Sample.steady s 2000 Hb Hh Hd Hdue Hle) as [Hfull Hlat].
  do 5 (split; [assumption|]). split; [exact Hfull | exact Hlat].
Defined.

(** ** DemoBackend.record and the cancellation event (C9) *)

Lemma demo_placeholder_spec (s : Sys) (out : string) (d : Z) :
  0 ≤ d → out ∉ readonly (disk s) →
  (demo_placeholder out d s).1 = Val out
  ∧ now (demo_placeholder out d s).2 = now s + 1000 * d
  ∧ out ∈ files (disk (demo_placeholder out d s).2).
Proof.
  intros Hd Hro. unfold demo_placeholder, bind, time_sleep.
  destruct (Z.ltb_spec (1000 * d) 0); [lia|].
  unfold modify, open_write. rewrite advance_disk.
  rewrite bool_decide_eq_false_2 by exact Hro.
  unfold logger, modify, ret, with_files. cbn [fst snd cam disk now files].
  rewrite advance_now, advance_disk.
  split; [reflexivity|]. split; [reflexivity|].
  apply elem_of_union_r, elem_of_singleton. reflexivity.
Qed.

(** The Pi backend, for comparison: with the event already set it
    returns at its first poll. *)
Lemma pi_record_flag_set (hw : Hardware) (s : Sys) (p : option string)
      (d : Z) :
  pi_healthy hw (cam s) → lm_cancel_event (cam s) = true →
  now (PiCamera2_record hw p d (Some LMCancelEvent) s).2 = now s.
Proof.
  intros Hh Hf. rewrite pi_record_healthy by exact Hh. cbn [snd].
  rewrite pi_wait_flag_set; [reflexivity|]. exact Hf.
Qed.

(** C9 (the code against the claim). [DemoBackend.record] never looks at
    the event it is given. Called with the cancellation event already
    set, it still writes every one of its [int(fps * duration)] frames
    when OpenCV is there, and otherwise still sleeps for the whole
    duration before it writes its placeholder file. *)
Theorem demo_record_ignores_cancellation (hw : Hardware) (s : Sys)
        (p : option string) (d : Z) :
  lm_cancel_event (cam s) = true →
  0 ≤ d →
  let r := Demo_record hw p d (Some LMCancelEvent) s in
  (has_cv2 hw = true → writer_opens hw = true →
     r.1 = Val (mp4_name (py_str p))
     ∧ frames r.2 = (Z.to_nat (fps (config (cam s)) * d) + frames s)%nat)
  ∧ (has_cv2 hw = false ∨ writer_opens hw = false →
     mp4_name (py_str p) ∉ readonly (disk s) →
     r.1 = Val (mp4_name (py_str p))
     ∧ now r.2 = now s + 1000 * d).
Proof.
  intros Hset Hd r. subst r. split.
  - intros Hcv Hw. unfold Demo_record, bind, self, gets.
    rewrite Hcv, Hw. unfold encoder_output, modify.
    rewrite demo_frames_spec. split; reflexivity.
  - intros Hno Hro.
    destruct (demo_placeholder_spec s (mp4_name (py_str p)) d Hd Hro)
      as (Hr & Hn & _).
    unfold Demo_record, bind, self, gets.
    destruct Hno as [-> | Hw].
    + split; assumption.
    + rewrite Hw. destruct (has_cv2 hw); split; assumption.
Qed.

Lemma demo_record_ignores_cancellation_witness :
  let s := mkSys (Sample.armed "temp_lm_x.mp4") (Sample.disk_of ∅)
                 1000 None [] [] 0 in
  let s1 := with_cam (set_lm_cancel_event true) s in
  lm_cancel_event (cam s1) = true
  ∧ 0 ≤ 5
  ∧ frames (Demo_record Sample.steady (Some "temp_lm_x.mp4") 5
              (Some LMCancelEvent) s1).2 = 150%nat
  ∧ ("temp_lm_x.mp4" ∉ readonly (disk s1))
  ∧ now (Demo_record Sample.bare (Some "temp_lm_x.mp4") 5
           (Some LMCancelEvent) s1).2 = 6000.
Proof.
  cbv zeta.
  set (s1 := with_cam (set_lm_cancel_event true)
               (mkSys (Sample.armed "temp_lm_x.mp4") (Sample.disk_of ∅)
                      1000 None [] [] 0)).
  assert (Hset : lm_cancel_event (cam s1) = true) by reflexivity.
  assert (Hd : 0 ≤ 5) by lia.
  assert (Hro : "temp_lm_x.mp4" ∉ readonly (disk s1))
    by (simpl; apply not_elem_of_empty).
  pose proof (demo_record_ignores_cancellation Sample.steady s1
                (Some "temp_lm_x.mp4") 5 Hset Hd) as [Hcv _].
  pose proof (demo_record_ignores_cancellation Sample.bare s1
                (Some "temp_lm_x.mp4") 5 Hset Hd) as [_ Hplain].
  destruct (Hcv eq_refl eq_refl) as [_ Hframes].
  destruct (Hplain (or_introl eq_refl) Hro) as [_ Hnow].
  split; [exact Hset|]. split; [exact Hd|]. split; [exact Hframes|].
  split; [exact Hro | exact Hnow].
Defined.

(** ** The worker thread *)

Lemma lm_continuous_record_split (hw : Hardware) (s : Sys) :
  _lm_continuous_record hw s
  = worker_leave (worker_record_call hw (with_cam (set_recording true) s)).1
                 (worker_record_call hw (with_cam (set_recording true) s)).2.
Proof.
  unfold _lm_continuous_record, worker_leave, lm_guarded, try_except,
    try_finally, bind, assign, modify, ret, raise.
  destruct (worker_record_call hw (with_cam (set_recording true) s))
    as [[a|e] s1]; reflexivity.
Qed.

Lemma worker_leave_raised (e : PyExc) (s : Sys) :
  (worker_leave (Exn e) s).1 = Val tt
  ∧ lm_state (cam (worker_leave (Exn e) s).2) = IDLE
  ∧ recording (cam (worker_leave (Exn e) s).2) = false
  ∧ lm_temp_file (cam (worker_leave (Exn e) s).2) = lm_temp_file (cam s)
  ∧ lm_recording_start_time (cam (worker_leave (Exn e) s).2)
    = lm_recording_start_time (cam s)
  ∧ disk (worker_leave (Exn e) s).2 = disk s.
Proof.
  unfold worker_leave, lm_guarded, lm_handler. open_sys s. py_run.
  repeat split; reflexivity.
Qed.

Lemma arm_from_idle (strftime : Z → string) (s : Sys) :
  lm_state (cam s) = IDLE → recording (cam s) = false →
  (arm_launch_monitor strftime s).1
  = Val (LMArmed (lm_max_recording_duration (config (cam s))))
  ∧ lm_state (cam (arm_launch_monitor strftime s).2) = ARMED
  ∧ lm_temp_file (cam (arm_launch_monitor strftime s).2)
    = Some (PurePath.joinpath
              ("temp_lm_" +:+ strftime (now s) +:+ extension (cam s)))
  ∧ lm_recording_start_time (cam (arm_launch_monitor strftime s).2)
    = Some (now s)
  ∧ lm_cancel_event (cam (arm_launch_monitor strftime s).2) = false
  ∧ recording (cam (arm_launch_monitor strftime s).2) = false
  ∧ backend (cam (arm_launch_monitor strftime s).2) = backend (cam s)
  ∧ config (cam (arm_launch_monitor strftime s).2) = config (cam s)
  ∧ disk (arm_launch_monitor strftime s).2 = disk s
  ∧ now (arm_launch_monitor strftime s).2 = now s
  ∧ signal_due (arm_launch_monitor strftime s).2 = signal_due s.
Proof.
  intros Hi Hr. unfold arm_launch_monitor. open_sys s.
  simpl in Hi, Hr. subst. py_run; simpl in *; try discriminate;
    try congruence.
  repeat split; reflexivity.
Qed.

(** C2 (the code against the claim). When the backend raises inside the
    worker, the worker's handler sets the state to [IDLE] and clears the
    recording flag, but leaves the temp path and the arm timestamp that
    [arm_launch_monitor] had set: after the worker has terminated the
    state is [IDLE] with both still set, and the invariant is broken. *)
Theorem worker_failure_breaks_invariant (strftime : Z → string)
        (hw : Hardware) (s : Sys) :
  lm_state (cam s) = IDLE →
  recording (cam s) = false →
  camera_fault hw = true →
  backend (cam s) ≠ DemoBackend →
  let s1 := (arm_launch_monitor strftime s).2 in
  let s2 := (_lm_continuous_record hw s1).2 in
  lm_invariant (cam s1)
  ∧ (_lm_continuous_record hw s1).1 = Val tt
  ∧ lm_state (cam s2) = IDLE
  ∧ lm_temp_file (cam s2) = lm_temp_file (cam s1)
  ∧ lm_temp_file (cam s2) ≠ None
  ∧ lm_recording_start_time (cam s2) = Some (now s)
  ∧ ¬ lm_invariant (cam s2).
Proof.
  intros Hi Hr Hf Hb s1 s2.
  destruct (arm_from_idle strftime s Hi Hr)
    as (_ & Hst & Htmp & Hstart & _ & _ & Hbk & _).
  fold s1 in Hst, Htmp, Hstart, Hbk.
  assert (Hinv1 : lm_invariant (cam s1)).
  { unfold lm_invariant. rewrite Hst, Htmp, Hstart. split; intros; try done. }
  assert (Hb1 : backend (cam (with_cam (set_recording true) s1))
                ≠ DemoBackend).
  { unfold with_cam, set_recording. simpl. by rewrite Hbk. }
  destruct (backend_record_faulty hw (with_cam (set_recording true) s1)
              (lm_temp_file (cam (with_cam (set_recording true) s1)))
              (lm_max_recording_duration
                 (config (cam (with_cam (set_recording true) s1))))
              None Hf Hb1) as (e & s' & He & Heff).
  apply record_effect_cam in Heff as (_ & _ & _ & _ & _ & Htmp1 & Hstart1).
  assert (Hcall : worker_record_call hw (with_cam (set_recording true) s1)
                  = (Exn e, s')).
  { unfold worker_record_call, bind, self, gets. exact He. }
  assert (Hrun : _lm_continuous_record hw s1 = worker_leave (Exn e) s').
  { rewrite lm_continuous_record_split, Hcall. reflexivity. }
  destruct (worker_leave_raised e s')
    as (Hv & Hidle & _ & Htmp2 & Hstart2 & _).
  subst s2. rewrite Hrun.
  assert (Ht : lm_temp_file (cam (worker_leave (Exn e) s').2)
               = lm_temp_file (cam s1))
    by (rewrite Htmp2, Htmp1; reflexivity).
  assert (Hs : lm_recording_start_time (cam (worker_leave (Exn e) s').2)
               = Some (now s))
    by (rewrite Hstart2, Hstart1; exact Hstart).
  split; [exact Hinv1|]. split; [exact Hv|]. split; [exact Hidle|].
  split; [exact Ht|].
  split; [rewrite Ht, Htmp; discriminate|].
  split; [exact Hs|].
  unfold lm_invariant. rewrite Hidle, Ht, Htmp.
  intros [[Hl _] _]. apply Hl; [discriminate | reflexivity].
Qed.

Lemma worker_failure_breaks_invariant_witness :
  let s := Sample.fresh PiCamera2Backend "mp4" in
  let s1 := (arm_launch_monitor Sample.stamp s).2 in
  let s2 := (_lm_continuous_record Sample.faulty s1).2 in
  lm_state (cam s) = IDLE
  ∧ recording (cam s) = false
  ∧ camera_fault Sample.faulty = true
  ∧ backend (cam s) ≠ DemoBackend
  ∧ lm_state (cam s2) = IDLE
  ∧ lm_temp_file (cam s2) ≠ None
  ∧ lm_recording_start_time (cam s2) = Some 1000.
Proof.
  cbv zeta.
  assert (Hb : backend (cam (Sample.fresh PiCamera2Backend "mp4"))
               ≠ DemoBackend) by discriminate.
  destruct (worker_failure_breaks_invariant Sample.stamp Sample.faulty
              (Sample.fresh PiCamera2Backend "mp4")
              eq_refl eq_refl eq_refl Hb)
    as (_ & _ & Hidle & _ & Htmp & Hstart & _).
  do 3 (split; [reflexivity|]). split; [exact Hb|].
  split; [exact Hidle|]. split; [exact Htmp | exact Hstart].
Defined.

(** ** capture_swing *)

Lemma capture_swing_with_cases (strftime : Z → string)
      (record : option string → Z → option EventRef → M string)
      (custom : option string) (s : Sys) :
  recording (cam s) = false →
  capture_swing_with strftime record custom s
  = match record (Some (capture_output_path strftime custom s))
            (duration (config (cam s))) None (capture_started s) with
    | (Val actual, s2) =>
        match _save_metadata (PurePath.joinpath actual) (strftime (now s))
                             (capture_recorded s2) with
        | (Val _, s3) =>
            (Val (Some (PurePath.joinpath actual)),
             if upload_enabled (config (cam s))
             then upload_started (PurePath.joinpath actual) s3 else s3)
        | (Exn _, s3) =>
            (Val None, capture_recorded (logged ERROR "Recording failed" s3))
        end
    | (Exn _, s2) =>
        (Val None, capture_recorded (logged ERROR "Recording failed" s2))
    end.
Proof.
  intros Hr. unfold capture_swing_with, capture_output_path, capture_started.
  unfold bind at 1. unfold self, gets. rewrite Hr.
  unfold bind at 1. unfold time_time, gets.
  unfold try_except, bind, event_clear, event_set, when, ret,
    logger, _upload_file. unfold assign, modify. cbv beta iota.
  destruct (record _ _ _ _) as [[actual|e] s2]; [|reflexivity].
  unfold capture_recorded.
  destruct (_save_metadata _ _ _) as [[[]|e] s3]; [|reflexivity].
  destruct (upload_enabled (config (cam s))); reflexivity.
Qed.

Lemma capture_swing_cases (strftime : Z → string) (hw : Hardware)
      (custom : option string) (s : Sys) :
  recording (cam s) = false →
  capture_swing strftime hw custom s
  = match backend_record hw (Some (capture_output_path strftime custom s))
            (duration (config (cam s))) None (capture_started s) with
    | (Val actual, s2) =>
        match _save_metadata (PurePath.joinpath actual) (strftime (now s))
                             (capture_recorded s2) with
        | (Val _, s3) =>
            (Val (Some (PurePath.joinpath actual)),
             if upload_enabled (config (cam s))
             then upload_started (PurePath.joinpath actual) s3 else s3)
        | (Exn _, s3) =>
            (Val None, capture_recorded (logged ERROR "Recording failed" s3))
        end
    | (Exn _, s2) =>
        (Val None, capture_recorded (logged ERROR "Recording failed" s2))
    end.
Proof.
  intros Hr. unfold capture_swing.
  exact (capture_swing_with_cases strftime (backend_record hw) custom s Hr).
Qed.

Lemma capture_swing_busy (strftime : Z → string) (hw : Hardware)
      (custom : option string) (s : Sys) :
  recording (cam s) = true →
  capture_swing strftime hw custom s
  = (Val None, logged WARNING "Already recording!" s).
Proof.
  intros Hr. unfold capture_swing, capture_swing_with.
  unfold bind at 1. unfold self, gets.
  rewrite Hr. reflexivity.
Qed.

(** With the recording flag set [capture_swing] is rejected: it logs a
    warning and does nothing else. *)
Lemma capture_swing_rejected_while_flag_set (strftime : Z → string)
      (hw : Hardware) (custom : option string) (s : Sys) :
  recording (cam s) = true →
  let r := capture_swing strftime hw custom s in
  r.1 = Val None
  ∧ cam r.2 = cam s
  ∧ disk r.2 = disk s
  ∧ uploads r.2 = uploads s
  ∧ frames r.2 = frames s
  ∧ now r.2 = now s
  ∧ log r.2 = log s ++ [(WARNING, "Already recording!")].
Proof.
  intros Hr r. subst r. rewrite capture_swing_busy by exact Hr.
  repeat split; reflexivity.
Qed.

(** C3 (the code against the claim). [capture_swing] looks at the
    recording flag and nowhere at the launch-monitor state, while
    [arm_launch_monitor], beside it, refuses both when the state is not
    [IDLE] and when the flag is set. The launch monitor is armed and its
    worker is recording, with the flag set. [shot_detected] sets the
    state to [PROCESSING] and raises the cancellation flag; the worker's
    [record] call returns, and the worker, finding the cancellation flag
    set, clears the recording flag and ends. From then on, for as long as
    [shot_detected] is extracting the clip, the state is [PROCESSING]
    and the flag is clear: [arm_launch_monitor] answers "Already
    processing", but [capture_swing] is not rejected. It records, and
    leaves a video and its sidecar on the disk. This holds for each of
    the three backends. *)
Theorem capture_swing_accepted_while_processing (b : BackendKind) :
  let s1 := (arm_launch_monitor Sample.stamp (Sample.fresh b "mp4")).2 in
  let rec := worker_record_call Sample.steady (worker_enter s1).2 in
  let s2 := (worker_leave rec.1 (shot_started rec.2)).2 in
  let r := capture_swing Sample.stamp Sample.steady (Some "shot") s2 in
  lm_state (cam s1) = ARMED
  ∧ recording (cam (worker_enter s1).2) = true
  ∧ (capture_swing Sample.stamp Sample.steady (Some "shot")
       (worker_enter s1).2).1 = Val None
  ∧ rec.1 = Val "temp_lm_20250101_120000.mp4"
  ∧ lm_state (cam s2) = PROCESSING
  ∧ recording (cam s2) = false
  ∧ files (disk s2) = {["temp_lm_20250101_120000.mp4"]}
  ∧ (arm_launch_monitor Sample.stamp s2).1
    = Val (LMError "Already processing")
  ∧ (arm_launch_monitor Sample.stamp s2).2
    = logged WARNING "Cannot arm: already in state" s2
  ∧ r.1 = Val (Some "shot.mp4")
  ∧ lm_state (cam r.2) = PROCESSING
  ∧ files (disk r.2)
    = {["temp_lm_20250101_120000.mp4"; "shot.mp4"; "shot.json"]}.
Proof.
  destruct b; cbv zeta; repeat split; vm_compute; reflexivity.
Qed.

(** ** _save_metadata (C8) *)

Lemma save_metadata_missing_video (video ts : string) (s : Sys) :
  video ∉ files (disk s) →
  _save_metadata video ts s = (Exn FileNotFoundError, s).
Proof.
  intros Hv. unfold _save_metadata, bind, os_path_getsize.
  rewrite bool_decide_eq_false_2 by exact Hv. reflexivity.
Qed.

Lemma save_metadata_readonly_sidecar (video ts m : string) (s : Sys) :
  video ∈ files (disk s) →
  PurePath.with_suffix video ".json" = Some m →
  m ∈ readonly (disk s) →
  _save_metadata video ts s = (Exn PermissionError, s).
Proof.
  intros Hv Hm Hro. unfold _save_metadata, bind, os_path_getsize.
  rewrite bool_decide_eq_true_2 by exact Hv. rewrite Hm.
  unfold open_write. rewrite bool_decide_eq_true_2 by exact Hro.
  reflexivity.
Qed.

(** When [_save_metadata] raises it has changed nothing. *)
Lemma save_metadata_raise_unchanged (video ts : string) (s s' : Sys)
      (e : PyExc) :
  _save_metadata video ts s = (Exn e, s') → s' = s.
Proof.
  unfold _save_metadata, bind, os_path_getsize, raise, open_write.
  destruct (bool_decide (video ∈ files (disk s))); [|by intros [= <- <-]].
  destruct (PurePath.with_suffix video ".json") as [m|];
    [|by intros [= <- <-]].
  destruct (bool_decide (m ∈ readonly (disk s))); [by intros [= <- <-]|].
  intros [=].
Qed.

(** C8, as the specification states it, fails: the recording succeeds,
    the sidecar cannot be written, and [capture_swing] returns its failure
    value although the recording is on the disk. *)
Lemma capture_swing_fails_on_metadata_error :
  let s := Sample.with_disk (mkDisk ∅ ∅ {["shot.json"]} ∅ ∅)
             (Sample.fresh DemoBackend "mp4") in
  let r := capture_swing Sample.stamp Sample.bare (Some "shot") s in
  (backend_record Sample.bare
     (Some (capture_output_path Sample.stamp (Some "shot") s))
     (duration (config (cam s))) None (capture_started s)).1
  = Val "shot.mp4"
  ∧ r.1 = Val None
  ∧ "shot.mp4" ∈ files (disk r.2)
  ∧ log r.2
    = [(WARNING, "Demo mode: cv2 not available, created placeholder file");
       (ERROR, "Recording failed")].
Proof.
  cbv zeta. repeat split; vm_compute; reflexivity.
Qed.

(** C8 (amended). [_save_metadata] does not swallow I/O errors: a missing
    video file and a sidecar that cannot be written both make it raise.
    [capture_swing] catches that exception with the handler it has for a
    failed recording: when the recording has succeeded and the metadata
    write raises, the call logs the error and returns its failure value
    [None]; the recording stays on the disk, the flag is cleared and no
    upload is started. *)
Theorem metadata_failure_fails_capture (strftime : Z → string)
        (hw : Hardware) (custom : option string) (s s2 s3 : Sys)
        (actual : string) (e : PyExc) :
  recording (cam s) = false →
  backend_record hw (Some (capture_output_path strftime custom s))
    (duration (config (cam s))) None (capture_started s) = (Val actual, s2) →
  _save_metadata (PurePath.joinpath actual) (strftime (now s))
    (capture_recorded s2) = (Exn e, s3) →
  let r := capture_swing strftime hw custom s in
  (∀ video ts st, video ∉ files (disk st) →
      _save_metadata video ts st = (Exn FileNotFoundError, st))
  ∧ (∀ video ts m st, video ∈ files (disk st) →
      PurePath.with_suffix video ".json" = Some m → m ∈ readonly (disk st) →
      _save_metadata video ts st = (Exn PermissionError, st))
  ∧ r.1 = Val None
  ∧ recording (cam r.2) = false
  ∧ disk r.2 = disk s2
  ∧ uploads r.2 = uploads s2
  ∧ log r.2 = log s2 ++ [(ERROR, "Recording failed")].
Proof.
  intros Hr Hrec Hmeta r. subst r.
  split; [exact save_metadata_missing_video|].
  split; [exact save_metadata_readonly_sidecar|].
  rewrite capture_swing_cases by exact Hr. rewrite Hrec, Hmeta.
  apply save_metadata_raise_unchanged in Hmeta. subst s3.
  repeat split; reflexivity.
Qed.

Lemma metadata_failure_fails_capture_witness :
  let s := Sample.with_disk (mkDisk ∅ ∅ {["shot.json"]} ∅ ∅)
             (Sample.fresh DemoBackend "mp4") in
  let s2 := (backend_record Sample.bare
               (Some (capture_output_path Sample.stamp (Some "shot") s))
               (duration (config (cam s))) None (capture_started s)).2 in
  recording (cam s) = false
  ∧ backend_record Sample.bare
      (Some (capture_output_path Sample.stamp (Some "shot") s))
      (duration (config (cam s))) None (capture_started s)
    = (Val "shot.mp4", s2)
  ∧ _save_metadata (PurePath.joinpath "shot.mp4") (Sample.stamp (now s))
      (capture_recorded s2) = (Exn PermissionError, capture_recorded s2)
  ∧ (capture_swing Sample.stamp Sample.bare (Some "shot") s).1 = Val None
  ∧ disk (capture_swing Sample.stamp Sample.bare (Some "shot") s).2
    = disk s2.
Proof.
  cbv zeta.
  set (s := Sample.with_disk (mkDisk ∅ ∅ {["shot.json"]} ∅ ∅)
              (Sample.fresh DemoBackend "mp4")).
  set (s2 := (backend_record Sample.bare
                (Some (capture_output_path Sample.stamp (Some "shot") s))
                (duration (config (cam s))) None (capture_started s)).2).
  assert (Hrec : backend_record Sample.bare
            (Some (capture_output_path Sample.stamp (Some "shot") s))
            (duration (config (cam s))) None (capture_started s)
          = (Val "shot.mp4", s2)) by (vm_compute; reflexivity).
  assert (Hmeta : _save_metadata (PurePath.joinpath "shot.mp4")
                    (Sample.stamp (now s)) (capture_recorded s2)
                  = (Exn PermissionError, capture_recorded s2))
    by (vm_compute; reflexivity).
  destruct (metadata_failure_fails_capture Sample.stamp Sample.bare
              (Some "shot") s s2 _ "shot.mp4" _ eq_refl Hrec Hmeta)
    as (_ & _ & Hres & _ & Hdisk & _).
  split; [reflexivity|]. split; [exact Hrec|]. split; [exact Hmeta|].
  split; [exact Hres | exact Hdisk].
Defined.

(** ** The worker's timeout path (C6) *)

(** The timeout path as the source has it: when the [record] call has
    returned and the cancellation flag is not set, the worker sets the
    state to [IDLE], removes the file at the temp path if there is one,
    and clears the temp path and the arm timestamp. *)
Lemma worker_leave_timeout_removes_temp (s : Sys) (actual p : string) :
  lm_cancel_event (cam s) = false →
  lm_temp_file (cam s) = Some p →
  p ∉ stuck (disk s) →
  (worker_leave (Val actual) s).1 = Val tt
  ∧ lm_state (cam (worker_leave (Val actual) s).2) = IDLE
  ∧ lm_temp_file (cam (worker_leave (Val actual) s).2) = None
  ∧ lm_recording_start_time (cam (worker_leave (Val actual) s).2) = None
  ∧ recording (cam (worker_leave (Val actual) s).2) = false
  ∧ p ∉ files (disk (worker_leave (Val actual) s).2).
Proof.
  unfold worker_leave, lm_guarded, lm_after_record, lm_handler. open_sys s.
  simpl. intros -> [= ->] Hst. py_run; try contradiction;
    repeat split; try reflexivity; try assumption.
  rewrite elem_of_difference, elem_of_singleton. tauto.
Qed.

(** It removes the file at the temp path and no other: when nothing
    exists at the temp path, the disk is left as it is. *)
Lemma worker_leave_timeout_removes_nothing_else (s : Sys)
      (actual p : string) :
  lm_cancel_event (cam s) = false →
  lm_temp_file (cam s) = Some p →
  p ∉ files (disk s) →
  lm_state (cam (worker_leave (Val actual) s).2) = IDLE
  ∧ lm_temp_file (cam (worker_leave (Val actual) s).2) = None
  ∧ disk (worker_leave (Val actual) s).2 = disk s.
Proof.
  unfold worker_leave, lm_guarded, lm_after_record, lm_handler. open_sys s.
  simpl. intros -> [= ->] Hst. py_run; try contradiction;
    repeat split; reflexivity.
Qed.

(** When the cancellation flag is set the worker leaves everything but
    the recording flag to the caller. *)
Lemma worker_leave_cancelled (s : Sys) (actual : string) :
  lm_cancel_event (cam s) = true →
  worker_leave (Val actual) s = (Val tt, with_cam (set_recording false) s).
Proof.
  unfold worker_leave, lm_guarded, lm_after_record, lm_handler. open_sys s.
  simpl. intros ->. py_run. reflexivity.
Qed.

(** C6 (the code against the claim). With the default format ['h264']
    the temp path ends in [.h264], every backend records to the same name
    with [.mp4] and returns that name, and the worker drops the returned
    name. On timeout it finds nothing at the temp path: the state goes
    back to [IDLE] and the transient data is cleared, but the temp
    recording is still on the disk. This holds for each of the three
    backends. *)
Theorem timeout_leaves_temp_recording_on_disk (b : BackendKind) :
  let s1 := (arm_launch_monitor Sample.stamp (Sample.fresh b "h264")).2 in
  let s2 := (_lm_continuous_record Sample.steady s1).2 in
  lm_state (cam s1) = ARMED
  ∧ lm_temp_file (cam s1) = Some "temp_lm_20250101_120000.h264"
  ∧ files (disk s1) = ∅
  ∧ (worker_record_call Sample.steady (worker_enter s1).2).1
    = Val "temp_lm_20250101_120000.mp4"
  ∧ lm_cancel_event (cam s2) = false
  ∧ lm_state (cam s2) = IDLE
  ∧ lm_temp_file (cam s2) = None
  ∧ lm_recording_start_time (cam s2) = None
  ∧ files (disk s2) = {["temp_lm_20250101_120000.mp4"]}.
Proof.
  destruct b; cbv zeta; repeat split; vm_compute; reflexivity.
Qed.

(** The same defect met by [cancel_launch_monitor]: with the format
    ['h264'] the recording is not at the stored temp path, so a cancel
    made once the worker's [record] call is over finds nothing there,
    removes nothing and logs nothing, and the recording stays. *)
Lemma cancel_after_h264_arm_finds_no_temp_file (b : BackendKind) :
  let s1 := (arm_launch_monitor Sample.stamp (Sample.fresh b "h264")).2 in
  let rec := worker_record_call Sample.steady (worker_enter s1).2 in
  let r := cancel_launch_monitor rec.2 in
  lm_temp_file (cam rec.2) = Some "temp_lm_20250101_120000.h264"
  ∧ files (disk rec.2) = {["temp_lm_20250101_120000.mp4"]}
  ∧ r.1 = Val LMCancelled
  ∧ lm_state (cam r.2) = IDLE
  ∧ disk r.2 = disk rec.2
  ∧ log r.2 = log rec.2.
Proof.
  destruct b; cbv zeta; repeat apply conj; vm_compute; reflexivity.
Qed.

(** ** Strings and paths *)

Lemma append_cons (a : ascii) (s t : string) :
  String a s +:+ t = String a (s +:+ t).
Proof. reflexivity. Qed.

Lemma append_nil_l (t : string) : "" +:+ t = t.
Proof. reflexivity. Qed.

Lemma prefix_cons (a b : ascii) (s t : string) :
  String.prefix (String a s) (String b t)
  = if ascii_dec a b then String.prefix s t else false.
Proof. reflexivity. Qed.

Lemma chars_app (a b : string) :
  Str.chars (a +:+ b) = Str.chars a ++ Str.chars b.
Proof.
  induction a as [|x a IH]; [reflexivity|].
  rewrite append_cons. unfold Str.chars in *. simpl. by rewrite IH.
Qed.

Lemma string_of_chars (s : string) : string_of_list_ascii (Str.chars s) = s.
Proof. apply string_of_list_ascii_of_string. Qed.

Lemma endswith_app (c suf : string) : Str.endswith (c +:+ suf) suf = true.
Proof.
  unfold Str.endswith. apply bool_decide_eq_true_2.
  exists (Str.chars c). apply chars_app.
Qed.

Lemma drop_last_app (c suf : string) :
  Str.drop_last (length (Str.chars suf)) (c +:+ suf) = c.
Proof.
  unfold Str.drop_last. rewrite chars_app, length_app.
  replace (length (Str.chars c) + length (Str.chars suf)
           - length (Str.chars suf))%nat
    with (length (Str.chars c)) by lia.
  rewrite take_app_length. apply string_of_chars.
Qed.

Lemma mp4_name_h264 (c : string) : mp4_name (c +:+ ".h264") = c +:+ ".mp4".
Proof.
  unfold mp4_name. rewrite endswith_app.
  change 5%nat with (length (Str.chars ".h264")).
  by rewrite drop_last_app.
Qed.

Lemma mp4_name_mp4 (c : string) : mp4_name (c +:+ ".mp4") = c +:+ ".mp4".
Proof.
  unfold mp4_name, Str.endswith.
  rewrite bool_decide_eq_false_2; [reflexivity|].
  intros [k Hk]. rewrite chars_app in Hk.
  change (Str.chars ".mp4") with (["."; "m"; "p"; "4"]%char) in Hk.
  change (Str.chars ".h264") with (["."; "h"; "2"; "6"; "4"]%char) in Hk.
  change (Str.chars c ++ ["."; "m"; "p"; "4"]%char)
    with (Str.chars c ++ ["."%char] ++ ["m"; "p"; "4"]%char) in Hk.
  change (k ++ ["."; "h"; "2"; "6"; "4"]%char)
    with (k ++ ["."; "h"]%char ++ ["2"; "6"; "4"]%char) in Hk.
  rewrite !app_assoc in Hk.
  apply app_inj_2 in Hk; [|reflexivity]. destruct Hk as [_ Hk].
  discriminate.
Qed.

Lemma extension_cases (c : SwingCamera) :
  extension c = ".h264" ∨ extension c = ".mp4".
Proof. unfold extension. destruct (String.eqb _ _); auto. Qed.

Lemma mp4_name_extension (n : string) (c : SwingCamera) :
  mp4_name (n +:+ extension c) = n +:+ ".mp4".
Proof.
  destruct (extension_cases c) as [-> | ->];
    [apply mp4_name_h264 | apply mp4_name_mp4].
Qed.

Lemma contains_app (x : ascii) (a b : string) :
  Str.contains x (a +:+ b) = Str.contains x a || Str.contains x b.
Proof.
  induction a as [|y a IH]; [reflexivity|].
  rewrite append_cons. simpl. destruct (Ascii.eqb y x); [reflexivity|].
  exact IH.
Qed.

Lemma split_plain (x : ascii) (n : string) :
  Str.contains x n = false → Str.split x n = [n].
Proof.
  induction n as [|a n IH]; [reflexivity|].
  simpl. destruct (Ascii.eqb a x); [discriminate|].
  intros H. by rewrite IH.
Qed.

Lemma rcut_plain (x : ascii) (n : string) :
  Str.contains x n = false → Str.rcut x n = None.
Proof.
  induction n as [|a n IH]; [reflexivity|].
  simpl. destruct (Ascii.eqb a x); [discriminate|].
  intros H. by rewrite IH.
Qed.

Lemma joinpath_plain (n : string) :
  plain_name n → n ≠ "" → n ≠ "." → PurePath.joinpath n = n.
Proof.
  unfold plain_name. intros Hp Hne Hnd.
  unfold PurePath.joinpath, PurePath.parts.
  rewrite split_plain by exact Hp.
  assert (PurePath.is_absolute n = false) as ->.
  { destruct n as [|a n]; [reflexivity|].
    unfold PurePath.is_absolute, Str.startswith. rewrite prefix_cons.
    destruct (ascii_dec "/" a) as [<-|]; [|reflexivity].
    simpl in Hp. discriminate. }
  rewrite filter_cons_True by (split; assumption).
  rewrite filter_nil. simpl. reflexivity.
Qed.

Lemma name_plain (p : string) : plain_name p → PurePath.name p = p.
Proof.
  intros Hp. unfold PurePath.name. by rewrite rcut_plain.
Qed.

Lemma parent_prefix_plain (p : string) :
  plain_name p → PurePath.parent_prefix p = "".
Proof.
  intros Hp. unfold PurePath.parent_prefix. by rewrite rcut_plain.
Qed.

Lemma with_suffix_plain (p suf : string) :
  plain_name p → p ≠ "" →
  PurePath.with_suffix p suf = Some (PurePath.name_stem p +:+ suf).
Proof.
  intros Hp Hne. unfold PurePath.with_suffix.
  rewrite name_plain, parent_prefix_plain by exact Hp.
  destruct p; [contradiction|reflexivity].
Qed.

Lemma rcut_app_last (x : ascii) (c e : string) :
  Str.contains x e = false →
  Str.rcut x (c +:+ String x e) = Some (c, String x e).
Proof.
  intros He. induction c as [|a c IH].
  - rewrite append_nil_l. simpl. rewrite rcut_plain by exact He.
    by rewrite Ascii.eqb_refl.
  - rewrite append_cons. simpl. by rewrite IH.
Qed.

Lemma name_stem_video (c : string) :
  c ≠ "" → PurePath.name_stem (c +:+ ".mp4") = c.
Proof.
  intros Hne. unfold PurePath.name_stem.
  change ".mp4" with (String PurePath.dot "mp4").
  rewrite rcut_app_last by reflexivity.
  destruct c; [contradiction|reflexivity].
Qed.

Lemma startswith_swing_inv (n : string) :
  Str.startswith n "swing_" = true → ∃ r, n = "swing_" +:+ r.
Proof.
  unfold Str.startswith. intros H.
  apply String.prefix_correct in H. simpl String.length in H.
  exists (Str.drop 6 n).
  destruct n as [|a1 [|a2 [|a3 [|a4 [|a5 [|a6 n]]]]]]; try discriminate.
  simpl in H. injection H as -> -> -> -> -> -> _. reflexivity.
Qed.

(** A name that does not begin with [swing_] does not begin with it
    after a dot and more text are appended. *)
Lemma startswith_swing_app_dot (c e : string) :
  Str.startswith c "swing_" = false →
  Str.startswith (c +:+ String PurePath.dot e) "swing_" = false.
Proof.
  unfold Str.startswith. intros Hc.
  destruct (String.prefix "swing_" (c +:+ String PurePath.dot e)) eqn:Hp;
    [|reflexivity].
  exfalso. apply String.prefix_correct in Hp. simpl String.length in Hp.
  destruct c as [|a1 [|a2 [|a3 [|a4 [|a5 [|a6 c]]]]]];
    try (vm_compute in Hp; discriminate Hp).
  rewrite !append_cons in Hp. simpl in Hp.
  injection Hp as -> -> -> -> -> -> _.
  destruct c; vm_compute in Hc; discriminate Hc.
Qed.

Lemma glob_swing_startswith (n : string) :
  PurePath.glob_swing n = true → Str.startswith n "swing_" = true.
Proof. unfold PurePath.glob_swing. intros H. by apply andb_true_iff in H as [? _]. Qed.

Lemma startswith_swing_intro (r x : string) :
  Str.startswith (("swing_" +:+ r) +:+ x) "swing_" = true.
Proof. destruct r, x; reflexivity. Qed.

(** The stem of a name that begins with [swing_] begins with it too. *)
Lemma name_stem_swing (n x : string) :
  Str.startswith n "swing_" = true →
  Str.startswith (PurePath.name_stem n +:+ x) "swing_" = true.
Proof.
  intros H. destruct (startswith_swing_inv n H) as [r ->].
  unfold PurePath.name_stem.
  change ("swing_" +:+ r)
    with (String "s" (String "w" (String "i" (String "n" (String "g"
            (String "_" r)))))).
  simpl Str.rcut.
  destruct (Str.rcut PurePath.dot r) as [[b [|d [|c e]]]|];
    first [exact (startswith_swing_intro r x)
          | exact (startswith_swing_intro b x)].
Qed.

Lemma is_entry_plain (p : string) :
  PurePath.is_entry p = true → plain_name p ∧ p ≠ "" ∧ p ≠ ".".
Proof.
  unfold PurePath.is_entry, plain_name. intros H.
  apply andb_true_iff in H as [H _].
  apply andb_true_iff in H as [H Hd].
  apply andb_true_iff in H as [Hs He].
  apply negb_true_iff in Hs, He, Hd.
  apply String.eqb_neq in He, Hd. done.
Qed.

(** ** What a successful capture leaves on the disk *)

Lemma backend_record_value (hw : Hardware) (s s' : Sys) (p : option string)
      (d : Z) (ce : option EventRef) (a : string) :
  backend_record hw p d ce s = (Val a, s') → a = mp4_name (py_str p).
Proof.
  intros H.
  destruct (backend_record_cases hw s p d ce) as (r & s'' & Hr & Hv & _).
  rewrite H in Hr. injection Hr as <- <-.
  destruct Hv as [[=] | [e [=]]]. assumption.
Qed.

Lemma save_metadata_ok (video ts : string) (s s' : Sys) (u : unit) :
  _save_metadata video ts s = (Val u, s') →
  video ∈ files (disk s')
  ∧ ∃ m, PurePath.with_suffix video ".json" = Some m ∧ m ∈ files (disk s').
Proof.
  unfold _save_metadata, bind, os_path_getsize, raise, open_write.
  case_bool_decide as Hv; [|intros [=]].
  destruct (PurePath.with_suffix video ".json") as [m|]; [|intros [=]].
  case_bool_decide; [intros [=]|].
  intros [= _ <-]. unfold with_files. simpl. split.
  - apply elem_of_union_l. exact Hv.
  - exists m. split; [reflexivity|].
    apply elem_of_union_r, elem_of_singleton. reflexivity.
Qed.

Lemma capture_output_path_custom (strftime : Z → string) (c : string)
      (s : Sys) :
  plain_name c → c ≠ "" →
  capture_output_path strftime (Some c) s = c +:+ extension (cam s).
Proof.
  intros Hp Hne. unfold capture_output_path, chosen_name.
  apply String.eqb_neq in Hne. rewrite Hne.
  assert (Hext : plain_name (extension (cam s))
                 ∧ ∃ e, extension (cam s) = String PurePath.dot e ∧ e ≠ "").
  { destruct (extension_cases (cam s)) as [-> | ->];
      (split; [reflexivity|]); eexists; (split; [reflexivity|]);
      discriminate. }
  destruct Hext as (Hpe & e & He & Hnz).
  apply joinpath_plain.
  - unfold plain_name in *. rewrite contains_app, Hp, Hpe. reflexivity.
  - destruct c; [|discriminate]. by apply String.eqb_neq in Hne.
  - rewrite He. destruct c as [|a [|b c]]; rewrite ?append_cons, ?append_nil_l.
    + by apply String.eqb_neq in Hne.
    + destruct e; [contradiction|discriminate].
    + discriminate.
Qed.

Lemma video_name_plain (c : string) :
  plain_name c → c ≠ "" →
  plain_name (c +:+ ".mp4") ∧ c +:+ ".mp4" ≠ "" ∧ c +:+ ".mp4" ≠ ".".
Proof.
  intros Hp Hne. unfold plain_name in *.
  rewrite contains_app, Hp. split; [reflexivity|].
  destruct c as [|a [|b c]]; [contradiction|..];
    rewrite ?append_cons, ?append_nil_l; split; discriminate.
Qed.

(** ** get_recordings and delete_all_recordings *)

Lemma glob_swing_entries_spec (d : Disk) (f : string) :
  f ∈ glob_swing_entries d →
  f ∈ files d ∧ PurePath.is_entry f = true ∧ PurePath.glob_swing f = true.
Proof.
  unfold glob_swing_entries.
  rewrite list_elem_of_filter, elem_of_elements.
  intros [H Hin]. apply andb_true_iff in H. tauto.
Qed.

Lemma get_recordings_loop_names (todo : list string) :
  ∀ (acc names : list string) (s s' : Sys),
    get_recordings_loop todo acc s = (Val names, s') →
    ∀ n, n ∈ names →
      n ∈ acc ∨ ∃ f, f ∈ todo ∧ n = PurePath.name f ∧ is_video f = true.
Proof.
  induction todo as [|f rest IH]; intros acc names s s' Hrun n Hn.
  - simpl in Hrun. injection Hrun as <- _. by left.
  - simpl in Hrun. destruct (is_video f) eqn:Hvid; simpl in Hrun.
    + destruct (PurePath.with_suffix f ".json") as [m|]; [|discriminate].
      unfold bind, path_exists, gets, when, json_load, os_path_getsize, ret
        in Hrun.
      assert (Hstep : get_recordings_loop rest (acc ++ [PurePath.name f]) s
                      = (Val names, s')).
      { repeat case_bool_decide; try discriminate; exact Hrun. }
      destruct (IH _ _ _ _ Hstep n Hn) as [Hacc | (g & Hg & -> & Hv)].
      * apply elem_of_app in Hacc as [Hacc | Hlast]; [by left|].
        apply list_elem_of_singleton in Hlast as ->.
        right. exists f. split; [left|done].
      * right. exists g. split; [by right|done].
    + destruct (IH _ _ _ _ Hrun n Hn) as [Hacc | (g & Hg & -> & Hv)];
        [by left|].
      right. exists g. split; [by right|done].
Qed.

(** [get_recordings] lists only entries of the output directory that
    match [swing_*.*] and have a video suffix. *)
Lemma get_recordings_only_swing_videos (s s' : Sys) (names : list string) :
  get_recordings s = (Val names, s') →
  ∀ n, n ∈ names →
    n ∈ files (disk s) ∧ PurePath.is_entry n = true
    ∧ PurePath.glob_swing n = true ∧ is_video n = true.
Proof.
  unfold get_recordings. unfold bind at 1. unfold gets. intros Hrun n Hn.
  destruct (get_recordings_loop_names _ _ _ _ _ Hrun n Hn)
    as [Hnil | (f & Hf & -> & Hv)]; [by apply elem_of_nil in Hnil|].
  rewrite merge_sort_Permutation in Hf.
  apply glob_swing_entries_spec in Hf as (Hin & He & Hg).
  rewrite name_plain by (by apply is_entry_plain). done.
Qed.

Lemma delete_recording_keeps (filename q : string) (s : Sys) :
  q ∈ files (disk s) →
  q ≠ PurePath.joinpath filename →
  (∀ m, PurePath.with_suffix (PurePath.joinpath filename) ".json" = Some m →
        q ≠ m) →
  q ∈ files (disk (delete_recording filename s).2).
Proof.
  intros Hq Hne Hm. unfold delete_recording.
  destruct (PurePath.with_suffix (PurePath.joinpath filename) ".json")
    as [m|]; [|exact Hq].
  specialize (Hm m eq_refl).
  open_sys s. simpl in Hq. py_run; try exact Hq;
    rewrite ?elem_of_difference, ?elem_of_singleton; tauto.
Qed.

Lemma delete_all_loop_cons (file : string) (rest : list string)
      (count : nat) (s : Sys) :
  delete_all_loop (file :: rest) count s
  = if negb (is_listed_suffix file) then delete_all_loop rest count s
    else if String.eqb (PurePath.suffix file) ".json"
    then delete_all_loop rest count s
    else match delete_recording (PurePath.name file) s with
         | (Val _, s1) => delete_all_loop rest (S count) s1
         | (Exn _, s1) =>
             delete_all_loop rest count (logged ERROR "Failed to delete" s1)
         end.
Proof.
  simpl. destruct (negb (is_listed_suffix file)); [reflexivity|].
  destruct (String.eqb (PurePath.suffix file) ".json"); [reflexivity|].
  unfold bind, try_except, ret, logger, modify.
  destruct (delete_recording (PurePath.name file) s) as [[[]|e] s1];
    reflexivity.
Qed.

(** [delete_all_recordings] removes nothing whose name does not begin
    with [swing_]. *)
Lemma delete_all_loop_keeps (todo : list string) :
  ∀ (count : nat) (s : Sys) (q : string),
    Forall (λ f, PurePath.is_entry f = true ∧ PurePath.glob_swing f = true)
           todo →
    Str.startswith q "swing_" = false →
    q ∈ files (disk s) →
    q ∈ files (disk (delete_all_loop todo count s).2).
Proof.
  induction todo as [|f rest IH]; intros count s q Hall Hq Hin;
    [exact Hin|].
  apply Forall_cons in Hall as [[He Hg] Hall].
  rewrite delete_all_loop_cons.
  destruct (negb (is_listed_suffix f)); [by apply IH|].
  destruct (String.eqb (PurePath.suffix f) ".json"); [by apply IH|].
  destruct (is_entry_plain f He) as (Hp & Hne & Hnd).
  apply glob_swing_startswith in Hg.
  assert (Hkeep : q ∈ files (disk (delete_recording (PurePath.name f) s).2)).
  { apply delete_recording_keeps; [exact Hin|..];
      rewrite name_plain, joinpath_plain by assumption.
    - intros ->. congruence.
    - intros m. rewrite with_suffix_plain by assumption.
      intros [= <-] ->. rewrite name_stem_swing in Hq by exact Hg.
      discriminate. }
  destruct (delete_recording (PurePath.name f) s) as [[[]|e] s1];
    apply IH; assumption.
Qed.

Lemma delete_all_recordings_keeps (s : Sys) (q : string) :
  Str.startswith q "swing_" = false →
  q ∈ files (disk s) →
  q ∈ files (disk (delete_all_recordings s).2).
Proof.
  intros Hq Hin. unfold delete_all_recordings. unfold bind at 1.
  unfold gets. apply delete_all_loop_keeps; [|exact Hq|exact Hin].
  apply Forall_forall. intros f Hf.
  by apply glob_swing_entries_spec in Hf as (_ & ? & ?).
Qed.

(** C10, as the specification states it, fails for two kinds of custom
    name that do not begin with [swing_]: pathlib drops a leading [./],
    so the capture named [./swing_a] is the file [swing_a.mp4], which is
    listed and is removed with its sidecar; and an empty custom name is
    falsy, so that capture gets the default [swing_<timestamp>] name. *)
Lemma custom_names_that_are_listed :
  let s := Sample.fresh DemoBackend "mp4" in
  let r := capture_swing Sample.stamp Sample.bare (Some "./swing_a") s in
  let r0 := capture_swing Sample.stamp Sample.bare (Some "") s in
  Str.startswith "./swing_a" "swing_" = false
  ∧ r.1 = Val (Some "swing_a.mp4")
  ∧ files (disk r.2) = {["swing_a.mp4"; "swing_a.json"]}
  ∧ (get_recordings r.2).1 = Val ["swing_a.mp4"]
  ∧ (delete_all_recordings r.2).1 = Val 1%nat
  ∧ files (disk (delete_all_recordings r.2).2) = ∅
  ∧ Str.startswith "" "swing_" = false
  ∧ r0.1 = Val (Some "swing_20250101_120000.mp4")
  ∧ (get_recordings r0.2).1 = Val ["swing_20250101_120000.mp4"].
Proof.
  cbv zeta. repeat split; vm_compute; reflexivity.
Qed.

(** C10 (amended). [get_recordings] lists, and [delete_all_recordings]
    removes, only entries of the output directory whose names match
    [swing_*.*] (with a video suffix, and the sidecars of those removed).
    A capture made with a custom name that is not empty, has no path
    separator in it and does not begin with [swing_] produces the file
    [<name>.mp4] and the sidecar [<name>.json]; neither is ever listed by
    [get_recordings], and neither is ever removed by
    [delete_all_recordings]. *)
Theorem custom_named_capture_is_never_listed (strftime : Z → string)
        (hw : Hardware) (c p : string) (s s1 : Sys) :
  plain_name c → c ≠ "" → Str.startswith c "swing_" = false →
  capture_swing strftime hw (Some c) s = (Val (Some p), s1) →
  p = c +:+ ".mp4"
  ∧ p ∈ files (disk s1)
  ∧ PurePath.with_suffix p ".json" = Some (c +:+ ".json")
  ∧ c +:+ ".json" ∈ files (disk s1)
  ∧ (∀ st names st', get_recordings st = (Val names, st') →
       (p ∉ names) ∧ (c +:+ ".json" ∉ names)
       ∧ (∀ n, n ∈ names →
            PurePath.is_entry n = true ∧ PurePath.glob_swing n = true
            ∧ is_video n = true))
  ∧ (∀ st q, Str.startswith q "swing_" = false → q ∈ files (disk st) →
       q ∈ files (disk (delete_all_recordings st).2))
  ∧ (∀ st, p ∈ files (disk st) →
       p ∈ files (disk (delete_all_recordings st).2))
  ∧ (∀ st, c +:+ ".json" ∈ files (disk st) →
       c +:+ ".json" ∈ files (disk (delete_all_recordings st).2)).
Proof.
  intros Hp Hne Hsw Hrun.
  assert (Hvid : Str.startswith (c +:+ ".mp4") "swing_" = false)
    by exact (startswith_swing_app_dot c "mp4" Hsw).
  assert (Hside : Str.startswith (c +:+ ".json") "swing_" = false)
    by exact (startswith_swing_app_dot c "json" Hsw).
  destruct (video_name_plain c Hp Hne) as (Hpv & Hnev & Hndv).
  destruct (recording (cam s)) eqn:Hrec.
  { rewrite capture_swing_busy in Hrun by exact Hrec. discriminate. }
  rewrite capture_swing_cases in Hrun by exact Hrec.
  destruct (backend_record hw _ _ _ _) as [[actual|e] s2] eqn:Hback;
    [|discriminate].
  apply backend_record_value in Hback. simpl py_str in Hback.
  rewrite capture_output_path_custom, mp4_name_extension in Hback
    by assumption.
  subst actual. rewrite joinpath_plain in Hrun by assumption.
  destruct (_save_metadata _ _ _) as [[u|e] s3] eqn:Hmeta; [|discriminate].
  apply save_metadata_ok in Hmeta as (Hfile & m & Hm & Hmfile).
  rewrite with_suffix_plain, name_stem_video in Hm by assumption.
  injection Hm as <-.
  assert (Hdisk : disk s1 = disk s3).
  { injection Hrun as _ <-. by destruct (upload_enabled _). }
  injection Hrun as <- _. rewrite Hdisk.
  split; [reflexivity|]. split; [exact Hfile|].
  split; [by rewrite with_suffix_plain, name_stem_video|].
  split; [exact Hmfile|].
  split.
  { intros st names st' Hlist.
    pose proof (get_recordings_only_swing_videos _ _ _ Hlist) as Hall.
    split; [|split].
    - intros Hin. destruct (Hall _ Hin) as (_ & _ & Hg & _).
      apply glob_swing_startswith in Hg. congruence.
    - intros Hin. destruct (Hall _ Hin) as (_ & _ & Hg & _).
      apply glob_swing_startswith in Hg. congruence.
    - intros n Hn. destruct (Hall _ Hn) as (_ & ? & ? & ?). done. }
  split; [intros st q; apply delete_all_recordings_keeps|].
  split; intros st; by apply delete_all_recordings_keeps.
Qed.

Lemma custom_named_capture_is_never_listed_witness :
  let s := Sample.fresh DemoBackend "h264" in
  let r := capture_swing Sample.stamp Sample.bare (Some "shot") s in
  plain_name "shot" ∧ "shot" ≠ ""
  ∧ Str.startswith "shot" "swing_" = false
  ∧ r = (Val (Some "shot.mp4"), r.2)
  ∧ "shot.mp4" ∈ files (disk r.2)
  ∧ "shot.json" ∈ files (disk r.2)
  ∧ ("shot.mp4" ∈ files (disk (delete_all_recordings r.2).2)).
Proof.
  cbv zeta.
  set (r := capture_swing Sample.stamp Sample.bare (Some "shot")
              (Sample.fresh DemoBackend "h264")).
  assert (Hp : plain_name "shot") by reflexivity.
  assert (Hne : "shot" ≠ "") by discriminate.
  assert (Hsw : Str.startswith "shot" "swing_" = false) by reflexivity.
  assert (Hrun : r = (Val (Some "shot.mp4"), r.2))
    by (vm_compute; reflexivity).
  destruct (custom_named_capture_is_never_listed Sample.stamp Sample.bare
              "shot" "shot.mp4" (Sample.fresh DemoBackend "h264") r.2
              Hp Hne Hsw Hrun)
    as (_ & Hfile & _ & Hside & _ & _ & Hkeep & _).
  split; [exact Hp|]. split; [exact Hne|]. split; [exact Hsw|].
  split; [exact Hrun|]. split; [exact Hfile|]. split; [exact Hside|].
  exact (Hkeep r.2 Hfile).
Defined.

(** * Further properties of the code *)

(** ** arm_launch_monitor *)

Lemma arm_not_idle (strftime : Z → string) (s : Sys) :
  lm_state (cam s) ≠ IDLE →
  arm_launch_monitor strftime s
  = (Val (LMError ("Already " +:+ LMState_value (lm_state (cam s)))),
     logged WARNING "Cannot arm: already in state" s).
Proof.
  intros Hn. unfold arm_launch_monitor. unfold bind at 1. unfold self, gets.
  rewrite bool_decide_eq_false_2 by exact Hn. reflexivity.
Qed.

Lemma arm_busy (strftime : Z → string) (s : Sys) :
  lm_state (cam s) = IDLE → recording (cam s) = true →
  arm_launch_monitor strftime s
  = (Val (LMError "Camera busy with regular recording"),
     logged WARNING "Cannot arm: regular recording in progress" s).
Proof.
  intros Hi Hr. unfold arm_launch_monitor. unfold bind at 1.
  unfold self, gets.
  rewrite bool_decide_eq_true_2 by exact Hi. cbn [negb]. rewrite Hr.
  reflexivity.
Qed.

(** [arm_launch_monitor] refuses, and changes nothing but the log, unless
    the state is [IDLE] and no recording is in progress. *)
Theorem arm_rejected_unless_idle_and_free (strftime : Z → string) (s : Sys) :
  lm_state (cam s) ≠ IDLE ∨ recording (cam s) = true →
  let r := arm_launch_monitor strftime s in
  (∃ msg, r.1 = Val (LMError msg))
  ∧ cam r.2 = cam s ∧ disk r.2 = disk s ∧ now r.2 = now s
  ∧ uploads r.2 = uploads s
  ∧ (lm_state (cam s) ≠ IDLE →
       r.1 = Val (LMError ("Already " +:+ LMState_value (lm_state (cam s)))))
  ∧ (lm_state (cam s) = IDLE →
       r.1 = Val (LMError "Camera busy with regular recording")).
Proof.
  intros H r. subst r.
  destruct (decide (lm_state (cam s) = IDLE)) as [Hi|Hn].
  - destruct H as [H|Hr]; [contradiction|].
    rewrite arm_busy by assumption.
    split; [eexists; reflexivity|].
    repeat split; intros; try reflexivity; contradiction.
  - rewrite arm_not_idle by assumption.
    split; [eexists; reflexivity|].
    repeat split; intros; try reflexivity; contradiction.
Qed.

Lemma arm_rejected_unless_idle_and_free_witness :
  let s := Sample.armed_sys "temp_lm_x.mp4" (Sample.disk_of ∅) in
  (lm_state (cam s) ≠ IDLE ∨ recording (cam s) = true)
  ∧ (arm_launch_monitor Sample.stamp s).1 = Val (LMError "Already armed")
  ∧ cam (arm_launch_monitor Sample.stamp s).2 = cam s.
Proof.
  cbv zeta.
  assert (H : lm_state (cam (Sample.armed_sys "temp_lm_x.mp4"
                               (Sample.disk_of ∅))) ≠ IDLE
              ∨ recording (cam (Sample.armed_sys "temp_lm_x.mp4"
                                  (Sample.disk_of ∅))) = true)
    by (right; reflexivity).
  destruct (arm_rejected_unless_idle_and_free Sample.stamp _ H)
    as (_ & Hcam & _ & _ & _ & Hmsg & _).
  split; [exact H|]. split; [|exact Hcam].
  apply Hmsg. discriminate.
Defined.

Lemma arm_idle (strftime : Z → string) (s : Sys) :
  lm_state (cam s) = IDLE → recording (cam s) = false →
  arm_launch_monitor strftime s
  = (Val (LMArmed (lm_max_recording_duration (config (cam s)))),
     with_cam (set_lm_recording_thread (Some WorkerThread))
       (with_cam (set_lm_cancel_event false)
          (with_cam (set_lm_recording_start_time (Some (now s)))
             (with_cam (set_lm_state ARMED)
                (with_cam
                   (set_lm_temp_file
                      (Some (PurePath.joinpath
                               ("temp_lm_" +:+ strftime (now s)
                                +:+ extension (cam s)))))
                   s))))).
Proof.
  intros Hi Hr. unfold arm_launch_monitor. open_sys s.
  simpl in Hi, Hr. subst. py_run; simpl in *; try discriminate;
    try congruence; reflexivity.
Qed.

(** From [IDLE], with no recording in progress, [arm_launch_monitor]
    answers with the configured maximum duration, sets the state to
    [ARMED], stores a temp path named after the clock and the arm time,
    clears the cancellation event, and touches neither disk nor clock. *)
Theorem arm_arms (strftime : Z → string) (s : Sys) :
  lm_state (cam s) = IDLE → recording (cam s) = false →
  let r := arm_launch_monitor strftime s in
  r.1 = Val (LMArmed (lm_max_recording_duration (config (cam s))))
  ∧ lm_state (cam r.2) = ARMED
  ∧ lm_temp_file (cam r.2)
    = Some (PurePath.joinpath
              ("temp_lm_" +:+ strftime (now s) +:+ extension (cam s)))
  ∧ lm_recording_start_time (cam r.2) = Some (now s)
  ∧ lm_cancel_event (cam r.2) = false
  ∧ lm_recording_thread (cam r.2) = Some WorkerThread
  ∧ disk r.2 = disk s ∧ now r.2 = now s ∧ log r.2 = log s.
Proof.
  intros Hi Hr r. subst r. rewrite arm_idle by assumption.
  repeat split; reflexivity.
Qed.

Lemma arm_arms_witness :
  let s := Sample.fresh PiCamera2Backend "mp4" in
  lm_state (cam s) = IDLE ∧ recording (cam s) = false
  ∧ (arm_launch_monitor Sample.stamp s).1 = Val (LMArmed 10)
  ∧ lm_temp_file (cam (arm_launch_monitor Sample.stamp s).2)
    = Some "temp_lm_20250101_120000.mp4".
Proof.
  cbv zeta.
  destruct (arm_arms Sample.stamp (Sample.fresh PiCamera2Backend "mp4")
              eq_refl eq_refl) as (H1 & _ & H3 & _).
  split; [reflexivity|]. split; [reflexivity|]. split; [exact H1|exact H3].
Defined.

(** ** shot_detected *)

Lemma shot_detected_not_armed (strftime : Z → string) (proc : ProcOutcome)
      (s : Sys) :
  lm_state (cam s) ≠ ARMED →
  shot_detected strftime proc s
  = (Val (LMError ("Not armed (state: "
                   +:+ LMState_value (lm_state (cam s)) +:+ ")")),
     logged WARNING "Cannot detect shot: not armed" s).
Proof.
  intros Hn. unfold shot_detected. unfold bind at 1. unfold self, gets.
  rewrite bool_decide_eq_false_2 by exact Hn. reflexivity.
Qed.

Lemma shot_detected_cases (strftime : Z → string) (proc : ProcOutcome)
      (s : Sys) :
  lm_state (cam s) = ARMED →
  shot_detected strftime proc s
  = match _extract_clip (lm_temp_file (cam s)) (shot_output_path strftime s)
            (duration (config (cam s))) proc (shot_started s) with
    | (Val true, s1) =>
        match _save_metadata (shot_output_path strftime s)
                (strftime (now s)) s1 with
        | (Val _, s2) =>
            (Val (LMSuccess (PurePath.name (shot_output_path strftime s))
                            (shot_output_path strftime s)),
             lm_cleared (if upload_enabled (config (cam s))
                         then upload_started (shot_output_path strftime s) s2
                         else s2))
        | (Exn e, s2) =>
            (Val (LMError (py_exc_str e)),
             lm_cleared (logged ERROR "Shot detection failed" s2))
        end
    | (Val false, s1) => (Val (LMError "Failed to extract clip"), lm_cleared s1)
    | (Exn e, s1) =>
        (Val (LMError (py_exc_str e)),
         lm_cleared (logged ERROR "Shot detection failed" s1))
    end.
Proof.
  intros Ha. unfold shot_detected, shot_output_path, shot_started.
  unfold bind at 1. unfold self, gets.
  rewrite bool_decide_eq_true_2 by exact Ha. cbn [negb].
  repeat progress unfold try_except, bind, event_set, thread_join, reset_lm,
    when, ret, logger, _upload_file, self, time_time, assign, modify, gets.
  cbv beta iota.
  match goal with |- context [lm_recording_thread ?c] =>
    destruct (lm_recording_thread c) end; cbv beta iota;
  (destruct (_extract_clip _ _ _ _ _) as [[[]|e] s1]; [|reflexivity..];
   destruct (_save_metadata _ _ _) as [[[]|e] s2]; [|reflexivity];
   destruct (upload_enabled (config (cam s))); reflexivity).
Qed.

Lemma extract_clip_cam (s : Sys) (input : option string) (out : string)
      (d : Z) (proc : ProcOutcome) :
  cam (_extract_clip input out d proc s).2 = cam s
  ∧ uploads (_extract_clip input out d proc s).2 = uploads s.
Proof.
  unfold _extract_clip. open_sys s.
  destruct proc as [code wrote| | |]; [destruct wrote|..]; py_run;
    split; reflexivity.
Qed.

Lemma save_metadata_cam (video ts : string) (s : Sys) :
  cam (_save_metadata video ts s).2 = cam s
  ∧ uploads (_save_metadata video ts s).2 = uploads s
  ∧ log (_save_metadata video ts s).2 = log s.
Proof.
  unfold _save_metadata, bind, os_path_getsize, raise, open_write.
  case_bool_decide; [|done].
  destruct (PurePath.with_suffix video ".json"); [|done].
  case_bool_decide; done.
Qed.

Lemma lm_cleared_spec (s : Sys) :
  lm_state (cam (lm_cleared s)) = IDLE
  ∧ lm_temp_file (cam (lm_cleared s)) = None
  ∧ lm_recording_start_time (cam (lm_cleared s)) = None
  ∧ lm_cancel_event (cam (lm_cleared s)) = lm_cancel_event (cam s)
  ∧ recording (cam (lm_cleared s)) = recording (cam s)
  ∧ disk (lm_cleared s) = disk s
  ∧ uploads (lm_cleared s) = uploads s.
Proof. repeat split; reflexivity. Qed.

(** [shot_detected] in any state but [ARMED] answers with an error and
    has no side effect but a logged warning. *)
Theorem shot_detected_rejected_unless_armed (strftime : Z → string)
        (proc : ProcOutcome) (s : Sys) :
  lm_state (cam s) ≠ ARMED →
  let r := shot_detected strftime proc s in
  r.1 = Val (LMError ("Not armed (state: "
                      +:+ LMState_value (lm_state (cam s)) +:+ ")"))
  ∧ cam r.2 = cam s ∧ disk r.2 = disk s ∧ uploads r.2 = uploads s
  ∧ now r.2 = now s.
Proof.
  intros Hn r. subst r. rewrite shot_detected_not_armed by exact Hn.
  repeat split; reflexivity.
Qed.

Lemma shot_detected_rejected_unless_armed_witness :
  let s := Sample.fresh PiCamera2Backend "mp4" in
  lm_state (cam s) ≠ ARMED
  ∧ (shot_detected Sample.stamp (Exited 0 true) s).1
    = Val (LMError "Not armed (state: idle)")
  ∧ disk (shot_detected Sample.stamp (Exited 0 true) s).2 = disk s.
Proof.
  cbv zeta.
  assert (Hn : lm_state (cam (Sample.fresh PiCamera2Backend "mp4")) ≠ ARMED)
    by discriminate.
  destruct (shot_detected_rejected_unless_armed Sample.stamp (Exited 0 true)
              _ Hn) as (Hres & _ & Hdisk & _).
  split; [exact Hn|]. split; [exact Hres | exact Hdisk].
Defined.

Lemma shot_detected_armed (strftime : Z → string)
      (proc : ProcOutcome) (s : Sys) :
  lm_state (cam s) = ARMED →
  (∃ v, (shot_detected strftime proc s).1 = Val v)
  ∧ lm_state (cam (shot_detected strftime proc s).2) = IDLE
  ∧ lm_temp_file (cam (shot_detected strftime proc s).2) = None
  ∧ lm_recording_start_time (cam (shot_detected strftime proc s).2) = None
  ∧ lm_cancel_event (cam (shot_detected strftime proc s).2) = true.
Proof.
  intros Ha. rewrite shot_detected_cases by exact Ha.
  pose proof (extract_clip_cam (shot_started s) (lm_temp_file (cam s))
                (shot_output_path strftime s) (duration (config (cam s)))
                proc) as [Hc1 _].
  destruct (_extract_clip _ _ _ _ _) as [[[]|e] s1]; cbn [snd] in Hc1.
  - pose proof (save_metadata_cam (shot_output_path strftime s)
                  (strftime (now s)) s1) as [Hc2 _].
    destruct (_save_metadata _ _ _) as [[u|e] s2]; cbn [snd] in Hc2.
    + split; [eauto|]. cbn [snd].
      destruct (upload_enabled (config (cam s)));
        repeat split; try reflexivity; simpl; rewrite Hc2, Hc1; reflexivity.
    + split; [eauto|]. cbn [snd].
      repeat split; try reflexivity; simpl; rewrite Hc2, Hc1; reflexivity.
  - split; [eauto|]. cbn [snd].
    repeat split; try reflexivity; simpl; rewrite Hc1; reflexivity.
  - split; [eauto|]. cbn [snd].
    repeat split; try reflexivity; simpl; rewrite Hc1; reflexivity.
Qed.

(** From [ARMED], [shot_detected] never raises and never leaves the
    state at [PROCESSING]: however the extraction and the metadata write
    end, the call returns with the state [IDLE], the temp path and the
    arm timestamp cleared and the cancellation event set. *)
Theorem shot_detected_always_returns_to_idle (strftime : Z → string)
        (proc : ProcOutcome) (s : Sys) :
  lm_state (cam s) = ARMED →
  let r := shot_detected strftime proc s in
  (∃ v, r.1 = Val v)
  ∧ lm_state (cam r.2) = IDLE
  ∧ lm_temp_file (cam r.2) = None
  ∧ lm_recording_start_time (cam r.2) = None
  ∧ lm_cancel_event (cam r.2) = true.
Proof.
  intros Ha r. subst r. exact (shot_detected_armed strftime proc s Ha).
Qed.

Lemma shot_detected_always_returns_to_idle_witness :
  let s := Sample.armed_sys "temp_lm_x.mp4" (Sample.disk_of ∅) in
  lm_state (cam s) = ARMED
  ∧ lm_state (cam (shot_detected Sample.stamp TimedOut s).2) = IDLE
  ∧ lm_temp_file (cam (shot_detected Sample.stamp TimedOut s).2) = None.
Proof.
  cbv zeta.
  destruct (shot_detected_always_returns_to_idle Sample.stamp TimedOut
              (Sample.armed_sys "temp_lm_x.mp4" (Sample.disk_of ∅)) eq_refl)
    as (_ & Hi & Ht & _).
  split; [reflexivity|]. split; [exact Hi | exact Ht].
Defined.

(** When the trimming process does not exit with status zero,
    [shot_detected] answers "Failed to extract clip" and forgets the temp
    path, but the temp file itself is left on the disk. *)
Theorem shot_detected_failed_extraction_orphans_temp
        (strftime : Z → string) (proc : ProcOutcome) (s : Sys) (p : string) :
  lm_state (cam s) = ARMED →
  lm_temp_file (cam s) = Some p →
  p ∈ files (disk s) →
  (∀ wrote, proc ≠ Exited 0 wrote) →
  let r := shot_detected strftime proc s in
  r.1 = Val (LMError "Failed to extract clip")
  ∧ lm_state (cam r.2) = IDLE
  ∧ lm_temp_file (cam r.2) = None
  ∧ p ∈ files (disk r.2).
Proof.
  intros Ha Htmp Hp Hproc r. subst r.
  rewrite shot_detected_cases by exact Ha.
  destruct (extract_clip_failure_keeps_input (shot_started s)
              (lm_temp_file (cam s)) (shot_output_path strftime s)
              (duration (config (cam s))) proc Hproc) as [Hres Hkeep].
  specialize (Hkeep p Hp).
  destruct (_extract_clip _ _ _ _ _) as [[[]|e] s1];
    cbn [fst snd] in Hres, Hkeep; try discriminate.
  repeat split; try reflexivity. exact Hkeep.
Qed.

Lemma shot_detected_failed_extraction_orphans_temp_witness :
  let s := Sample.armed_sys "temp_lm_x.mp4"
             (Sample.disk_of {["temp_lm_x.mp4"]}) in
  lm_state (cam s) = ARMED
  ∧ lm_temp_file (cam s) = Some "temp_lm_x.mp4"
  ∧ "temp_lm_x.mp4" ∈ files (disk s)
  ∧ (∀ wrote, Exited 1 false ≠ Exited 0 wrote)
  ∧ lm_temp_file (cam (shot_detected Sample.stamp (Exited 1 false) s).2)
    = None
  ∧ "temp_lm_x.mp4"
    ∈ files (disk (shot_detected Sample.stamp (Exited 1 false) s).2).
Proof.
  cbv zeta.
  assert (Hp : "temp_lm_x.mp4"
               ∈ files (disk (Sample.armed_sys "temp_lm_x.mp4"
                                (Sample.disk_of {["temp_lm_x.mp4"]}))))
    by (simpl; apply elem_of_singleton; reflexivity).
  assert (Hproc : ∀ wrote, Exited 1 false ≠ Exited 0 wrote)
    by (intros w; discriminate).
  destruct (shot_detected_failed_extraction_orphans_temp Sample.stamp
              (Exited 1 false)
              (Sample.armed_sys "temp_lm_x.mp4"
                 (Sample.disk_of {["temp_lm_x.mp4"]}))
              "temp_lm_x.mp4" eq_refl eq_refl Hp Hproc)
    as (_ & _ & Ht & Hkeep).
  split; [reflexivity|]. split; [reflexivity|]. split; [exact Hp|].
  split; [exact Hproc|]. split; [exact Ht | exact Hkeep].
Defined.

Lemma extract_clip_exit_zero_wrote (s : Sys) (p out : string) (d : Z) :
  p ≠ out →
  ¬ (p ∈ files (disk s) ∧ p ∈ stuck (disk s)) →
  ∃ s1, _extract_clip (Some p) out d (Exited 0 true) s = (Val true, s1)
        ∧ cam s1 = cam s ∧ uploads s1 = uploads s ∧ log s1 = log s
        ∧ readonly (disk s1) = readonly (disk s)
        ∧ out ∈ files (disk s1) ∧ (p ∉ files (disk s1))
        ∧ (∀ q, q ∈ files (disk s) → q ≠ p → q ∈ files (disk s1)).
Proof.
  intros Hne Hst. unfold _extract_clip. open_sys s. simpl in Hst.
  py_run;
    try match goal with H : (0 =? 0) = false |- _ => discriminate H end;
    first [ exfalso; apply Hst; set_solver
          | eexists; (split; [reflexivity|]); simpl;
            repeat split; try reflexivity; set_solver ].
Qed.

Lemma save_metadata_writes (video ts m : string) (s : Sys) :
  video ∈ files (disk s) →
  PurePath.with_suffix video ".json" = Some m →
  m ∉ readonly (disk s) →
  _save_metadata video ts s
  = (Val tt, with_files (λ fs, fs ∪ {[m]}) s).
Proof.
  intros Hv Hm Hr. unfold _save_metadata, bind, os_path_getsize, open_write.
  rewrite bool_decide_eq_true_2 by exact Hv. rewrite Hm.
  rewrite bool_decide_eq_false_2 by exact Hr. reflexivity.
Qed.

(** When the trimming process exits with status zero and has written its
    output, the temp file can be removed and the sidecar can be written,
    [shot_detected] answers with the name and path of the clip; the clip
    and its sidecar are then on the disk, the temp file is gone, the state
    is [IDLE], and an upload of the clip has been started exactly when
    uploads are enabled. *)
Theorem shot_detected_extracts_clip (strftime : Z → string) (s : Sys)
        (p m : string) :
  lm_state (cam s) = ARMED →
  lm_temp_file (cam s) = Some p →
  p ≠ shot_output_path strftime s →
  ¬ (p ∈ files (disk s) ∧ p ∈ stuck (disk s)) →
  PurePath.with_suffix (shot_output_path strftime s) ".json" = Some m →
  m ∉ readonly (disk s) →
  let out := shot_output_path strftime s in
  let r := shot_detected strftime (Exited 0 true) s in
  r.1 = Val (LMSuccess (PurePath.name out) out)
  ∧ out ∈ files (disk r.2)
  ∧ m ∈ files (disk r.2)
  ∧ (m ≠ p → p ∉ files (disk r.2))
  ∧ lm_state (cam r.2) = IDLE
  ∧ lm_temp_file (cam r.2) = None
  ∧ uploads r.2
    = (if upload_enabled (config (cam s)) then uploads s ++ [out]
       else uploads s).
Proof.
  intros Ha Htmp Hne Hst Hm Hro out r. subst out r.
  rewrite shot_detected_cases by exact Ha. rewrite Htmp.
  destruct (extract_clip_exit_zero_wrote (shot_started s) p
              (shot_output_path strftime s) (duration (config (cam s)))
              Hne Hst)
    as (s1 & Heq & Hcam & Hup & Hlog & Hro1 & Hout & Hp & Hkeep).
  rewrite Heq.
  rewrite (save_metadata_writes _ _ m s1 Hout Hm)
    by (rewrite Hro1; exact Hro).
  destruct (upload_enabled (config (cam s))); cbn [fst snd];
    (split; [reflexivity|]);
    (split; [simpl; apply elem_of_union_l; exact Hout|]);
    (split; [simpl; apply elem_of_union_r, elem_of_singleton; reflexivity|]);
    (split; [intros Hmp; simpl; intros [H|H]%elem_of_union;
             [exact (Hp H) | apply elem_of_singleton in H; congruence]|]);
    (split; [reflexivity|]); (split; [reflexivity|]);
    simpl; rewrite Hup; reflexivity.
Qed.

Lemma shot_detected_extracts_clip_witness :
  let s := Sample.armed_sys "temp_lm_x.mp4"
             (Sample.disk_of {["temp_lm_x.mp4"]}) in
  let r := shot_detected Sample.stamp (Exited 0 true) s in
  lm_state (cam s) = ARMED
  ∧ lm_temp_file (cam s) = Some "temp_lm_x.mp4"
  ∧ "temp_lm_x.mp4" ≠ shot_output_path Sample.stamp s
  ∧ ¬ ("temp_lm_x.mp4" ∈ files (disk s) ∧ "temp_lm_x.mp4" ∈ stuck (disk s))
  ∧ PurePath.with_suffix (shot_output_path Sample.stamp s) ".json"
    = Some "swing_20250101_120000.json"
  ∧ ("swing_20250101_120000.json" ∉ readonly (disk s))
  ∧ r.1 = Val (LMSuccess "swing_20250101_120000.mp4"
                         "swing_20250101_120000.mp4")
  ∧ "swing_20250101_120000.mp4" ∈ files (disk r.2)
  ∧ "swing_20250101_120000.json" ∈ files (disk r.2).
Proof.
  cbv zeta.
  assert (Hne : "temp_lm_x.mp4"
                ≠ shot_output_path Sample.stamp
                    (Sample.armed_sys "temp_lm_x.mp4"
                       (Sample.disk_of {["temp_lm_x.mp4"]})))
    by (vm_compute; discriminate).
  assert (Hst : ¬ ("temp_lm_x.mp4"
                   ∈ files (disk (Sample.armed_sys "temp_lm_x.mp4"
                                    (Sample.disk_of {["temp_lm_x.mp4"]})))
                   ∧ "temp_lm_x.mp4"
                     ∈ stuck (disk (Sample.armed_sys "temp_lm_x.mp4"
                                      (Sample.disk_of {["temp_lm_x.mp4"]})))))
    by (simpl; set_solver).
  assert (Hro : "swing_20250101_120000.json"
                ∉ readonly (disk (Sample.armed_sys "temp_lm_x.mp4"
                                    (Sample.disk_of {["temp_lm_x.mp4"]}))))
    by (simpl; set_solver).
  destruct (shot_detected_extracts_clip Sample.stamp
              (Sample.armed_sys "temp_lm_x.mp4"
                 (Sample.disk_of {["temp_lm_x.mp4"]}))
              "temp_lm_x.mp4" "swing_20250101_120000.json"
              eq_refl eq_refl Hne Hst eq_refl Hro)
    as (Hres & Hout & Hm & _).
  split; [reflexivity|]. split; [reflexivity|]. split; [exact Hne|].
  split; [exact Hst|]. split; [reflexivity|]. split; [exact Hro|].
  split; [exact Hres|]. split; [exact Hout | exact Hm].
Defined.

(** ** The launch-monitor invariant *)

Lemma lm_invariant_cleared (c : SwingCamera) :
  lm_state c = IDLE → lm_temp_file c = None →
  lm_recording_start_time c = None → lm_invariant c.
Proof.
  intros Hi Ht Hs. unfold lm_invariant. rewrite Hi, Ht, Hs.
  split; split; intros H; contradiction.
Qed.

(** The three launch-monitor calls of the controller keep the invariant:
    after each of them the temp path is set exactly when the state is
    not [IDLE], and so is the arm timestamp. The status query changes
    nothing at all. *)
Theorem lm_calls_keep_invariant (strftime : Z → string) (half_up : Z → bool)
        (proc : ProcOutcome) (s : Sys) :
  lm_invariant (cam s) →
  lm_invariant (cam (arm_launch_monitor strftime s).2)
  ∧ lm_invariant (cam (shot_detected strftime proc s).2)
  ∧ lm_invariant (cam (cancel_launch_monitor s).2)
  ∧ (get_lm_status half_up s).2 = s.
Proof.
  intros Hinv. split; [|split; [|split]].
  - destruct (decide (lm_state (cam s) = IDLE)) as [Hi|Hn].
    + destruct (recording (cam s)) eqn:Hr.
      * rewrite arm_busy by assumption. exact Hinv.
      * rewrite arm_idle by assumption. unfold lm_invariant. simpl.
        split; split; intros _; discriminate.
    + rewrite arm_not_idle by assumption. exact Hinv.
  - destruct (decide (lm_state (cam s) = ARMED)) as [Ha|Hn].
    + destruct (shot_detected_armed strftime proc s Ha)
        as (_ & Hi & Ht & Hs & _).
      by apply lm_invariant_cleared.
    + rewrite shot_detected_not_armed by assumption. exact Hinv.
  - destruct (decide (lm_state (cam s) = IDLE)) as [Hi|Hn].
    + rewrite cancel_idle by assumption. exact Hinv.
    + destruct (cancel_clears s Hn) as (_ & Ht & Hs & _).
      pose proof (cancel_ends_idle s) as Hi.
      by apply lm_invariant_cleared.
  - reflexivity.
Qed.

Lemma lm_calls_keep_invariant_witness :
  let s := (arm_launch_monitor Sample.stamp
              (Sample.fresh PiCamera2Backend "mp4")).2 in
  lm_invariant (cam s)
  ∧ lm_state (cam s) = ARMED
  ∧ lm_invariant (cam (shot_detected Sample.stamp TimedOut s).2)
  ∧ lm_invariant (cam (cancel_launch_monitor s).2).
Proof.
  cbv zeta.
  assert (H0 : lm_invariant (cam (Sample.fresh PiCamera2Backend "mp4"))).
  { apply lm_invariant_cleared; reflexivity. }
  destruct (lm_calls_keep_invariant Sample.stamp (λ _, true) TimedOut _ H0)
    as (H & _).
  destruct (lm_calls_keep_invariant Sample.stamp (λ _, true) TimedOut _ H)
    as (_ & Hs & Hc & _).
  split; [exact H|]. split; [reflexivity|]. split; [exact Hs | exact Hc].
Defined.

(** ** The worker thread never raises *)

Lemma worker_leave_returned (actual : string) (s : Sys) :
  (worker_leave (Val actual) s).1 = Val tt
  ∧ recording (cam (worker_leave (Val actual) s).2) = false
  ∧ (lm_cancel_event (cam s) = false →
     lm_state (cam (worker_leave (Val actual) s).2) = IDLE)
  ∧ (lm_cancel_event (cam s) = true →
     lm_state (cam (worker_leave (Val actual) s).2) = lm_state (cam s)).
Proof.
  unfold worker_leave, lm_guarded, lm_handler, lm_after_record.
  open_sys s. py_run; simpl; repeat split; intros; try reflexivity;
    try discriminate; try congruence.
Qed.

(** Whatever the backend's [record] call does, the body of the worker
    thread returns normally and leaves the [recording] flag cleared. *)
Theorem lm_continuous_record_never_raises (hw : Hardware) (s : Sys) :
  (_lm_continuous_record hw s).1 = Val tt
  ∧ recording (cam (_lm_continuous_record hw s).2) = false.
Proof.
  rewrite lm_continuous_record_split.
  destruct (worker_record_call hw (with_cam (set_recording true) s))
    as [[actual|e] s1]; cbn [fst snd].
  - destruct (worker_leave_returned actual s1) as (H1 & H2 & _).
    split; assumption.
  - destruct (worker_leave_raised e s1) as (H1 & _ & H2 & _).
    split; assumption.
Qed.

(** ** capture_swing always returns *)

(** [capture_swing] never raises. Unless it was rejected at the door, it
    ends with the [recording] flag cleared and the recording event set;
    and when it answers with a path, the video and its sidecar are on the
    disk. *)
Theorem capture_swing_never_raises (strftime : Z → string) (hw : Hardware)
        (custom : option string) (s : Sys) :
  let r := capture_swing strftime hw custom s in
  (∃ v, r.1 = Val v)
  ∧ (recording (cam s) = false →
     recording (cam r.2) = false ∧ recording_event (cam r.2) = true)
  ∧ (∀ p, r.1 = Val (Some p) →
       p ∈ files (disk r.2)
       ∧ ∃ m, PurePath.with_suffix p ".json" = Some m ∧ m ∈ files (disk r.2)).
Proof.
  intros r. subst r.
  destruct (recording (cam s)) eqn:Hr.
  - rewrite capture_swing_busy by exact Hr. cbn [fst snd].
    split; [eauto|]. split; [discriminate|]. intros p Hp. discriminate.
  - rewrite capture_swing_cases by exact Hr.
    destruct (backend_record _ _ _ _ _) as [[actual|e] s2].
    + destruct (_save_metadata _ _ _) as [[u|e] s3] eqn:Hmeta.
      * pose proof (save_metadata_cam (PurePath.joinpath actual)
                      (strftime (now s)) (capture_recorded s2)) as (Hc & _).
        rewrite Hmeta in Hc. cbn [snd] in Hc.
        destruct (save_metadata_ok _ _ _ _ _ Hmeta) as (Hv & m & Hm & Hin).
        cbn [fst snd]. split; [eauto|]. split.
        -- intros _.
           destruct (upload_enabled (config (cam s))); simpl;
             rewrite Hc; split; reflexivity.
        -- intros p Hp. injection Hp as <-.
           destruct (upload_enabled (config (cam s))); simpl;
             (split; [exact Hv|]); exists m; (split; [exact Hm | exact Hin]).
      * cbn [fst snd]. split; [eauto|]. split.
        -- intros _. split; reflexivity.
        -- intros p Hp. discriminate.
    + cbn [fst snd]. split; [eauto|]. split.
      * intros _. split; reflexivity.
      * intros p Hp. discriminate.
Qed.

(** ** delete_recording *)

(** Deleting a recording that is not on the disk raises
    [FileNotFoundError] and changes nothing. *)
Theorem delete_recording_missing (filename m : string) (s : Sys) :
  PurePath.with_suffix (PurePath.joinpath filename) ".json" = Some m →
  PurePath.joinpath filename ∉ files (disk s) →
  delete_recording filename s = (Exn FileNotFoundError, s).
Proof.
  intros Hm Hp. unfold delete_recording. rewrite Hm.
  unfold bind at 1. unfold path_exists, gets.
  rewrite bool_decide_eq_false_2 by exact Hp. reflexivity.
Qed.

Lemma delete_recording_missing_witness :
  PurePath.with_suffix (PurePath.joinpath "swing_a.mp4") ".json"
  = Some "swing_a.json"
  ∧ (PurePath.joinpath "swing_a.mp4"
     ∉ files (disk (Sample.fresh DemoBackend "mp4")))
  ∧ delete_recording "swing_a.mp4" (Sample.fresh DemoBackend "mp4")
    = (Exn FileNotFoundError, Sample.fresh DemoBackend "mp4").
Proof.
  assert (Hp : PurePath.joinpath "swing_a.mp4"
               ∉ files (disk (Sample.fresh DemoBackend "mp4")))
    by (simpl; set_solver).
  split; [reflexivity|]. split; [exact Hp|].
  exact (delete_recording_missing "swing_a.mp4" "swing_a.json"
           (Sample.fresh DemoBackend "mp4") eq_refl Hp).
Defined.

Lemma delete_recording_present (filename m : string) (s : Sys) :
  PurePath.with_suffix (PurePath.joinpath filename) ".json" = Some m →
  PurePath.joinpath filename ∈ files (disk s) →
  PurePath.joinpath filename ∉ stuck (disk s) →
  m ∉ stuck (disk s) →
  m ∉ garbled (disk s) →
  m ∉ not_dict (disk s) →
  delete_recording filename s
  = (Val tt,
     with_files (λ fs, fs ∖ {[PurePath.joinpath filename]} ∖ {[m]}) s).
Proof.
  intros Hm. unfold delete_recording. rewrite Hm.
  generalize (PurePath.joinpath filename) as p. intros p Hp Hps Hms Hmg Hmd.
  open_sys s. simpl in Hp, Hps, Hms, Hmg, Hmd.
  py_run; try contradiction; try (simpl in *; discriminate);
    unfold with_files; simpl;
    first [reflexivity | do 3 f_equal; set_solver].
Qed.

(** A sidecar that parses, but not to an object (it holds a list, say,
    or [null]), makes the unguarded [metadata.get] raise
    [AttributeError]: nothing is removed. *)
Lemma delete_recording_sidecar_not_object (filename m : string) (s : Sys) :
  PurePath.with_suffix (PurePath.joinpath filename) ".json" = Some m →
  PurePath.joinpath filename ∈ files (disk s) →
  m ∈ files (disk s) →
  m ∉ garbled (disk s) →
  m ∈ not_dict (disk s) →
  delete_recording filename s = (Exn AttributeError, s).
Proof.
  intros Hm. unfold delete_recording. rewrite Hm.
  generalize (PurePath.joinpath filename) as p. intros p Hp Hmf Hmg Hmd.
  unfold bind, path_exists, gets, when, ret, json_load, dict_get.
  cbv beta iota.
  rewrite (bool_decide_eq_true_2 _ Hp). cbn [negb].
  rewrite (bool_decide_eq_true_2 _ Hmf). cbv beta iota.
  rewrite (bool_decide_eq_true_2 _ Hmf).
  rewrite (bool_decide_eq_false_2 _ Hmg). cbv beta iota.
  rewrite (bool_decide_eq_true_2 _ Hmd). reflexivity.
Qed.

(** Deleting a recording that is on the disk removes exactly the video
    and its sidecar and nothing else, provided that neither of the two
    is stuck and that the sidecar, if there is one, parses to an object.
    A sidecar that is there and holds something else, a list or [null],
    makes the call raise [AttributeError] and nothing is removed. *)
Theorem delete_recording_removes_video_and_sidecar (filename m : string)
        (s : Sys) :
  PurePath.with_suffix (PurePath.joinpath filename) ".json" = Some m →
  PurePath.joinpath filename ∈ files (disk s) →
  PurePath.joinpath filename ∉ stuck (disk s) →
  m ∉ stuck (disk s) →
  m ∉ garbled (disk s) →
  let r := delete_recording filename s in
  (m ∉ not_dict (disk s) →
     r.1 = Val tt
     ∧ (∀ q, q ∈ files (disk r.2)
             ↔ q ∈ files (disk s) ∧ q ≠ PurePath.joinpath filename ∧ q ≠ m)
     ∧ cam r.2 = cam s)
  ∧ (m ∈ files (disk s) → m ∈ not_dict (disk s) →
     r = (Exn AttributeError, s)).
Proof.
  intros Hm Hp Hps Hms Hmg r. subst r. split.
  - intros Hmd.
    rewrite (delete_recording_present filename m s) by assumption.
    split; [reflexivity|]. split; [|reflexivity].
    intros q. simpl. set_solver.
  - intros Hmf Hmd.
    exact (delete_recording_sidecar_not_object filename m s Hm Hp Hmf Hmg Hmd).
Qed.

Lemma delete_recording_removes_video_and_sidecar_witness :
  let s := Sample.with_disk
             (Sample.disk_of {["swing_a.mp4"; "swing_a.json"; "notes.txt"]})
             (Sample.fresh DemoBackend "mp4") in
  let s' := Sample.with_disk
              (mkDisk {["swing_a.mp4"; "swing_a.json"]} ∅ ∅ ∅
                      {["swing_a.json"]})
              (Sample.fresh DemoBackend "mp4") in
  PurePath.with_suffix (PurePath.joinpath "swing_a.mp4") ".json"
  = Some "swing_a.json"
  ∧ PurePath.joinpath "swing_a.mp4" ∈ files (disk s)
  ∧ (PurePath.joinpath "swing_a.mp4" ∉ stuck (disk s))
  ∧ ("swing_a.json" ∉ stuck (disk s))
  ∧ ("swing_a.json" ∉ garbled (disk s))
  ∧ ("swing_a.json" ∉ not_dict (disk s))
  ∧ (delete_recording "swing_a.mp4" s).1 = Val tt
  ∧ ("swing_a.json" ∉ files (disk (delete_recording "swing_a.mp4" s).2))
  ∧ "notes.txt" ∈ files (disk (delete_recording "swing_a.mp4" s).2)
  ∧ "swing_a.json" ∈ not_dict (disk s')
  ∧ delete_recording "swing_a.mp4" s' = (Exn AttributeError, s').
Proof.
  cbv zeta.
  set (s := Sample.with_disk
              (Sample.disk_of {["swing_a.mp4"; "swing_a.json"; "notes.txt"]})
              (Sample.fresh DemoBackend "mp4")).
  set (s' := Sample.with_disk
               (mkDisk {["swing_a.mp4"; "swing_a.json"]} ∅ ∅ ∅
                       {["swing_a.json"]})
               (Sample.fresh DemoBackend "mp4")).
  assert (Hp : PurePath.joinpath "swing_a.mp4" ∈ files (disk s))
    by (change (PurePath.joinpath "swing_a.mp4") with "swing_a.mp4";
        simpl; set_solver).
  assert (Hps : PurePath.joinpath "swing_a.mp4" ∉ stuck (disk s))
    by (simpl; set_solver).
  assert (Hms : "swing_a.json" ∉ stuck (disk s)) by (simpl; set_solver).
  assert (Hmg : "swing_a.json" ∉ garbled (disk s)) by (simpl; set_solver).
  assert (Hmd : "swing_a.json" ∉ not_dict (disk s)) by (simpl; set_solver).
  assert (Hp' : PurePath.joinpath "swing_a.mp4" ∈ files (disk s'))
    by (change (PurePath.joinpath "swing_a.mp4") with "swing_a.mp4";
        simpl; set_solver).
  assert (Hps' : PurePath.joinpath "swing_a.mp4" ∉ stuck (disk s'))
    by (simpl; set_solver).
  assert (Hms' : "swing_a.json" ∉ stuck (disk s')) by (simpl; set_solver).
  assert (Hmg' : "swing_a.json" ∉ garbled (disk s')) by (simpl; set_solver).
  assert (Hmf' : "swing_a.json" ∈ files (disk s')) by (simpl; set_solver).
  assert (Hmd' : "swing_a.json" ∈ not_dict (disk s')) by (simpl; set_solver).
  destruct (delete_recording_removes_video_and_sidecar "swing_a.mp4"
              "swing_a.json" s eq_refl Hp Hps Hms Hmg) as (Hok & _).
  destruct (Hok Hmd) as (Hres & Hfiles & _).
  destruct (delete_recording_removes_video_and_sidecar "swing_a.mp4"
              "swing_a.json" s' eq_refl Hp' Hps' Hms' Hmg') as (_ & Hbad).
  split; [reflexivity|]. split; [exact Hp|]. split; [exact Hps|].
  split; [exact Hms|]. split; [exact Hmg|]. split; [exact Hmd|].
  split; [exact Hres|].
  split.
  { intros Hin. apply Hfiles in Hin. destruct Hin as (_ & _ & Hne).
    apply Hne. reflexivity. }
  split.
  { apply Hfiles. split; [simpl; set_solver|].
    split; [|discriminate].
    change (PurePath.joinpath "swing_a.mp4") with "swing_a.mp4". discriminate. }
  split; [exact Hmd' | exact (Hbad Hmf' Hmd')].
Defined.

(** A recording whose sidecar is on the disk but does not parse cannot
    be deleted: the call raises the parse error before anything is
    removed. *)
Theorem delete_recording_unreadable_sidecar (filename m : string) (s : Sys) :
  PurePath.with_suffix (PurePath.joinpath filename) ".json" = Some m →
  PurePath.joinpath filename ∈ files (disk s) →
  m ∈ files (disk s) →
  m ∈ garbled (disk s) →
  delete_recording filename s = (Exn JSONDecodeError, s).
Proof.
  intros Hm. unfold delete_recording. rewrite Hm.
  generalize (PurePath.joinpath filename) as p. intros p Hp Hmf Hmg.
  unfold bind, path_exists, gets, when, ret, json_load. cbv beta iota.
  rewrite (bool_decide_eq_true_2 _ Hp). cbn [negb].
  rewrite (bool_decide_eq_true_2 _ Hmf). cbv beta iota.
  rewrite (bool_decide_eq_true_2 _ Hmf).
  rewrite (bool_decide_eq_true_2 _ Hmg). reflexivity.
Qed.

Lemma delete_recording_unreadable_sidecar_witness :
  let s := Sample.with_disk
             (mkDisk {["swing_a.mp4"; "swing_a.json"]} ∅ ∅ {["swing_a.json"]} ∅)
             (Sample.fresh DemoBackend "mp4") in
  PurePath.with_suffix (PurePath.joinpath "swing_a.mp4") ".json"
  = Some "swing_a.json"
  ∧ PurePath.joinpath "swing_a.mp4" ∈ files (disk s)
  ∧ "swing_a.json" ∈ files (disk s)
  ∧ "swing_a.json" ∈ garbled (disk s)
  ∧ delete_recording "swing_a.mp4" s = (Exn JSONDecodeError, s).
Proof.
  cbv zeta.
  set (s := Sample.with_disk
              (mkDisk {["swing_a.mp4"; "swing_a.json"]} ∅ ∅
                      {["swing_a.json"]} ∅)
              (Sample.fresh DemoBackend "mp4")).
  assert (Hp : PurePath.joinpath "swing_a.mp4" ∈ files (disk s))
    by (change (PurePath.joinpath "swing_a.mp4") with "swing_a.mp4";
        simpl; set_solver).
  assert (Hmf : "swing_a.json" ∈ files (disk s)) by (simpl; set_solver).
  assert (Hmg : "swing_a.json" ∈ garbled (disk s)) by (simpl; set_solver).
  split; [reflexivity|]. split; [exact Hp|]. split; [exact Hmf|].
  split; [exact Hmg|].
  exact (delete_recording_unreadable_sidecar "swing_a.mp4" "swing_a.json" s
           eq_refl Hp Hmf Hmg).
Defined.

(** ** get_recordings *)

Lemma entry_paths (f : string) :
  PurePath.is_entry f = true →
  PurePath.joinpath f = f ∧ PurePath.name f = f
  ∧ PurePath.with_suffix f ".json" = Some (PurePath.name_stem f +:+ ".json").
Proof.
  intros He. destruct (is_entry_plain f He) as (Hpl & Hne & Hnd).
  split; [exact (joinpath_plain f Hpl Hne Hnd)|].
  split; [exact (name_plain f Hpl)|].
  exact (with_suffix_plain f ".json" Hpl Hne).
Qed.

Lemma get_recordings_loop_clean (todo : list string) :
  ∀ (acc : list string) (s : Sys),
    garbled (disk s) = ∅ →
    Forall (λ f, f ∈ files (disk s) ∧ PurePath.is_entry f = true) todo →
    get_recordings_loop todo acc s
    = (Val (acc ++ filter (λ f, is_video f = true) todo), s).
Proof.
  induction todo as [|f rest IH]; intros acc s Hg Hall.
  - simpl. rewrite app_nil_r. reflexivity.
  - apply Forall_cons in Hall as [[Hf He] Hall].
    destruct (entry_paths f He) as (_ & Hname & Hws).
    cbn [get_recordings_loop]. rewrite filter_cons.
    destruct (is_video f) eqn:Hv; cbn [negb].
    + rewrite decide_True by reflexivity. rewrite Hws.
      assert (Hng : bool_decide (PurePath.name_stem f +:+ ".json"
                                 ∈ garbled (disk s)) = false)
        by (apply bool_decide_eq_false_2; rewrite Hg; set_solver).
      unfold bind, path_exists, gets, when, ret, json_load, os_path_getsize.
      cbv beta iota.
      destruct (bool_decide (PurePath.name_stem f +:+ ".json"
                             ∈ files (disk s))) eqn:Hpres;
        repeat (cbv beta iota;
                first [ rewrite Hng | rewrite Hpres
                      | rewrite (bool_decide_eq_true_2 _ Hf) ]);
        cbv beta iota; rewrite Hname, (IH _ s Hg Hall), <- app_assoc;
        reflexivity.
    + rewrite decide_False by discriminate. exact (IH acc s Hg Hall).
Qed.

Lemma StronglySorted_filter_le (P : string → Prop) `{!∀ x, Decision (P x)}
      (l : list string) :
  StronglySorted String.le l → StronglySorted String.le (filter P l).
Proof.
  induction 1 as [|x l Hs IH Hall]; [constructor|].
  rewrite filter_cons. destruct (decide (P x)); [|exact IH].
  constructor; [exact IH|].
  apply Forall_forall. intros y Hy. apply list_elem_of_filter in Hy as [_ Hy].
  rewrite Forall_forall in Hall. exact (Hall y Hy).
Qed.

(** On a disk where every sidecar parses, [get_recordings] returns
    without changing anything, and its result is precisely the videos of
    the output directory whose names match [swing_*.*], each once, in
    ascending order of name. *)
Theorem get_recordings_lists_every_swing_video (s : Sys) :
  garbled (disk s) = ∅ →
  ∃ names,
    get_recordings s = (Val names, s)
    ∧ (∀ n, n ∈ names
            ↔ n ∈ files (disk s) ∧ PurePath.is_entry n = true
              ∧ PurePath.glob_swing n = true ∧ is_video n = true)
    ∧ NoDup names
    ∧ StronglySorted String.le names.
Proof.
  intros Hg. unfold get_recordings. unfold bind at 1. unfold gets.
  assert (Hall : Forall (λ f, f ∈ files (disk s)
                              ∧ PurePath.is_entry f = true)
                   (merge_sort String.le (glob_swing_entries (disk s)))).
  { apply Forall_forall. intros f Hf.
    rewrite merge_sort_Permutation in Hf.
    apply glob_swing_entries_spec in Hf as (H1 & H2 & _). split; assumption. }
  rewrite (get_recordings_loop_clean _ [] s Hg Hall). rewrite app_nil_l.
  eexists. split; [reflexivity|]. split; [|split].
  - intros n. rewrite list_elem_of_filter, merge_sort_Permutation.
    unfold glob_swing_entries. rewrite list_elem_of_filter, elem_of_elements.
    rewrite andb_true_iff. tauto.
  - apply NoDup_filter. rewrite merge_sort_Permutation.
    unfold glob_swing_entries. apply NoDup_filter, NoDup_elements.
  - apply StronglySorted_filter_le.
    apply StronglySorted_merge_sort; apply _.
Qed.

Lemma get_recordings_lists_every_swing_video_witness :
  let s := Sample.with_disk
             (Sample.disk_of {["swing_b.mp4"; "swing_a.mp4"; "notes.txt"]})
             (Sample.fresh DemoBackend "mp4") in
  garbled (disk s) = ∅
  ∧ ∃ names, get_recordings s = (Val names, s)
             ∧ "swing_a.mp4" ∈ names ∧ ("notes.txt" ∉ names).
Proof.
  cbv zeta.
  set (s := Sample.with_disk
              (Sample.disk_of {["swing_b.mp4"; "swing_a.mp4"; "notes.txt"]})
              (Sample.fresh DemoBackend "mp4")).
  split; [reflexivity|].
  destruct (get_recordings_lists_every_swing_video s eq_refl)
    as (names & Heq & Hiff & _).
  exists names. split; [exact Heq|]. split.
  - apply Hiff. split; [simpl; set_solver|].
    split; [reflexivity|]. split; reflexivity.
  - intros Hin. apply Hiff in Hin. destruct Hin as (_ & _ & Hglob & _).
    discriminate Hglob.
Defined.

Lemma get_recordings_loop_garbled (todo : list string) :
  ∀ (acc : list string) (s : Sys) (f : string),
    Forall (λ f, f ∈ files (disk s) ∧ PurePath.is_entry f = true) todo →
    f ∈ todo → is_video f = true →
    PurePath.name_stem f +:+ ".json" ∈ files (disk s) →
    PurePath.name_stem f +:+ ".json" ∈ garbled (disk s) →
    get_recordings_loop todo acc s = (Exn JSONDecodeError, s).
Proof.
  induction todo as [|g rest IH]; intros acc s f Hall Hin Hv Hmf Hmg.
  - apply elem_of_nil in Hin. contradiction.
  - apply Forall_cons in Hall as [[Hg He] Hall].
    destruct (entry_paths g He) as (_ & Hname & Hws).
    cbn [get_recordings_loop].
    destruct (is_video g) eqn:Hvg; cbn [negb].
    + rewrite Hws.
      unfold bind, path_exists, gets, when, ret, json_load, os_path_getsize.
      cbv beta iota.
      destruct (bool_decide (PurePath.name_stem g +:+ ".json"
                             ∈ files (disk s))) eqn:Hpres; cbv beta iota.
      * rewrite Hpres.
        destruct (bool_decide (PurePath.name_stem g +:+ ".json"
                               ∈ garbled (disk s))) eqn:Hgar;
          cbv beta iota; [reflexivity|].
        rewrite (bool_decide_eq_true_2 _ Hg). cbv beta iota.
        apply elem_of_cons in Hin as [->|Hin].
        -- apply bool_decide_eq_false_1 in Hgar. contradiction.
        -- exact (IH _ s f Hall Hin Hv Hmf Hmg).
      * rewrite (bool_decide_eq_true_2 _ Hg). cbv beta iota.
        apply elem_of_cons in Hin as [->|Hin].
        -- apply bool_decide_eq_false_1 in Hpres. contradiction.
        -- exact (IH _ s f Hall Hin Hv Hmf Hmg).
    + apply elem_of_cons in Hin as [->|Hin]; [congruence|].
      exact (IH _ s f Hall Hin Hv Hmf Hmg).
Qed.

(** One sidecar that does not parse makes the whole listing fail: if
    some listed video has a sidecar on the disk that is not valid JSON,
    [get_recordings] raises the parse error and returns no list at
    all. *)
Theorem get_recordings_fails_on_unreadable_sidecar (s : Sys) (f : string) :
  f ∈ files (disk s) →
  PurePath.is_entry f = true →
  PurePath.glob_swing f = true →
  is_video f = true →
  PurePath.name_stem f +:+ ".json" ∈ files (disk s) →
  PurePath.name_stem f +:+ ".json" ∈ garbled (disk s) →
  get_recordings s = (Exn JSONDecodeError, s).
Proof.
  intros Hf He Hgl Hv Hmf Hmg. unfold get_recordings.
  unfold bind at 1. unfold gets.
  apply (get_recordings_loop_garbled _ [] s f); try assumption.
  - apply Forall_forall. intros g Hg.
    rewrite merge_sort_Permutation in Hg.
    apply glob_swing_entries_spec in Hg as (H1 & H2 & _). split; assumption.
  - rewrite merge_sort_Permutation. unfold glob_swing_entries.
    rewrite list_elem_of_filter, elem_of_elements, andb_true_iff. tauto.
Qed.

Lemma get_recordings_fails_on_unreadable_sidecar_witness :
  let s := Sample.with_disk
             (mkDisk {["swing_a.mp4"; "swing_b.mp4"; "swing_b.json"]} ∅ ∅
                     {["swing_b.json"]} ∅)
             (Sample.fresh DemoBackend "mp4") in
  "swing_b.mp4" ∈ files (disk s)
  ∧ PurePath.is_entry "swing_b.mp4" = true
  ∧ PurePath.glob_swing "swing_b.mp4" = true
  ∧ is_video "swing_b.mp4" = true
  ∧ PurePath.name_stem "swing_b.mp4" +:+ ".json" ∈ files (disk s)
  ∧ PurePath.name_stem "swing_b.mp4" +:+ ".json" ∈ garbled (disk s)
  ∧ get_recordings s = (Exn JSONDecodeError, s).
Proof.
  cbv zeta.
  set (s := Sample.with_disk
              (mkDisk {["swing_a.mp4"; "swing_b.mp4"; "swing_b.json"]} ∅ ∅
                      {["swing_b.json"]} ∅)
              (Sample.fresh DemoBackend "mp4")).
  assert (Hf : "swing_b.mp4" ∈ files (disk s)) by (simpl; set_solver).
  assert (Hmf : PurePath.name_stem "swing_b.mp4" +:+ ".json"
                ∈ files (disk s))
    by (change (PurePath.name_stem "swing_b.mp4" +:+ ".json")
          with "swing_b.json"; simpl; set_solver).
  assert (Hmg : PurePath.name_stem "swing_b.mp4" +:+ ".json"
                ∈ garbled (disk s))
    by (change (PurePath.name_stem "swing_b.mp4" +:+ ".json")
          with "swing_b.json"; simpl; set_solver).
  split; [exact Hf|]. split; [reflexivity|]. split; [reflexivity|].
  split; [reflexivity|]. split; [exact Hmf|]. split; [exact Hmg|].
  exact (get_recordings_fails_on_unreadable_sidecar s "swing_b.mp4"
           Hf eq_refl eq_refl eq_refl Hmf Hmg).
Defined.

(** ** delete_all_recordings *)

Lemma rcut_spec (x : ascii) (s : string) :
  ∀ b e, Str.rcut x s = Some (b, e) → s = b +:+ e.
Proof.
  induction s as [|a s IH]; intros b e H; [discriminate|].
  cbn [Str.rcut] in H.
  destruct (Str.rcut x s) as [[b' e']|] eqn:Hr.
  - injection H as <- <-. rewrite (IH b' e' eq_refl). reflexivity.
  - destruct (Ascii.eqb a x); [|discriminate].
    injection H as <- <-. reflexivity.
Qed.

Lemma name_stem_plain (n : string) :
  plain_name n → n ≠ "" →
  plain_name (PurePath.name_stem n) ∧ PurePath.name_stem n ≠ "".
Proof.
  intros Hp Hne. unfold PurePath.name_stem.
  destruct (Str.rcut PurePath.dot n) as [[b e]|] eqn:Hr; [|by split].
  destruct b as [|a b]; [by split|].
  destruct e as [|d [|c e]]; [by split..|].
  split; [|discriminate].
  apply rcut_spec in Hr. unfold plain_name in *. rewrite Hr in Hp.
  rewrite contains_app in Hp. apply orb_false_iff in Hp as [Hp _]. exact Hp.
Qed.

Lemma sidecar_not_video (f : string) :
  PurePath.is_entry f = true →
  is_video (PurePath.name_stem f +:+ ".json") = false.
Proof.
  intros He. destruct (is_entry_plain f He) as (Hpl & Hne & _).
  destruct (name_stem_plain f Hpl Hne) as [Hsp Hsn].
  unfold is_video, PurePath.suffix.
  rewrite name_plain
    by (unfold plain_name in *; rewrite contains_app, Hsp; reflexivity).
  unfold PurePath.name_suffix.
  change ".json" with (String PurePath.dot "json").
  rewrite rcut_app_last by reflexivity.
  destruct (PurePath.name_stem f) as [|a b]; [contradiction|]. reflexivity.
Qed.

Lemma video_listed_suffix (f : string) :
  is_video f = true →
  negb (is_listed_suffix f) = false
  ∧ String.eqb (PurePath.suffix f) ".json" = false.
Proof.
  unfold is_listed_suffix, is_video. intros H.
  rewrite H. split; [reflexivity|].
  apply orb_true_iff in H as [H|H]; apply String.eqb_eq in H; rewrite H;
    reflexivity.
Qed.

Lemma not_video_skipped (f : string) (rest : list string) (count : nat)
      (s : Sys) :
  is_video f = false →
  delete_all_loop (f :: rest) count s = delete_all_loop rest count s.
Proof.
  intros H. rewrite delete_all_loop_cons. unfold is_listed_suffix.
  rewrite H. cbn [orb].
  destruct (String.eqb (PurePath.suffix f) ".json"); reflexivity.
Qed.

Lemma delete_all_loop_clean (todo : list string) :
  ∀ (count : nat) (s : Sys),
    clean_disk (disk s) →
    NoDup todo →
    Forall (λ f, PurePath.is_entry f = true
                 ∧ (is_video f = true → f ∈ files (disk s))) todo →
    let r := delete_all_loop todo count s in
    r.1 = Val (count + length (filter (λ f, is_video f = true) todo))%nat
    ∧ files (disk r.2) ⊆ files (disk s)
    ∧ (∀ f, f ∈ todo → is_video f = true → f ∉ files (disk r.2))
    ∧ clean_disk (disk r.2) ∧ log r.2 = log s.
Proof.
  induction todo as [|f rest IH]; intros count s Hclean Hnd Hall; cbv zeta.
  - simpl. rewrite Nat.add_0_r. split; [reflexivity|].
    split; [reflexivity|]. split; [|split; [exact Hclean | reflexivity]].
    intros f Hf. apply elem_of_nil in Hf. contradiction.
  - apply Forall_cons in Hall as [[He Hvf] Hall].
    apply NoDup_cons in Hnd as [Hnotin Hnd].
    rewrite filter_cons.
    destruct (is_video f) eqn:Hv.
    + rewrite decide_True by reflexivity.
      destruct (video_listed_suffix f Hv) as [Hl Hj].
      rewrite delete_all_loop_cons, Hl, Hj.
      destruct (entry_paths f He) as (Hjoin & Hname & Hws).
      destruct Hclean as (Hst & Hga & Hdi).
      rewrite Hname.
      rewrite (delete_recording_present f (PurePath.name_stem f +:+ ".json") s);
        rewrite ?Hjoin; try assumption;
        try (rewrite ?Hst, ?Hga, ?Hdi; apply not_elem_of_empty);
        [|exact (Hvf eq_refl)].
      set (s1 := with_files
                   (λ fs, fs ∖ {[f]} ∖ {[PurePath.name_stem f +:+ ".json"]})
                   s).
      assert (Hall1 : Forall (λ g, PurePath.is_entry g = true
                                   ∧ (is_video g = true
                                      → g ∈ files (disk s1))) rest).
      { apply Forall_forall. intros g Hg.
        rewrite Forall_forall in Hall. destruct (Hall g Hg) as [Heg Hvg].
        split; [exact Heg|]. intros Hvid. simpl.
        apply elem_of_difference. split.
        - apply elem_of_difference. split; [exact (Hvg Hvid)|].
          intros ->%elem_of_singleton. contradiction.
        - intros ->%elem_of_singleton.
          rewrite (sidecar_not_video f He) in Hvid. discriminate. }
      destruct (IH (S count) s1 (conj Hst (conj Hga Hdi)) Hnd Hall1)
        as (Hres & Hsub & Hgone & Hcam & Hlog).
      split; [rewrite Hres; f_equal; simpl; lia|].
      split; [etrans; [exact Hsub|]; simpl; set_solver|].
      split; [|split; assumption].
      intros g Hg Hvid. apply elem_of_cons in Hg as [->|Hg].
      * intros Hin. apply Hsub in Hin. simpl in Hin. set_solver.
      * exact (Hgone g Hg Hvid).
    + rewrite decide_False by discriminate.
      rewrite (not_video_skipped f rest count s Hv).
      destruct (IH count s Hclean Hnd Hall)
        as (Hres & Hsub & Hgone & Hcam & Hlog).
      split; [exact Hres|]. split; [exact Hsub|].
      split; [|split; assumption].
      intros g Hg Hvid. apply elem_of_cons in Hg as [->|Hg]; [congruence|].
      exact (Hgone g Hg Hvid).
Qed.

Lemma delete_all_recordings_unfold (s : Sys) :
  delete_all_recordings s
  = delete_all_loop (glob_swing_entries (disk s)) 0%nat s.
Proof. reflexivity. Qed.

Lemma get_recordings_unfold (s : Sys) :
  get_recordings s
  = get_recordings_loop (merge_sort String.le (glob_swing_entries (disk s)))
      [] s.
Proof. reflexivity. Qed.

(** On a disk where nothing is stuck and every sidecar parses to an
    object, [delete_all_recordings] returns the number of videos that
    [get_recordings] listed, removes files only, and leaves no listed
    video behind: [get_recordings] then returns the empty list. *)
Theorem delete_all_recordings_empties_the_listing (s : Sys) :
  clean_disk (disk s) →
  let r := delete_all_recordings s in
  ∃ names,
    get_recordings s = (Val names, s)
    ∧ r.1 = Val (length names)
    ∧ files (disk r.2) ⊆ files (disk s)
    ∧ get_recordings r.2 = (Val [], r.2).
Proof.
  intros Hclean r. subst r.
  assert (Hg : garbled (disk s) = ∅) by (destruct Hclean as (_ & H & _); exact H).
  assert (Hall : Forall (λ f, f ∈ files (disk s)
                              ∧ PurePath.is_entry f = true)
                   (merge_sort String.le (glob_swing_entries (disk s)))).
  { apply Forall_forall. intros f Hf.
    rewrite merge_sort_Permutation in Hf.
    apply glob_swing_entries_spec in Hf as (H1 & H2 & _). split; assumption. }
  exists (filter (λ f, is_video f = true)
            (merge_sort String.le (glob_swing_entries (disk s)))).
  split.
  { rewrite get_recordings_unfold.
    rewrite (get_recordings_loop_clean _ [] s Hg Hall). reflexivity. }
  rewrite delete_all_recordings_unfold.
  assert (Hall' : Forall (λ f, PurePath.is_entry f = true
                               ∧ (is_video f = true → f ∈ files (disk s)))
                    (glob_swing_entries (disk s))).
  { apply Forall_forall. intros f Hf.
    apply glob_swing_entries_spec in Hf as (H1 & H2 & _). by split. }
  assert (Hnd : NoDup (glob_swing_entries (disk s)))
    by (unfold glob_swing_entries; apply NoDup_filter, NoDup_elements).
  destruct (delete_all_loop_clean (glob_swing_entries (disk s)) 0%nat s
              Hclean Hnd Hall') as (Hres & Hsub & Hgone & Hcam & Hlog).
  set (s' := (delete_all_loop (glob_swing_entries (disk s)) 0 s).2) in *.
  split.
  { rewrite Hres. f_equal. simpl.
    apply Permutation_length, filter_Permutation.
    symmetry. apply merge_sort_Permutation. }
  split; [exact Hsub|].
  assert (Hclean' : garbled (disk s') = ∅)
    by (destruct Hcam as (_ & H & _); exact H).
  assert (Hall2 : Forall (λ f, f ∈ files (disk s')
                               ∧ PurePath.is_entry f = true)
                    (merge_sort String.le (glob_swing_entries (disk s')))).
  { apply Forall_forall. intros f Hf.
    rewrite merge_sort_Permutation in Hf.
    apply glob_swing_entries_spec in Hf as (H1 & H2 & _). split; assumption. }
  rewrite get_recordings_unfold.
  rewrite (get_recordings_loop_clean _ [] s' Hclean' Hall2).
  rewrite app_nil_l.
  assert (Hnil : filter (λ f, is_video f = true)
                   (merge_sort String.le (glob_swing_entries (disk s')))
                 = []).
  { destruct (filter (λ f, is_video f = true)
                (merge_sort String.le (glob_swing_entries (disk s'))))
      as [|x l] eqn:Hfl; [reflexivity|]. exfalso.
    assert (Hx : x ∈ filter (λ f, is_video f = true)
                       (merge_sort String.le (glob_swing_entries (disk s'))))
      by (rewrite Hfl; left).
    apply list_elem_of_filter in Hx as [Hv Hx].
    rewrite merge_sort_Permutation in Hx.
    apply glob_swing_entries_spec in Hx as (H1 & H2 & H3).
    apply (Hgone x); [|exact Hv|exact H1].
    unfold glob_swing_entries.
    rewrite list_elem_of_filter, elem_of_elements, andb_true_iff.
    split; [split; assumption|]. apply Hsub, H1. }
  rewrite Hnil. reflexivity.
Qed.

Lemma delete_all_recordings_empties_the_listing_witness :
  let s := Sample.with_disk
             (Sample.disk_of {["swing_a.mp4"; "swing_a.json"; "notes.txt"]})
             (Sample.fresh DemoBackend "mp4") in
  clean_disk (disk s)
  ∧ ∃ names, get_recordings s = (Val names, s)
             ∧ (delete_all_recordings s).1 = Val (length names)
             ∧ get_recordings (delete_all_recordings s).2
               = (Val [], (delete_all_recordings s).2).
Proof.
  cbv zeta.
  set (s := Sample.with_disk
              (Sample.disk_of {["swing_a.mp4"; "swing_a.json"; "notes.txt"]})
              (Sample.fresh DemoBackend "mp4")).
  assert (Hc : clean_disk (disk s)) by (repeat split; reflexivity).
  split; [exact Hc|].
  destruct (delete_all_recordings_empties_the_listing s Hc)
    as (names & H1 & H2 & _ & H4).
  exists names. split; [exact H1|]. split; [exact H2 | exact H4].
Defined.

(** ** The backends *)

Lemma endswith_mp4_not_h264 (c : string) :
  Str.endswith (c +:+ ".mp4") ".h264" = false.
Proof.
  unfold Str.endswith. apply bool_decide_eq_false_2. intros [k Hk].
  rewrite chars_app in Hk. apply (f_equal reverse) in Hk.
  rewrite !reverse_app in Hk. vm_compute (reverse (Str.chars ".mp4")) in Hk.
  vm_compute (reverse (Str.chars ".h264")) in Hk. simpl in Hk.
  discriminate Hk.
Qed.

Lemma mp4_name_not_h264 (n : string) :
  Str.endswith (mp4_name n) ".h264" = false.
Proof.
  unfold mp4_name. destruct (Str.endswith n ".h264") eqn:E;
    [apply endswith_mp4_not_h264 | exact E].
Qed.

Lemma mp4_name_idempotent (n : string) : mp4_name (mp4_name n) = mp4_name n.
Proof.
  unfold mp4_name at 1. rewrite mp4_name_not_h264. reflexivity.
Qed.

(** Whatever backend is in use and whatever the configured format, a
    [record] call that returns never names a file ending in [.h264]: a
    path with that ending is rewritten to [.mp4], any other path is
    returned as it was given. *)
Theorem backend_record_never_names_h264 (hw : Hardware) (s : Sys)
        (p : option string) (d : Z) (ce : option EventRef) (a : string) :
  (backend_record hw p d ce s).1 = Val a →
  Str.endswith a ".h264" = false
  ∧ mp4_name a = a
  ∧ (Str.endswith (py_str p) ".h264" = false → a = py_str p).
Proof.
  destruct (backend_record hw p d ce s) as [r s'] eqn:E. cbn [fst].
  intros ->. apply backend_record_value in E. subst a.
  split; [apply mp4_name_not_h264|]. split; [apply mp4_name_idempotent|].
  intros H. unfold mp4_name. rewrite H. reflexivity.
Qed.

Lemma backend_record_never_names_h264_witness :
  let s := Sample.fresh DemoBackend "h264" in
  (backend_record Sample.bare (Some "swing_x.h264") 5 None s).1
  = Val "swing_x.mp4"
  ∧ Str.endswith "swing_x.mp4" ".h264" = false.
Proof.
  cbv zeta.
  assert (H : (backend_record Sample.bare (Some "swing_x.h264") 5 None
                 (Sample.fresh DemoBackend "h264")).1 = Val "swing_x.mp4")
    by (vm_compute; reflexivity).
  destruct (backend_record_never_names_h264 Sample.bare
              (Sample.fresh DemoBackend "h264") (Some "swing_x.h264") 5 None
              "swing_x.mp4" H) as (He & _).
  split; [exact H | exact He].
Defined.

Lemma pi_record_zero_division (hw : Hardware) (s : Sys) (p : option string)
      (d : Z) (ce : option EventRef) :
  fps (config (cam s)) = 0
  ∨ (auto_exposure (config (cam s)) = false
     ∧ shutter_speed (config (cam s)) = 0) →
  PiCamera2_record hw p d ce s = (Exn ZeroDivisionError, s).
Proof.
  intros H.
  unfold PiCamera2_record, bind, self, gets, when, raise, ret.
  destruct (fps (config (cam s)) =? 0) eqn:Hf; [reflexivity|].
  destruct H as [H|[Ha Hs]]; [rewrite H in Hf; discriminate|].
  rewrite Ha, Hs. reflexivity.
Qed.

(** With the Pi camera backend, a configured frame rate of zero, or a
    shutter speed of zero under manual exposure, makes [record] divide by
    zero before the camera is asked to record; [capture_swing] then
    answers [None], writes nothing, and clears the [recording] flag. *)
Theorem capture_swing_pi_zero_division (strftime : Z → string)
        (hw : Hardware) (custom : option string) (s : Sys) :
  backend (cam s) = PiCamera2Backend →
  recording (cam s) = false →
  fps (config (cam s)) = 0
  ∨ (auto_exposure (config (cam s)) = false
     ∧ shutter_speed (config (cam s)) = 0) →
  let r := capture_swing strftime hw custom s in
  r.1 = Val None
  ∧ disk r.2 = disk s
  ∧ now r.2 = now s
  ∧ recording (cam r.2) = false
  ∧ log r.2 = log s ++ [(ERROR, "Recording failed")]
  ∧ backend_record hw (Some (capture_output_path strftime custom s))
      (duration (config (cam s))) None (capture_started s)
    = (Exn ZeroDivisionError, capture_started s).
Proof.
  intros Hb Hr Hz r. subst r.
  rewrite capture_swing_cases by exact Hr.
  assert (Hrec : backend_record hw
                   (Some (capture_output_path strftime custom s))
                   (duration (config (cam s))) None (capture_started s)
                 = (Exn ZeroDivisionError, capture_started s)).
  { unfold backend_record. unfold bind at 1. unfold self, gets.
    replace (backend (cam (capture_started s))) with PiCamera2Backend
      by (symmetry; exact Hb).
    apply pi_record_zero_division. exact Hz. }
  rewrite Hrec. repeat split; reflexivity.
Qed.

Lemma capture_swing_pi_zero_division_witness :
  let s := mkSys (mkCamera (mkConfig 640 480 0 5 "mp4" 2000 false false "" 10)
                           PiCamera2Backend false false IDLE None None None
                           false)
                 (Sample.disk_of ∅) 1000 None [] [] 0 in
  backend (cam s) = PiCamera2Backend
  ∧ recording (cam s) = false
  ∧ (fps (config (cam s)) = 0
     ∨ (auto_exposure (config (cam s)) = false
        ∧ shutter_speed (config (cam s)) = 0))
  ∧ (capture_swing Sample.stamp Sample.steady None s).1 = Val None
  ∧ disk (capture_swing Sample.stamp Sample.steady None s).2 = disk s.
Proof.
  cbv zeta.
  set (s := mkSys (mkCamera (mkConfig 640 480 0 5 "mp4" 2000 false false ""
                                      10)
                            PiCamera2Backend false false IDLE None None None
                            false)
                  (Sample.disk_of ∅) 1000 None [] [] 0).
  assert (Hz : fps (config (cam s)) = 0
               ∨ (auto_exposure (config (cam s)) = false
                  ∧ shutter_speed (config (cam s)) = 0))
    by (left; reflexivity).
  destruct (capture_swing_pi_zero_division Sample.stamp Sample.steady None s
              eq_refl eq_refl Hz) as (H1 & H2 & _).
  split; [reflexivity|]. split; [reflexivity|]. split; [exact Hz|].
  split; [exact H1 | exact H2].
Defined.

(** *** The frame loop of the OpenCV backend *)

Lemma cv_loop_frames (hw : Hardware) (fuel : nat) :
  camera_fault hw = false →
  ∀ (delivered : nat) (start dms : Z) (ce : option EventRef) (s : Sys),
    (delivered ≤ frames_ready hw)%nat →
    ∃ s', cv_loop hw fuel delivered start dms ce s = (Val tt, s')
          ∧ disk s' = disk s
          ∧ (frames s ≤ frames s')%nat
          ∧ (frames s' + delivered ≤ frames s + frames_ready hw)%nat.
Proof.
  intros Hok. destruct (fault_free hw Hok) as (_ & _ & Hfr).
  induction fuel as [|fuel IH]; intros delivered start dms ce s Hle.
  - exists s. split; [reflexivity|]. split; [reflexivity|]. lia.
  - simpl. unfold bind at 1. unfold time_time, gets.
    destruct (now s - start <? dms);
      [|exists s; split; [reflexivity|]; split; [reflexivity|]; lia].
    unfold bind at 1. destruct (cancel_requested_pure ce s) as [[] ->].
    + exists s. split; [reflexivity|]. split; [reflexivity|]. lia.
    + rewrite Hfr. unfold when at 1. unfold bind at 1. unfold ret at 1.
      unfold bind at 1. unfold modify.
      destruct (Nat.ltb_spec delivered (frames_ready hw)).
      * unfold bind at 1. unfold write_frame, modify.
        match goal with |- context [cv_loop hw fuel ?n start dms ce ?st] =>
          destruct (IH n start dms ce st) as (s' & -> & Hd & H1 & H2);
            [lia|];
          simpl in Hd, H1, H2;
          rewrite advance_disk in Hd; rewrite advance_frames in H1, H2
        end.
        exists s'. split; [reflexivity|]. split; [exact Hd|]. lia.
      * eexists. split; [reflexivity|]. simpl.
        rewrite advance_disk, advance_frames.
        split; [reflexivity|]. lia.
Qed.

Lemma cv_loop_flag_set (hw : Hardware) (fuel : nat) (delivered : nat)
      (start dms : Z) (s : Sys) :
  lm_cancel_event (cam s) = true →
  cv_loop hw fuel delivered start dms (Some LMCancelEvent) s = (Val tt, s).
Proof.
  intros Hset. destruct fuel as [|fuel]; [reflexivity|].
  simpl. unfold bind at 1. unfold time_time, gets.
  destruct (now s - start <? dms); [|reflexivity].
  unfold bind at 1. unfold event_is_set, gets. rewrite Hset. reflexivity.
Qed.

Lemma cv_loop_no_time (hw : Hardware) (fuel : nat) (delivered : nat)
      (start dms : Z) (ce : option EventRef) (s : Sys) :
  dms ≤ now s - start →
  cv_loop hw fuel delivered start dms ce s = (Val tt, s).
Proof.
  intros Hd. destruct fuel as [|fuel]; [reflexivity|].
  simpl. unfold bind at 1. unfold time_time, gets.
  destruct (Z.ltb_spec (now s - start) dms); [lia|reflexivity].
Qed.

(** When the camera answers, [OpenCVBackend.record] returns the rewritten
    path and never raises; it writes no more frames than the camera
    delivers; and it writes no frame at all, and takes no time, when the
    requested duration is not positive or the cancellation event it was
    given is already set. *)
Theorem opencv_record_frames (hw : Hardware) (s : Sys) (p : option string)
        (d : Z) (ce : option EventRef) :
  camera_fault hw = false →
  let r := OpenCV_record hw p d ce s in
  r.1 = Val (mp4_name (py_str p))
  ∧ (frames s ≤ frames r.2 ≤ frames s + frames_ready hw)%nat
  ∧ (writer_opens hw = true → mp4_name (py_str p) ∈ files (disk r.2))
  ∧ (d ≤ 0 ∨ (ce = Some LMCancelEvent ∧ lm_cancel_event (cam s) = true) →
     frames r.2 = frames s ∧ now r.2 = now s).
Proof.
  intros Hf r. subst r.
  destruct (fault_free hw Hf) as (Hstart & Hstop & _).
  unfold OpenCV_record, bind, when, raise, ret, time_time, gets.
  rewrite Hstart, Hstop.
  set (s0 := (if writer_opens hw
              then encoder_output (mp4_name (py_str p))
              else λ s1, (Val (), s1)) s).
  assert (Hs0 : ∃ s1, s0 = (Val tt, s1) ∧ frames s1 = frames s
                      ∧ now s1 = now s ∧ cam s1 = cam s
                      ∧ (writer_opens hw = true
                         → mp4_name (py_str p) ∈ files (disk s1))).
  { subst s0. destruct (writer_opens hw).
    - eexists. split; [reflexivity|]. repeat split.
      intros _. simpl. apply elem_of_union_r, elem_of_singleton. reflexivity.
    - exists s. repeat split. intros [=]. }
  destruct Hs0 as (s1 & -> & Hfr & Hnow & Hcam & Hfile). cbv beta iota.
  destruct (cv_loop_frames hw (S (frames_ready hw)) Hf 0 (now s1) (1000 * d)
              ce s1 (Nat.le_0_l _)) as (s2 & Hloop & Hdisk & Hlo & Hhi).
  rewrite Hloop. cbn [fst snd].
  split; [reflexivity|]. split; [lia|].
  split; [rewrite Hdisk; exact Hfile|].
  intros [Hd | [-> Hset]].
  - rewrite cv_loop_no_time in Hloop by lia.
    injection Hloop as <-. split; assumption.
  - rewrite cv_loop_flag_set in Hloop by (rewrite Hcam; exact Hset).
    injection Hloop as <-. split; assumption.
Qed.

Lemma opencv_record_frames_witness :
  let s := with_cam (set_lm_cancel_event true)
             (Sample.fresh OpenCVBackend "mp4") in
  camera_fault Sample.steady = false
  ∧ (OpenCV_record Sample.steady (Some "swing_x.mp4") 5
       (Some LMCancelEvent) s).1 = Val "swing_x.mp4"
  ∧ frames (OpenCV_record Sample.steady (Some "swing_x.mp4") 5
              (Some LMCancelEvent) s).2 = frames s.
Proof.
  cbv zeta.
  destruct (opencv_record_frames Sample.steady
              (with_cam (set_lm_cancel_event true)
                 (Sample.fresh OpenCVBackend "mp4"))
              (Some "swing_x.mp4") 5 (Some LMCancelEvent) eq_refl)
    as (H1 & _ & _ & H4).
  split; [reflexivity|]. split; [exact H1|].
  apply H4. right. split; reflexivity.
Defined.

(** ** The sensor crop of the Pi camera *)

(** For a request that fits the sensor, the crop [_apply_sensor_crop]
    asks for has even dimensions that cover the request with at most one
    extra pixel, even offsets, lies inside the 1440x1088 recording area,
    and is centred: the margins on either side differ by 0 or 2 pixels. *)
Theorem sensor_crop_geometry (w h : Z) :
  0 ≤ w ≤ SENSOR_WIDTH → 0 ≤ h ≤ SENSOR_HEIGHT →
  let c := sensor_crop w h in
  (crop_width c mod 2 = 0 ∧ crop_height c mod 2 = 0
   ∧ crop_x c mod 2 = 0 ∧ crop_y c mod 2 = 0)
  ∧ (w ≤ crop_width c ≤ w + 1 ∧ h ≤ crop_height c ≤ h + 1)
  ∧ (0 ≤ crop_x c ∧ crop_x c + crop_width c ≤ SENSOR_WIDTH)
  ∧ (0 ≤ crop_y c ∧ crop_y c + crop_height c ≤ SENSOR_HEIGHT)
  ∧ (0 ≤ SENSOR_WIDTH - crop_width c - 2 * crop_x c ≤ 2)
  ∧ (0 ≤ SENSOR_HEIGHT - crop_height c - 2 * crop_y c ≤ 2).
Proof.
  intros Hw Hh c. subst c.
  unfold sensor_crop, crop_offset, even_up, SENSOR_WIDTH, SENSOR_HEIGHT in *.
  cbn [crop_width crop_height crop_x crop_y].
  Z.div_mod_to_equations. lia.
Qed.

Lemma sensor_crop_geometry_witness :
  0 ≤ 727 ≤ SENSOR_WIDTH ∧ 0 ≤ 544 ≤ SENSOR_HEIGHT
  ∧ sensor_crop 727 544 = mkCrop 728 544 356 272
  ∧ crop_width (sensor_crop 727 544) mod 2 = 0
  ∧ 0 ≤ crop_x (sensor_crop 727 544).
Proof.
  assert (Hw : 0 ≤ 727 ≤ SENSOR_WIDTH) by (unfold SENSOR_WIDTH; lia).
  assert (Hh : 0 ≤ 544 ≤ SENSOR_HEIGHT) by (unfold SENSOR_HEIGHT; lia).
  destruct (sensor_crop_geometry 727 544 Hw Hh)
    as ((He & _) & _ & (Hx & _) & _).
  split; [exact Hw|]. split; [exact Hh|]. split; [reflexivity|].
  split; [exact He | exact Hx].
Defined.

Lemma crop_targets_spec (n : nat) (addr : string) :
  (n, addr) ∈ crop_targets
  ↔ (n < 6)%nat ∧ (addr = "11-001a" ∨ addr = "10-001a").
Proof.
  change crop_targets with
    [(0%nat, "11-001a"); (0%nat, "10-001a"); (1%nat, "11-001a");
     (1%nat, "10-001a"); (2%nat, "11-001a"); (2%nat, "10-001a");
     (3%nat, "11-001a"); (3%nat, "10-001a"); (4%nat, "11-001a");
     (4%nat, "10-001a"); (5%nat, "11-001a"); (5%nat, "10-001a")].
  rewrite !elem_of_cons, elem_of_nil. split.
  - intros H.
    repeat (destruct H as [H|H]; [injection H as -> ->; split; [lia|tauto]|]).
    contradiction.
  - intros [Hn [-> | ->]];
      do 6 (destruct n as [|n]; [tauto|]); lia.
Qed.

(** Targets that are passed over do not change the outcome of the scan. *)
Lemma crop_scan_app (media_ctl : nat → string → ProcOutcome)
      (pre rest : list (nat * string)) :
  (∀ u, u ∈ pre → passed_over (media_ctl u.1 u.2)) →
  crop_scan media_ctl (pre ++ rest) = crop_scan media_ctl rest.
Proof.
  induction pre as [|[n a] pre IH]; intros Hpre; [reflexivity|].
  assert (Hna : passed_over (media_ctl n a))
    by (apply (Hpre (n, a)); left).
  assert (Hrest : ∀ u, u ∈ pre → passed_over (media_ctl u.1 u.2))
    by (intros u Hu; apply Hpre; right; exact Hu).
  cbn [app crop_scan]. destruct Hna as [Hd Hz].
  destruct (media_ctl n a) as [code wrote| | |];
    [|by apply IH..|contradiction].
  destruct (Z.eqb_spec code 0) as [->|Hne]; [|by apply IH].
  exfalso. by apply (Hz wrote).
Qed.

(** The scan stops at the first target that is not passed over. *)
Lemma crop_scan_first (media_ctl : nat → string → ProcOutcome)
      (targets : list (nat * string)) :
  (∀ u, u ∈ targets → passed_over (media_ctl u.1 u.2))
  ∨ ∃ pre t post,
      targets = pre ++ t :: post
      ∧ (∀ u, u ∈ pre → passed_over (media_ctl u.1 u.2))
      ∧ ¬ passed_over (media_ctl t.1 t.2).
Proof.
  induction targets as [|[n a] rest IH].
  - left. intros u Hu. apply elem_of_nil in Hu. contradiction.
  - assert (Hdec : passed_over (media_ctl n a)
                   ∨ ¬ passed_over (media_ctl n a)).
    { unfold passed_over.
      destruct (media_ctl n a) as [code wrote| | |].
      - destruct (Z.eqb_spec code 0) as [->|Hne].
        + right. intros [_ H]. by apply (H wrote).
        + left. split; [discriminate|]. intros w [= Hc _]. contradiction.
      - left. split; [discriminate|]. intros w. discriminate.
      - left. split; [discriminate|]. intros w. discriminate.
      - right. intros [H _]. by apply H. }
    destruct Hdec as [Hp | Hn].
    + destruct IH as [Hall | (pre & t & post & -> & Hpre & Ht)].
      * left. intros u [->|Hu]%elem_of_cons; [exact Hp | by apply Hall].
      * right. exists ((n, a) :: pre), t, post.
        split; [reflexivity|]. split; [|exact Ht].
        intros u [->|Hu]%elem_of_cons; [exact Hp | by apply Hpre].
    + right. exists [], (n, a), rest. split; [reflexivity|].
      split; [|exact Hn]. intros u Hu. apply elem_of_nil in Hu.
      contradiction.
Qed.

Lemma crop_scan_stops (media_ctl : nat → string → ProcOutcome)
      (pre post : list (nat * string)) (t : nat * string) :
  (∀ u, u ∈ pre → passed_over (media_ctl u.1 u.2)) →
  (∀ wrote, media_ctl t.1 t.2 = Exited 0 wrote →
     crop_scan media_ctl (pre ++ t :: post) = Val (Some t))
  ∧ (media_ctl t.1 t.2 = LaunchDenied →
     crop_scan media_ctl (pre ++ t :: post) = Exn PermissionError).
Proof.
  intros Hpre. rewrite (crop_scan_app media_ctl pre (t :: post) Hpre).
  destruct t as [n a]. cbn [crop_scan fst snd].
  split; [intros wrote ->; reflexivity | intros ->; reflexivity].
Qed.

Lemma not_passed_over (o : ProcOutcome) :
  ¬ passed_over o → o = LaunchDenied ∨ ∃ wrote, o = Exited 0 wrote.
Proof.
  unfold passed_over. intros Hn.
  destruct o as [code wrote| | |];
    [|exfalso; apply Hn; split; [discriminate|intros w; discriminate]..
     |by left].
  destruct (Z.eqb_spec code 0) as [->|Hne]; [right; eauto|].
  exfalso. apply Hn. split; [discriminate|].
  intros w [= Hc _]. contradiction.
Qed.

(** The three ways [_apply_sensor_crop] can end, by the first of the
    twelve targets that is not passed over. *)
Lemma apply_sensor_crop_cases (media_ctl : nat → string → ProcOutcome)
      (w h : Z) (s : Sys) :
  ((∀ u, u ∈ crop_targets → passed_over (media_ctl u.1 u.2))
   ∧ _apply_sensor_crop media_ctl w h s
     = (Val false, logged WARNING "Could not apply sensor crop" s))
  ∨ ((∃ pre t post wrote,
        crop_targets = pre ++ t :: post
        ∧ (∀ u, u ∈ pre → passed_over (media_ctl u.1 u.2))
        ∧ media_ctl t.1 t.2 = Exited 0 wrote)
     ∧ _apply_sensor_crop media_ctl w h s = (Val true, s))
  ∨ ((∃ pre t post,
        crop_targets = pre ++ t :: post
        ∧ (∀ u, u ∈ pre → passed_over (media_ctl u.1 u.2))
        ∧ media_ctl t.1 t.2 = LaunchDenied)
     ∧ _apply_sensor_crop media_ctl w h s = (Exn PermissionError, s)).
Proof.
  unfold _apply_sensor_crop.
  destruct (crop_scan_first media_ctl crop_targets)
    as [Hall | (pre & t & post & Heq & Hpre & Ht)].
  - left. split; [exact Hall|].
    rewrite <- (app_nil_r crop_targets).
    rewrite (crop_scan_app media_ctl crop_targets [] Hall). reflexivity.
  - right. destruct (crop_scan_stops media_ctl pre post t Hpre) as [Hz Hd].
    apply not_passed_over in Ht as [Hden | [wrote Hok]].
    + right. split; [by exists pre, t, post|].
      rewrite Heq, (Hd Hden). reflexivity.
    + left. split; [by exists pre, t, post, wrote|].
      rewrite Heq, (Hz wrote Hok). reflexivity.
Qed.

(** [_apply_sensor_crop] tries the twelve targets in order (media devices
    0 to 5, each with the addresses 11-001a and 10-001a) and passes over
    every [media-ctl] process that times out, is not there, or exits with
    a status other than zero. The first target that is not passed over
    decides: a process that exits with status zero makes it answer
    [True]; a tool that may not be executed makes it raise
    [PermissionError], which the handler does not catch. When all twelve
    are passed over it answers [False] and logs one warning; in the other
    two cases it changes nothing. If no target is denied, it answers
    [True] exactly when some target exits with status zero. *)
Theorem apply_sensor_crop_scans_all_targets
        (media_ctl : nat → string → ProcOutcome) (w h : Z) (s : Sys) :
  let r := _apply_sensor_crop media_ctl w h s in
  (r = (Val true, s) ∨ r = (Exn PermissionError, s)
   ∨ r = (Val false, logged WARNING "Could not apply sensor crop" s))
  ∧ (r.1 = Val true
     ↔ ∃ pre t post wrote,
         crop_targets = pre ++ t :: post
         ∧ (∀ u, u ∈ pre → passed_over (media_ctl u.1 u.2))
         ∧ media_ctl t.1 t.2 = Exited 0 wrote)
  ∧ (r.1 = Exn PermissionError
     ↔ ∃ pre t post,
         crop_targets = pre ++ t :: post
         ∧ (∀ u, u ∈ pre → passed_over (media_ctl u.1 u.2))
         ∧ media_ctl t.1 t.2 = LaunchDenied)
  ∧ (r.1 = Val false
     ↔ ∀ u, u ∈ crop_targets → passed_over (media_ctl u.1 u.2))
  ∧ ((∀ n addr, media_ctl n addr ≠ LaunchDenied) →
     (r.1 = Val true
      ↔ ∃ n addr wrote,
          (n < 6)%nat ∧ (addr = "11-001a" ∨ addr = "10-001a")
          ∧ media_ctl n addr = Exited 0 wrote)).
Proof.
  intros r. subst r.
  assert (Hexcl : ∀ pre t post,
             crop_targets = pre ++ t :: post →
             (∀ u, u ∈ pre → passed_over (media_ctl u.1 u.2)) →
             (∀ wrote, media_ctl t.1 t.2 = Exited 0 wrote →
                _apply_sensor_crop media_ctl w h s = (Val true, s))
             ∧ (media_ctl t.1 t.2 = LaunchDenied →
                _apply_sensor_crop media_ctl w h s
                = (Exn PermissionError, s))).
  { intros pre t post Heq Hpre.
    destruct (crop_scan_stops media_ctl pre post t Hpre) as [Hz Hd].
    unfold _apply_sensor_crop. rewrite Heq.
    split; [intros wrote Hok; rewrite (Hz wrote Hok)
           | intros Hden; rewrite (Hd Hden)]; reflexivity. }
  assert (Hnone : (∀ u, u ∈ crop_targets → passed_over (media_ctl u.1 u.2)) →
                  _apply_sensor_crop media_ctl w h s
                  = (Val false,
                     logged WARNING "Could not apply sensor crop" s)).
  { intros Hall. unfold _apply_sensor_crop.
    rewrite <- (app_nil_r crop_targets).
    rewrite (crop_scan_app media_ctl crop_targets [] Hall). reflexivity. }
  destruct (apply_sensor_crop_cases media_ctl w h s)
    as [[Hall Hr] | [[Hex Hr] | [Hex Hr]]]; rewrite Hr; cbn [fst snd].
  - split; [auto|].
    split.
    { split; [discriminate|].
      intros (pre & t & post & wrote & Heq & Hpre & Hok).
      destruct (Hexcl pre t post Heq Hpre) as [Hz _].
      rewrite (Hz wrote Hok) in Hr. discriminate. }
    split.
    { split; [discriminate|].
      intros (pre & t & post & Heq & Hpre & Hden).
      destruct (Hexcl pre t post Heq Hpre) as [_ Hd].
      rewrite (Hd Hden) in Hr. discriminate. }
    split; [split; [intros _; exact Hall | reflexivity]|].
    intros _. split; [discriminate|].
    intros (n & a & wrote & Hn & Ha & Hok). exfalso.
    assert (Hin : (n, a) ∈ crop_targets)
      by (apply crop_targets_spec; split; assumption).
    destruct (Hall (n, a) Hin) as [_ Hz]. by apply (Hz wrote).
  - split; [auto|].
    split; [split; [intros _; exact Hex | reflexivity]|].
    split.
    { split; [discriminate|].
      intros (pre & t & post & Heq & Hpre & Hden).
      destruct (Hexcl pre t post Heq Hpre) as [_ Hd].
      rewrite (Hd Hden) in Hr. discriminate. }
    split.
    { split; [discriminate|]. intros Hall.
      rewrite (Hnone Hall) in Hr. discriminate. }
    intros _. split; [intros _|reflexivity].
    destruct Hex as (pre & [n a] & post & wrote & Heq & _ & Hok).
    assert (Hin : (n, a) ∈ crop_targets)
      by (rewrite Heq; apply elem_of_app; right; left).
    apply crop_targets_spec in Hin as [Hn Ha].
    exists n, a, wrote. split; [exact Hn|]. split; [exact Ha | exact Hok].
  - split; [auto|].
    split.
    { split; [discriminate|].
      intros (pre & t & post & wrote & Heq & Hpre & Hok).
      destruct (Hexcl pre t post Heq Hpre) as [Hz _].
      rewrite (Hz wrote Hok) in Hr. discriminate. }
    split; [split; [intros _; exact Hex | reflexivity]|].
    split.
    { split; [discriminate|]. intros Hall.
      rewrite (Hnone Hall) in Hr. discriminate. }
    intros Hnd. exfalso.
    destruct Hex as (pre & [n a] & post & _ & _ & Hden).
    exact (Hnd n a Hden).
Qed.

(** A [media-ctl] that may not be executed: the call raises at the
    first target. *)
Lemma apply_sensor_crop_denied (w h : Z) (s : Sys) :
  _apply_sensor_crop (λ _ _, LaunchDenied) w h s = (Exn PermissionError, s).
Proof. reflexivity. Qed.

(** ** Backend selection *)

(** [create_camera_backend] chooses the demo backend when that is
    forced, else the Pi camera when it can be constructed, else OpenCV
    when [cv2] can be imported and a camera opens, else the demo backend;
    a probe that fails with anything but a missing module is logged as a
    warning and the next one is tried. Constructing the demo backend
    imports [cv2] under a handler for [ImportError] only: when that
    import fails in another way the exception leaves
    [create_camera_backend], so the call raises exactly when [cv2] is
    broken and the demo backend is reached, forced or as the last
    resort. It touches neither the controller nor the disk. *)
Theorem create_camera_backend_priority (force_demo : bool) (pi : PiProbe)
        (cv2 : Cv2Import) (cv : CvProbe) (s : Sys) :
  let r := create_camera_backend force_demo pi cv2 cv s in
  let demo := match cv2 with
              | Cv2Broken => Exn RuntimeError
              | _ => Val DemoBackend
              end in
  r.1 = (if force_demo then demo
         else match pi with
              | PiAvailable => Val PiCamera2Backend
              | _ => match cv2, cv with
                     | Cv2Imported, CvCameraOpened => Val OpenCVBackend
                     | _, _ => demo
                     end
              end)
  ∧ ((∃ e, r.1 = Exn e)
     ↔ cv2 = Cv2Broken ∧ (force_demo = true ∨ pi ≠ PiAvailable))
  ∧ cam r.2 = cam s ∧ disk r.2 = disk s
  ∧ log r.2
    = log s
      ++ (if force_demo then []
          else
            let opencv_failed :=
              match cv2, cv with
              | Cv2Broken, _ => [(WARNING, "OpenCV initialization failed")]
              | Cv2Imported, CvInitError =>
                  [(WARNING, "OpenCV initialization failed")]
              | _, _ => []
              end in
            match pi with
            | PiAvailable => []
            | PiImportError => opencv_failed
            | PiInitError =>
                (WARNING, "PiCamera2 initialization failed") :: opencv_failed
            end).
Proof.
  intros r demo. subst r demo.
  destruct force_demo, pi, cv2, cv; cbn; rewrite ?app_nil_r, <- ?app_assoc;
    (split; [reflexivity|]);
    (split; [|repeat split; reflexivity]);
    (split; [intros [e He]; try discriminate He;
             (split; [reflexivity|]); first [by left | by right]
            | intros [Hb Hd]; try discriminate Hb;
              first [by eexists
                    | destruct Hd as [Hd | Hd];
                      [discriminate Hd | contradiction]]]).
Qed.

(** The installed [cv2] is broken and no Pi camera is there: the call
    raises. *)
Lemma create_camera_backend_broken_cv2 (s : Sys) :
  (create_camera_backend false PiImportError Cv2Broken CvNoCamera s).1
  = Exn RuntimeError
  ∧ (create_camera_backend true PiAvailable Cv2Broken CvCameraOpened s).1
    = Exn RuntimeError.
Proof. split; reflexivity. Qed.

(** ** cleanup *)

Lemma cleanup_result (stop_ok cleanup_ok : bool) (s : Sys) :
  ∃ s', SwingCamera_cleanup stop_ok cleanup_ok s = (Val tt, s')
        ∧ cam s' = cam (cancel_launch_monitor s).2
        ∧ disk s' = disk (cancel_launch_monitor s).2.
Proof.
  unfold SwingCamera_cleanup, try_except, bind, self, gets, when.
  cbv beta iota.
  pose proof (cancel_never_raises s) as Hnr.
  pose proof (cancel_idle s) as Hid.
  destruct (decide (lm_state (cam s) = IDLE)) as [Hi|Hn].
  - rewrite (bool_decide_eq_true_2 _ Hi), (Hid Hi). cbn [negb snd].
    unfold ret, SwingCamera_stop, try_except, backend_call, logger, modify,
      raise.
    destruct (recording (cam s)), stop_ok, cleanup_ok;
      eexists; repeat split; reflexivity.
  - rewrite (bool_decide_eq_false_2 _ Hn). cbn [negb]. cbv beta iota.
    destruct (cancel_launch_monitor s) as [rc s1]. cbn [fst snd] in *.
    destruct Hnr as [-> | ->];
      unfold ret, SwingCamera_stop, try_except, backend_call, logger, modify,
        raise;
      destruct (recording (cam s1)), stop_ok, cleanup_ok;
      eexists; repeat split; reflexivity.
Qed.

(** [cleanup] never raises, whether or not the backend's [stop] and
    [cleanup] fail. It leaves the controller and the disk exactly as
    [cancel_launch_monitor] would: the launch monitor is [IDLE]
    afterwards. *)
Theorem cleanup_never_raises (stop_ok cleanup_ok : bool) (s : Sys) :
  let r := SwingCamera_cleanup stop_ok cleanup_ok s in
  r.1 = Val tt
  ∧ lm_state (cam r.2) = IDLE
  ∧ cam r.2 = cam (cancel_launch_monitor s).2
  ∧ disk r.2 = disk (cancel_launch_monitor s).2.
Proof.
  intros r. subst r.
  destruct (cleanup_result stop_ok cleanup_ok s) as (s' & -> & H2 & H3).
  cbn [fst snd].
  split; [reflexivity|]. split; [rewrite H2; apply cancel_ends_idle|].
  split; assumption.
Qed.

(** ** get_lm_status *)





(** ** The worker's timeout with the Pi camera *)

Lemma pi_wait_quiet (fuel : nat) (start dms : Z) :
  ∀ s : Sys,
    signal_due s = None →
    cam (pi_wait fuel start dms None s).2 = cam s
    ∧ disk (pi_wait fuel start dms None s).2 = disk s.
Proof.
  induction fuel as [|fuel IH]; intros s Hq; [split; reflexivity|].
  rewrite pi_wait_step. simpl cancel_requested. unfold ret.
  destruct (now s - start <? dms); [|split; reflexivity].
  assert (Ha : advance 100 s
               = mkSys (cam s) (disk s) (now s + 100) None (log s)
                       (uploads s) (frames s))
    by (unfold advance; rewrite Hq; reflexivity).
  rewrite Ha.
  destruct (IH (mkSys (cam s) (disk s) (now s + 100) None (log s)
                      (uploads s) (frames s)) eq_refl) as [H1 H2].
  split; [exact H1 | exact H2].
Qed.

Lemma worker_leave_now (outcome : Res string) (s : Sys) :
  now (worker_leave outcome s).2 = now s.
Proof.
  unfold worker_leave, lm_guarded, lm_handler, lm_after_record.
  destruct outcome; open_sys s; py_run; reflexivity.
Qed.

Lemma temp_name_plain (ts : string) :
  plain_name ts →
  PurePath.joinpath ("temp_lm_" +:+ ts +:+ ".mp4")
  = "temp_lm_" +:+ ts +:+ ".mp4".
Proof.
  intros Hp. apply joinpath_plain; [|discriminate..].
  unfold plain_name in *. rewrite !contains_app, Hp. reflexivity.
Qed.

(** With the Pi camera, the format [mp4] and nobody cancelling, an armed
    launch monitor times out cleanly: the worker records for the whole of
    [lm_max_recording_duration], then removes the temp recording, returns
    the state to [IDLE] with the temp path and the arm timestamp cleared,
    and clears the [recording] flag. *)
Theorem lm_timeout_cleans_up (strftime : Z → string) (hw : Hardware)
        (s : Sys) :
  lm_state (cam s) = IDLE →
  recording (cam s) = false →
  backend (cam s) = PiCamera2Backend →
  pi_healthy hw (cam s) →
  0 ≤ lm_max_recording_duration (config (cam s)) →
  extension (cam s) = ".mp4" →
  plain_name (strftime (now s)) →
  signal_due s = None →
  ("temp_lm_" +:+ strftime (now s) +:+ ".mp4") ∉ stuck (disk s) →
  let s1 := (arm_launch_monitor strftime s).2 in
  let r := _lm_continuous_record hw s1 in
  lm_temp_file (cam s1) = Some ("temp_lm_" +:+ strftime (now s) +:+ ".mp4")
  ∧ r.1 = Val tt
  ∧ now r.2 = now s + 1000 * lm_max_recording_duration (config (cam s))
  ∧ lm_state (cam r.2) = IDLE
  ∧ lm_temp_file (cam r.2) = None
  ∧ lm_recording_start_time (cam r.2) = None
  ∧ recording (cam r.2) = false
  ∧ (("temp_lm_" +:+ strftime (now s) +:+ ".mp4") ∉ files (disk r.2)).
Proof.
  intros Hi Hr Hb Hh Hd Hext Hp Hq Hst s1 r. subst s1 r.
  rewrite arm_idle by assumption. cbn [snd]. rewrite Hext.
  rewrite temp_name_plain by exact Hp.
  set (tmp := "temp_lm_" +:+ strftime (now s) +:+ ".mp4") in *.
  set (s1 := with_cam (set_lm_recording_thread (Some WorkerThread)) _).
  split; [reflexivity|].
  rewrite lm_continuous_record_split.
  set (s2 := with_cam (set_recording true) s1).
  assert (Hcall : worker_record_call hw s2
                  = PiCamera2_record hw (Some tmp)
                      (lm_max_recording_duration (config (cam s))) None s2)
    by (apply (worker_record_call_pi hw s2); exact Hb).
  assert (Hh2 : pi_healthy hw (cam s2)) by exact Hh.
  rewrite Hcall.
  destruct (pi_record_full_duration hw s2 (Some tmp)
              (lm_max_recording_duration (config (cam s))) Hh2 Hd)
    as [Hval Hnow].
  rewrite (pi_record_healthy hw s2 (Some tmp)
             (lm_max_recording_duration (config (cam s))) None Hh2)
    in Hnow |- *.
  cbn [fst snd] in Hnow |- *.
  assert (Hmp4 : mp4_name (py_str (Some tmp)) = tmp).
  { unfold tmp. simpl py_str.
    change ("temp_lm_" +:+ strftime (now s) +:+ ".mp4")
      with (("temp_lm_" +:+ strftime (now s)) +:+ ".mp4").
    apply mp4_name_mp4. }
  rewrite Hmp4 in Hnow |- *.
  set (s3 := with_files (λ fs, fs ∪ {[tmp]}) s2) in *.
  destruct (pi_wait_quiet
              (pi_fuel (1000 * lm_max_recording_duration (config (cam s))))
              (now s2)
              (1000 * lm_max_recording_duration (config (cam s)))
              s3 Hq) as [Hcam Hdisk].
  set (s4 := (pi_wait _ _ _ None s3).2) in *.
  assert (Hce : lm_cancel_event (cam s4) = false) by (rewrite Hcam; reflexivity).
  assert (Htmp : lm_temp_file (cam s4) = Some tmp)
    by (rewrite Hcam; reflexivity).
  assert (Hst4 : tmp ∉ stuck (disk s4)) by (rewrite Hdisk; exact Hst).
  destruct (worker_leave_timeout_removes_temp s4 tmp tmp Hce Htmp Hst4)
    as (H1 & H2 & H3 & H4 & H5 & H6).
  split; [exact H1|].
  split; [rewrite worker_leave_now; exact Hnow|].
  repeat (split; [assumption|]). exact H6.
Qed.

Lemma lm_timeout_cleans_up_witness :
  let s := Sample.fresh PiCamera2Backend "mp4" in
  let s1 := (arm_launch_monitor Sample.stamp s).2 in
  lm_state (cam s) = IDLE
  ∧ recording (cam s) = false
  ∧ backend (cam s) = PiCamera2Backend
  ∧ pi_healthy Sample.steady (cam s)
  ∧ 0 ≤ lm_max_recording_duration (config (cam s))
  ∧ extension (cam s) = ".mp4"
  ∧ plain_name (Sample.stamp (now s))
  ∧ signal_due s = None
  ∧ ("temp_lm_" +:+ Sample.stamp (now s) +:+ ".mp4" ∉ stuck (disk s))
  ∧ now (_lm_continuous_record Sample.steady s1).2 = 11000
  ∧ lm_state (cam (_lm_continuous_record Sample.steady s1).2) = IDLE.
Proof.
  cbv zeta.
  set (s := Sample.fresh PiCamera2Backend "mp4").
  assert (Hh : pi_healthy Sample.steady (cam s)).
  { split; [reflexivity|]. split; [discriminate|]. right. discriminate. }
  assert (Hd : 0 ≤ lm_max_recording_duration (config (cam s)))
    by (simpl; lia).
  assert (Hst : "temp_lm_" +:+ Sample.stamp (now s) +:+ ".mp4"
                ∉ stuck (disk s)) by (simpl; set_solver).
  destruct (lm_timeout_cleans_up Sample.stamp Sample.steady s
              eq_refl eq_refl eq_refl Hh Hd eq_refl eq_refl eq_refl Hst)
    as (_ & _ & Hnow & Hidle & _).
  split; [reflexivity|]. split; [reflexivity|]. split; [reflexivity|].
  split; [exact Hh|]. split; [exact Hd|]. split; [reflexivity|].
  split; [reflexivity|]. split; [reflexivity|]. split; [exact Hst|].
  split; [exact Hnow | exact Hidle].
Defined.

(** ** A capture named swing_... is listed *)

Lemma backend_record_garbled (hw : Hardware) (s : Sys) (p : option string)
      (d : Z) (ce : option EventRef) :
  garbled (disk (backend_record hw p d ce s).2) = garbled (disk s).
Proof.
  destruct (backend_record_effect hw s p d ce) as [_ He].
  by apply record_effect_disk in He as (_ & _ & _ & Hg & _).
Qed.

Lemma swing_video_listed (n : string) :
  plain_name n → Str.startswith n "swing_" = true →
  plain_name (n +:+ ".mp4")
  ∧ PurePath.joinpath (n +:+ ".mp4") = n +:+ ".mp4"
  ∧ PurePath.is_entry (n +:+ ".mp4") = true
  ∧ PurePath.glob_swing (n +:+ ".mp4") = true
  ∧ is_video (n +:+ ".mp4") = true.
Proof.
  intros Hp Hs. destruct (startswith_swing_inv n Hs) as [r ->].
  assert (Hne : "swing_" +:+ r ≠ "") by discriminate.
  destruct (video_name_plain _ Hp Hne) as (Hpv & Hnev & Hndv).
  split; [exact Hpv|].
  split; [apply joinpath_plain; assumption|].
  split.
  { unfold PurePath.is_entry. unfold plain_name in Hpv. rewrite Hpv.
    reflexivity. }
  split.
  { unfold PurePath.glob_swing. rewrite startswith_swing_intro.
    change (Str.drop 6 (("swing_" +:+ r) +:+ ".mp4")) with (r +:+ ".mp4").
    rewrite contains_app. apply orb_true_r. }
  unfold is_video, PurePath.suffix. rewrite name_plain by exact Hpv.
  unfold PurePath.name_suffix.
  change ".mp4" with (String PurePath.dot "mp4").
  rewrite rcut_app_last by reflexivity. reflexivity.
Qed.

Lemma chosen_name_path (strftime : Z → string) (custom : option string)
      (s : Sys) :
  plain_name (chosen_name custom (strftime (now s))) →
  Str.startswith (chosen_name custom (strftime (now s))) "swing_" = true →
  mp4_name (capture_output_path strftime custom s)
  = chosen_name custom (strftime (now s)) +:+ ".mp4".
Proof.
  intros Hp Hs. unfold capture_output_path.
  set (n := chosen_name custom (strftime (now s))) in *.
  destruct (startswith_swing_inv n Hs) as [r Hr].
  rewrite joinpath_plain; [apply mp4_name_extension|..].
  - unfold plain_name in *. rewrite contains_app, Hp.
    destruct (extension_cases (cam s)) as [-> | ->]; reflexivity.
  - rewrite Hr. discriminate.
  - rewrite Hr. discriminate.
Qed.

(** A capture whose chosen name is a single path component beginning
    with [swing_] (the default name is one) and that answers with a path
    is then listed by [get_recordings], provided no sidecar on the disk
    is unreadable. *)
Theorem swing_named_capture_is_listed (strftime : Z → string)
        (hw : Hardware) (custom : option string) (s : Sys) (p : string) :
  garbled (disk s) = ∅ →
  plain_name (chosen_name custom (strftime (now s))) →
  Str.startswith (chosen_name custom (strftime (now s))) "swing_" = true →
  (capture_swing strftime hw custom s).1 = Val (Some p) →
  let s' := (capture_swing strftime hw custom s).2 in
  p = chosen_name custom (strftime (now s)) +:+ ".mp4"
  ∧ ∃ names, get_recordings s' = (Val names, s') ∧ p ∈ names.
Proof.
  intros Hg Hp Hs Hrun s'. subst s'.
  destruct (swing_video_listed _ Hp Hs) as (Hpv & Hjoin & He & Hgl & Hv).
  destruct (recording (cam s)) eqn:Hrec.
  { rewrite capture_swing_busy in Hrun by exact Hrec. discriminate. }
  rewrite capture_swing_cases in Hrun |- * by exact Hrec.
  pose proof (backend_record_garbled hw (capture_started s)
                (Some (capture_output_path strftime custom s))
                (duration (config (cam s))) None) as Hgb.
  destruct (backend_record hw _ _ _ _) as [[actual|e] s2] eqn:Hback;
    [|discriminate].
  apply backend_record_value in Hback. simpl py_str in Hback.
  rewrite chosen_name_path in Hback by assumption. subst actual.
  rewrite Hjoin in Hrun |- *.
  destruct (_save_metadata _ _ _) as [[u|e] s3] eqn:Hmeta; [|discriminate].
  assert (Hg3 : garbled (disk s3) = ∅).
  { revert Hmeta. unfold _save_metadata, bind, os_path_getsize, raise,
      open_write.
    case_bool_decide; [|intros [=]].
    destruct (PurePath.with_suffix _ _); [|intros [=]].
    case_bool_decide; [intros [=]|].
    intros [= _ <-]. cbn in Hgb |- *. rewrite Hgb. exact Hg. }
  apply save_metadata_ok in Hmeta as (Hfile & _).
  cbn [fst snd] in Hrun |- *. injection Hrun as <-.
  split; [reflexivity|].
  set (s4 := if upload_enabled (config (cam s))
             then upload_started _ s3 else s3).
  assert (Hd4 : disk s4 = disk s3)
    by (subst s4; destruct (upload_enabled _); reflexivity).
  assert (Hall : Forall (λ f, f ∈ files (disk s4)
                              ∧ PurePath.is_entry f = true)
                   (merge_sort String.le (glob_swing_entries (disk s4)))).
  { apply Forall_forall. intros f Hf.
    rewrite merge_sort_Permutation in Hf.
    apply glob_swing_entries_spec in Hf as (H1 & H2 & _). split; assumption. }
  eexists. split.
  { rewrite get_recordings_unfold.
    apply (get_recordings_loop_clean _ [] s4); [|exact Hall].
    rewrite Hd4. exact Hg3. }
  rewrite app_nil_l, list_elem_of_filter, merge_sort_Permutation.
  split; [exact Hv|]. unfold glob_swing_entries.
  rewrite list_elem_of_filter, elem_of_elements, andb_true_iff, Hd4.
  split; [split; assumption | exact Hfile].
Qed.

Lemma swing_named_capture_is_listed_witness :
  let s := Sample.fresh DemoBackend "mp4" in
  let r := capture_swing Sample.stamp Sample.bare None s in
  garbled (disk s) = ∅
  ∧ plain_name (chosen_name None (Sample.stamp (now s)))
  ∧ Str.startswith (chosen_name None (Sample.stamp (now s))) "swing_" = true
  ∧ r.1 = Val (Some "swing_20250101_120000.mp4")
  ∧ ∃ names, get_recordings r.2 = (Val names, r.2)
             ∧ "swing_20250101_120000.mp4" ∈ names.
Proof.
  cbv zeta.
  assert (Hrun : (capture_swing Sample.stamp Sample.bare None
                    (Sample.fresh DemoBackend "mp4")).1
                 = Val (Some "swing_20250101_120000.mp4"))
    by (vm_compute; reflexivity).
  destruct (swing_named_capture_is_listed Sample.stamp Sample.bare None
              (Sample.fresh DemoBackend "mp4") "swing_20250101_120000.mp4"
              eq_refl eq_refl eq_refl Hrun) as (_ & Hlist).
  split; [reflexivity|]. split; [reflexivity|]. split; [reflexivity|].
  split; [exact Hrun | exact Hlist].
Defined.

(** ** A capture that succeeds *)

Lemma capture_path_plain (strftime : Z → string) (custom : option string)
      (s : Sys) :
  plain_name (chosen_name custom (strftime (now s))) →
  chosen_name custom (strftime (now s)) ≠ "" →
  mp4_name (capture_output_path strftime custom s)
  = chosen_name custom (strftime (now s)) +:+ ".mp4".
Proof.
  intros Hp Hne. unfold capture_output_path.
  set (n := chosen_name custom (strftime (now s))) in *.
  rewrite joinpath_plain; [apply mp4_name_extension|..].
  - unfold plain_name in *. rewrite contains_app, Hp.
    destruct (extension_cases (cam s)) as [-> | ->]; reflexivity.
  - destruct n; [contradiction|discriminate].
  - destruct n as [|a [|b n]]; [contradiction|..];
      destruct (extension_cases (cam s)) as [-> | ->]; discriminate.
Qed.

(** With a Pi camera that accepts the request, a chosen name that is a
    single non-empty path component and a writable sidecar, a capture
    succeeds: it lasts exactly the configured duration, answers with the
    [.mp4] path whatever the configured format, leaves the video and its
    [.json] sidecar on the disk beside everything that was there, clears
    the [recording] flag, sets the recording event, and starts one
    upload exactly when uploads are enabled. *)
Theorem capture_swing_pi_succeeds (strftime : Z → string) (hw : Hardware)
        (custom : option string) (s : Sys) :
  recording (cam s) = false →
  backend (cam s) = PiCamera2Backend →
  pi_healthy hw (cam s) →
  0 ≤ duration (config (cam s)) →
  plain_name (chosen_name custom (strftime (now s))) →
  chosen_name custom (strftime (now s)) ≠ "" →
  (chosen_name custom (strftime (now s)) +:+ ".json") ∉ readonly (disk s) →
  let n := chosen_name custom (strftime (now s)) in
  let r := capture_swing strftime hw custom s in
  r.1 = Val (Some (n +:+ ".mp4"))
  ∧ now r.2 = now s + 1000 * duration (config (cam s))
  ∧ (∀ q, q ∈ files (disk r.2)
          ↔ q ∈ files (disk s) ∨ q = n +:+ ".mp4" ∨ q = n +:+ ".json")
  ∧ recording (cam r.2) = false
  ∧ recording_event (cam r.2) = true
  ∧ uploads r.2
    = (if upload_enabled (config (cam s)) then uploads s ++ [n +:+ ".mp4"]
       else uploads s).
Proof.
  intros Hr Hb Hh Hd Hp Hne Hro n r. subst r.
  rewrite capture_swing_cases by exact Hr.
  destruct (video_name_plain n Hp Hne) as (Hpv & Hnev & Hndv).
  assert (Hrec : backend_record hw
                   (Some (capture_output_path strftime custom s))
                   (duration (config (cam s))) None (capture_started s)
                 = PiCamera2_record hw
                     (Some (capture_output_path strftime custom s))
                     (duration (config (cam s))) None (capture_started s)).
  { unfold backend_record. unfold bind at 1. unfold self, gets.
    replace (backend (cam (capture_started s))) with PiCamera2Backend
      by (symmetry; exact Hb).
    reflexivity. }
  assert (Hh2 : pi_healthy hw (cam (capture_started s))) by exact Hh.
  destruct (pi_record_full_duration hw (capture_started s)
              (Some (capture_output_path strftime custom s))
              (duration (config (cam s))) Hh2 Hd) as [_ Hnow].
  rewrite Hrec.
  rewrite (pi_record_healthy hw (capture_started s)
             (Some (capture_output_path strftime custom s))
             (duration (config (cam s))) None Hh2) in Hnow |- *.
  cbn [fst snd] in Hnow. simpl py_str in Hnow |- *.
  rewrite capture_path_plain in Hnow |- * by assumption. fold n in Hnow |- *.
  destruct (pi_wait_returns (pi_fuel (1000 * duration (config (cam s))))
              (now (capture_started s)) (1000 * duration (config (cam s)))
              None
              (with_files (λ fs, fs ∪ {[n +:+ ".mp4"]}) (capture_started s)))
    as (s2 & Hw & Hdisk & Hlog & Hfr & Hup & _).
  rewrite Hw in Hnow |- *. cbn [fst snd] in Hnow |- *.
  rewrite (joinpath_plain _ Hpv Hnev Hndv).
  assert (Hfile : n +:+ ".mp4" ∈ files (disk (capture_recorded s2))).
  { simpl. rewrite Hdisk. simpl.
    apply elem_of_union_r, elem_of_singleton. reflexivity. }
  assert (Hws : PurePath.with_suffix (n +:+ ".mp4") ".json"
                = Some (n +:+ ".json")).
  { rewrite with_suffix_plain by assumption.
    rewrite name_stem_video by exact Hne. reflexivity. }
  assert (Hro2 : (n +:+ ".json") ∉ readonly (disk (capture_recorded s2)))
    by (simpl; rewrite Hdisk; exact Hro).
  rewrite (save_metadata_writes _ (strftime (now s)) _ _ Hfile Hws Hro2).
  cbn [fst snd].
  split; [reflexivity|].
  assert (Hfiles : ∀ s5, disk s5 = disk (with_files (λ fs, fs ∪ {[n +:+ ".json"]})
                                           (capture_recorded s2)) →
                   ∀ q, q ∈ files (disk s5)
                        ↔ q ∈ files (disk s) ∨ q = n +:+ ".mp4"
                          ∨ q = n +:+ ".json").
  { intros s5 -> q. simpl. rewrite Hdisk. simpl.
    rewrite !elem_of_union, !elem_of_singleton. tauto. }
  destruct (upload_enabled (config (cam s)));
    (split; [simpl; exact Hnow|]);
    (split; [apply Hfiles; reflexivity|]);
    (split; [reflexivity|]); (split; [reflexivity|]);
    simpl; rewrite Hup; reflexivity.
Qed.

Lemma capture_swing_pi_succeeds_witness :
  let s := Sample.fresh PiCamera2Backend "h264" in
  let r := capture_swing Sample.stamp Sample.steady (Some "shot") s in
  recording (cam s) = false
  ∧ backend (cam s) = PiCamera2Backend
  ∧ pi_healthy Sample.steady (cam s)
  ∧ 0 ≤ duration (config (cam s))
  ∧ plain_name (chosen_name (Some "shot") (Sample.stamp (now s)))
  ∧ chosen_name (Some "shot") (Sample.stamp (now s)) ≠ ""
  ∧ ("shot.json" ∉ readonly (disk s))
  ∧ r.1 = Val (Some "shot.mp4")
  ∧ now r.2 = 6000.
Proof.
  cbv zeta.
  set (s := Sample.fresh PiCamera2Backend "h264").
  assert (Hh : pi_healthy Sample.steady (cam s)).
  { split; [reflexivity|]. split; [discriminate|]. right. discriminate. }
  assert (Hd : 0 ≤ duration (config (cam s))) by (simpl; lia).
  assert (Hne : chosen_name (Some "shot") (Sample.stamp (now s)) ≠ "")
    by discriminate.
  assert (Hro : chosen_name (Some "shot") (Sample.stamp (now s)) +:+ ".json"
                ∉ readonly (disk s)) by (simpl; set_solver).
  destruct (capture_swing_pi_succeeds Sample.stamp Sample.steady
              (Some "shot") s eq_refl eq_refl Hh Hd eq_refl Hne Hro)
    as (Hres & Hnow & _).
  split; [reflexivity|]. split; [reflexivity|]. split; [exact Hh|].
  split; [exact Hd|]. split; [reflexivity|]. split; [exact Hne|].
  split; [exact Hro|]. split; [exact Hres | exact Hnow].
Defined.

(** ** A capture whose record call raises (C7) *)

Lemma string_app_inv_head (n a b : string) : n +:+ a = n +:+ b → a = b.
Proof.
  induction n as [|c n IH]; simpl; intros H; [exact H|].
  injection H as H. by apply IH.
Qed.

(** The sidecar of a capture whose name is a single path component. *)
Lemma capture_sidecar_plain (n : string) :
  plain_name n → n ≠ "" →
  PurePath.with_suffix (PurePath.joinpath (n +:+ ".mp4")) ".json"
  = Some (n +:+ ".json").
Proof.
  intros Hp Hne.
  destruct (video_name_plain n Hp Hne) as (Hpv & Hnev & Hndv).
  rewrite (joinpath_plain _ Hpv Hnev Hndv).
  rewrite with_suffix_plain by assumption.
  rewrite name_stem_video by exact Hne. reflexivity.
Qed.

(** C7. If the backend's [record] raises during [capture_swing], at its
    start or after it has recorded for a while, the exception is caught.
    Whatever the backend's [record] does: it is called with the
    recording flag set and the recording event cleared, on a state that
    is otherwise the caller's; when it raises, the flag is cleared and
    the event set, the error is logged, and the call returns its failure
    value [None]; nothing else happens after [record] has raised, so the
    disk, the uploads and the clock are as [record] left them. With one
    of the three backends of the code, the flag is still set when
    [record] raises, no upload has been started, and the disk is as it
    was before the call or has the video file that [record] had begun:
    no sidecar is written for the failed capture. *)
Theorem capture_swing_record_failure (strftime : Z → string)
        (record : option string → Z → option EventRef → M string)
        (custom : option string) (s s2 : Sys) (e : PyExc) :
  recording (cam s) = false →
  record (Some (capture_output_path strftime custom s))
    (duration (config (cam s))) None (capture_started s) = (Exn e, s2) →
  let n := chosen_name custom (strftime (now s)) in
  let video := mp4_name (capture_output_path strftime custom s) in
  let r := capture_swing_with strftime record custom s in
  r = (Val None, capture_recorded (logged ERROR "Recording failed" s2))
  ∧ recording (cam (capture_started s)) = true
  ∧ recording_event (cam (capture_started s)) = false
  ∧ disk (capture_started s) = disk s
  ∧ recording (cam r.2) = false
  ∧ recording_event (cam r.2) = true
  ∧ log r.2 = log s2 ++ [(ERROR, "Recording failed")]
  ∧ disk r.2 = disk s2
  ∧ uploads r.2 = uploads s2
  ∧ now r.2 = now s2
  ∧ ∀ hw, record = backend_record hw →
      capture_swing strftime hw custom s = r
      ∧ recording (cam s2) = true
      ∧ uploads r.2 = uploads s
      ∧ (disk s2 = disk s
         ∨ disk s2 = disk (with_files (λ fs, fs ∪ {[video]}) s))
      ∧ (∀ q, q ∈ files (disk r.2) → q ≠ video → q ∈ files (disk s))
      ∧ (plain_name n → n ≠ "" →
         PurePath.with_suffix (PurePath.joinpath video) ".json"
         = Some (n +:+ ".json")
         ∧ ((n +:+ ".json") ∉ files (disk s) →
            (n +:+ ".json") ∉ files (disk r.2))).
Proof.
  intros Hr Hrec n video r. subst r.
  rewrite capture_swing_with_cases by exact Hr. rewrite Hrec.
  do 10 (split; [reflexivity|]).
  intros hw ->.
  pose proof (backend_record_effect hw (capture_started s)
                (Some (capture_output_path strftime custom s))
                (duration (config (cam s))) None) as [_ Heff].
  rewrite Hrec in Heff. cbn [snd py_str] in Heff. fold video in Heff.
  pose proof (record_effect_cam _ _ _ Heff) as (_ & _ & Hflag & _).
  destruct Heff as (Hdisk & Hup & _).
  assert (Hsub : ∀ q, q ∈ files (disk s2) → q ≠ video → q ∈ files (disk s)).
  { intros q Hq Hne. destruct Hdisk as [Hd | Hd]; rewrite Hd in Hq.
    - exact Hq.
    - simpl in Hq. apply elem_of_union in Hq as [Hq | Hq]; [exact Hq|].
      apply elem_of_singleton in Hq. contradiction. }
  split.
  { rewrite capture_swing_cases by exact Hr. rewrite Hrec. reflexivity. }
  split; [rewrite Hflag; reflexivity|].
  split; [exact Hup|]. split; [exact Hdisk|].
  split; [exact Hsub|].
  intros Hp Hne. subst video.
  rewrite (capture_path_plain strftime custom s Hp Hne) in *. fold n.
  split; [by apply capture_sidecar_plain|].
  intros Hnot Hin. apply Hnot. apply (Hsub _ Hin).
  intros Heq. apply string_app_inv_head in Heq. discriminate Heq.
Qed.

Lemma capture_swing_record_failure_witness :
  let s := Sample.fresh PiCamera2Backend "h264" in
  let rec := backend_record Sample.failing_late
               (Some (capture_output_path Sample.stamp (Some "shot") s))
               (duration (config (cam s))) None (capture_started s) in
  let r := capture_swing Sample.stamp Sample.failing_late (Some "shot") s in
  recording (cam s) = false
  ∧ rec = (Exn RuntimeError, rec.2)
  ∧ now rec.2 = 6000
  ∧ files (disk rec.2) = {["shot.mp4"]}
  ∧ r.1 = Val None
  ∧ recording (cam rec.2) = true
  ∧ recording (cam r.2) = false
  ∧ disk r.2 = disk rec.2
  ∧ ("shot.json" ∉ files (disk r.2)).
Proof.
  cbv zeta.
  set (s := Sample.fresh PiCamera2Backend "h264").
  set (rec := backend_record Sample.failing_late
                (Some (capture_output_path Sample.stamp (Some "shot") s))
                (duration (config (cam s))) None (capture_started s)).
  assert (Hrec : rec = (Exn RuntimeError, rec.2))
    by (vm_compute; reflexivity).
  assert (Hp : plain_name (chosen_name (Some "shot") (Sample.stamp (now s))))
    by reflexivity.
  assert (Hne : chosen_name (Some "shot") (Sample.stamp (now s)) ≠ "")
    by discriminate.
  assert (Hnot : chosen_name (Some "shot") (Sample.stamp (now s)) +:+ ".json"
                 ∉ files (disk s)) by (simpl; apply not_elem_of_empty).
  destruct (capture_swing_record_failure Sample.stamp
              (backend_record Sample.failing_late)
              (Some "shot") s rec.2 RuntimeError eq_refl Hrec)
    as (Hres & _ & _ & _ & Hflag & _ & _ & Hdisk & _ & _ & Hhw).
  destruct (Hhw Sample.failing_late eq_refl)
    as (Heq & Hset & _ & _ & _ & Hside).
  destruct (Hside Hp Hne) as [_ Hside'].
  split; [reflexivity|]. split; [exact Hrec|].
  split; [vm_compute; reflexivity|]. split; [vm_compute; reflexivity|].
  split; [rewrite Heq, Hres; reflexivity|]. split; [exact Hset|].
  split; [rewrite Heq; exact Hflag|].
  split; [rewrite Heq; exact Hdisk|].
  rewrite Heq. exact (Hside' Hnot).
Defined.

(** ** _load_config *)

(** A configuration file can override and add settings but never remove
    one: whatever JSON object it holds, each of the twelve default keys
    is present in the loaded configuration, a key of the file has the
    file's value, and every other key keeps its default. The key
    [auto_exposure] has no default, so it is present only if the file
    sets it. *)
Theorem load_config_keeps_defaults (user_config : gmap string JValue) :
  ∃ c, _load_config (ConfigObject user_config) = Val c
       ∧ (∀ k, k ∈ default_keys → is_Some (c !! k))
       ∧ (∀ k v, user_config !! k = Some v → c !! k = Some v)
       ∧ (∀ k, user_config !! k = None → c !! k = default_config !! k)
       ∧ c !! "auto_exposure" = user_config !! "auto_exposure".
Proof.
  eexists. split; [reflexivity|]. split; [|split; [|split]].
  - intros k Hk. apply lookup_union_is_Some. right.
    unfold default_keys in Hk.
    repeat (apply elem_of_cons in Hk as [->|Hk]; [by eexists|]).
    apply elem_of_nil in Hk. contradiction.
  - intros k v Hk. apply lookup_union_Some_l. exact Hk.
  - intros k Hk. apply lookup_union_r. exact Hk.
  - destruct (user_config !! "auto_exposure") as [v|] eqn:Hu.
    + apply lookup_union_Some_l. exact Hu.
    + rewrite lookup_union_r by exact Hu. reflexivity.
Qed.

(** ** start and stop *)

Lemma start_reraises_stop_swallows (backend_ok : bool) (s : Sys) :
  (SwingCamera_start backend_ok s).1
  = (if backend_ok then Val tt else Exn RuntimeError)
  ∧ (SwingCamera_stop backend_ok s).1 = Val tt
  ∧ (backend_ok = false →
     log (SwingCamera_start backend_ok s).2
     = log s ++ [(ERROR, "Camera start failed")]
     ∧ log (SwingCamera_stop backend_ok s).2
       = log s ++ [(ERROR, "Camera stop failed")]).
Proof.
  destruct backend_ok; (split; [reflexivity|]); (split; [reflexivity|]);
    intros H; [discriminate H | split; reflexivity].
Qed.

